(** * Grab-and-Go: the page scraper and the Discord delivery guard of popup.js

    A shallow embedding of [getSystemData] (with the helpers nested in it)
    and of the click handler of the "send to Discord" button, followed by the
    properties of the extraction pipeline and of the delivery guard.

    Conventions of the embedding
    - A JavaScript string is a [string]; every [ascii] stands for one code
      unit, so the model covers the code units 0..255.
    - [null] is [None]; a JavaScript condition on a value that may be [null]
      or a string goes through [truthy].
    - The page is a tree of [node]s; computed styles are data of the tree.
    - [console.log] and the queries on [document] are recorded, in order, in
      the trace of a small writer monad. *)

From Stdlib Require Import String Ascii List Bool Arith ZArith Lia.
From Stdlib Require Import DecimalString.
Import ListNotations.

Local Open Scope string_scope.
Local Open Scope list_scope.
Local Open Scope nat_scope.

Infix "+++" := String.append (right associativity, at level 60).

(* ------------------------------------------------------------------------- *)
(** ** JavaScript built-ins used by popup.js *)
(* ------------------------------------------------------------------------- *)

Module JS.

(** The code units that [String.prototype.trim], [parseInt] and [Number]
    skip: TAB, LF, VT, FF, CR, SPACE and NO-BREAK SPACE. *)
Definition isWhiteSpace (c : ascii) : bool :=
  let n := nat_of_ascii c in
  ((9 <=? n) && (n <=? 13)) || (n =? 32) || (n =? 160).

Definition isDigit (c : ascii) : bool :=
  let n := nat_of_ascii c in (48 <=? n) && (n <=? 57).

Definition isHexDigit (c : ascii) : bool :=
  let n := nat_of_ascii c in
  isDigit c || ((65 <=? n) && (n <=? 70)) || ((97 <=? n) && (n <=? 102)).

Definition isOctalDigit (c : ascii) : bool :=
  let n := nat_of_ascii c in (48 <=? n) && (n <=? 55).

Definition isBinaryDigit (c : ascii) : bool :=
  let n := nat_of_ascii c in (48 <=? n) && (n <=? 49).

(** A string in a condition: the empty string is falsy. *)
Definition truthyString (s : string) : bool :=
  match s with EmptyString => false | String _ _ => true end.

(** A value that is [null] or a string, in a condition. *)
Definition truthy (v : option string) : bool :=
  match v with None => false | Some s => truthyString s end.

Fixpoint trimStart (s : string) : string :=
  match s with
  | EmptyString => EmptyString
  | String c rest => if isWhiteSpace c then trimStart rest else s
  end.

(** [trimEnd] keeps a code unit when it is not white space or when something
    is kept after it. *)
Fixpoint trimEnd (s : string) : string :=
  match s with
  | EmptyString => EmptyString
  | String c rest =>
      match trimEnd rest with
      | EmptyString => if isWhiteSpace c then EmptyString else String c EmptyString
      | kept => String c kept
      end
  end.

Definition trim (s : string) : string := trimEnd (trimStart s).

(** [s.includes(sub)] *)
Fixpoint includes (s sub : string) : bool :=
  String.prefix sub s ||
  match s with
  | EmptyString => false
  | String _ rest => includes rest sub
  end.

Definition upperChar (c : ascii) : ascii :=
  let n := nat_of_ascii c in
  if (97 <=? n) && (n <=? 122) then ascii_of_nat (n - 32) else c.

Definition lowerChar (c : ascii) : ascii :=
  let n := nat_of_ascii c in
  if (65 <=? n) && (n <=? 90) then ascii_of_nat (n + 32) else c.

Fixpoint mapString (f : ascii -> ascii) (s : string) : string :=
  match s with
  | EmptyString => EmptyString
  | String c rest => String (f c) (mapString f rest)
  end.

(** Case mapping on the letters a-z and A-Z; the other code units of the
    model are left as they are.  No code unit of the model outside a-z maps
    to an upper-case ASCII letter, and none outside A-Z to a lower-case one,
    so the comparisons popup.js makes with ASCII words are not affected. *)
Definition toUpperCase : string -> string := mapString upperChar.
Definition toLowerCase : string -> string := mapString lowerChar.

(** [a.join(sep)] on an array of strings. *)
Fixpoint join (sep : string) (parts : list string) : string :=
  match parts with
  | [] => ""
  | [p] => p
  | p :: rest => p +++ sep +++ join sep rest
  end.

(** Decimal rendering of an array length in a template literal. *)
Definition showNat (n : nat) : string := NilEmpty.string_of_uint (Nat.to_uint n).

(** *** Regular expressions *)

(** [s.match(/-?\d\.\d/)]: the leftmost match, [None] for [null].  At one
    position the optional minus is tried first; when the rest fails after a
    minus, the attempt without it fails too, because the position holds a
    minus and not a digit. *)
Definition digitDotDigit (s : string) : option string :=
  match s with
  | String a (String "." (String b _)) =>
      if isDigit a && isDigit b
      then Some (String a (String "." (String b EmptyString)))
      else None
  | _ => None
  end.

Definition securityAt (s : string) : option string :=
  match s with
  | String "-" rest =>
      match digitDotDigit rest with
      | Some m => Some (String "-" m)
      | None => None
      end
  | _ => digitDotDigit s
  end.

Fixpoint matchSecurity (s : string) : option string :=
  match securityAt s with
  | Some m => Some m
  | None =>
      match s with
      | EmptyString => None
      | String _ rest => matchSecurity rest
      end
  end.

(** [s.match(/C[1-6]/)] *)
Definition connectionAt (s : string) : option string :=
  match s with
  | String "C" (String d _) =>
      let n := nat_of_ascii d in
      if (49 <=? n) && (n <=? 54)
      then Some (String "C" (String d EmptyString))
      else None
  | _ => None
  end.

Fixpoint matchConnection (s : string) : option string :=
  match connectionAt s with
  | Some m => Some m
  | None =>
      match s with
      | EmptyString => None
      | String _ rest => matchConnection rest
      end
  end.

(** *** Numbers *)

(** Longest prefix of code units satisfying [p], and what follows it. *)
Fixpoint span (p : ascii -> bool) (s : string) : string * string :=
  match s with
  | EmptyString => (EmptyString, EmptyString)
  | String c rest =>
      if p c
      then let (taken, left) := span p rest in (String c taken, left)
      else (EmptyString, s)
  end.

Definition digitValue (c : ascii) : Z :=
  let n := nat_of_ascii c in
  if isDigit c then Z.of_nat (n - 48)
  else if (97 <=? n) then Z.of_nat (n - 87)
  else Z.of_nat (n - 55).

Fixpoint digitsValue (radix acc : Z) (s : string) : Z :=
  match s with
  | EmptyString => acc
  | String c rest => digitsValue radix (acc * radix + digitValue c)%Z rest
  end.

(** [parseInt(s)] without a radix: leading white space is skipped, then an
    optional sign, then an optional [0x]/[0X], then the longest run of digits
    of the radix; [None] is [NaN].  The value is the integer before its
    rounding to a double; popup.js only tests the result with [isNaN]. *)
Definition parseInt (s : string) : option Z :=
  let s1 := trimStart s in
  let '(sign, s2) :=
    match s1 with
    | String "-" rest => ((-1)%Z, rest)
    | String "+" rest => (1%Z, rest)
    | _ => (1%Z, s1)
    end in
  let '(isDigitR, radix, s3) :=
    match s2 with
    | String "0" (String "x" rest) => (isHexDigit, 16%Z, rest)
    | String "0" (String "X" rest) => (isHexDigit, 16%Z, rest)
    | _ => (isDigit, 10%Z, s2)
    end in
  match fst (span isDigitR s3) with
  | EmptyString => None
  | digits => Some (sign * digitsValue radix 0 digits)%Z
  end.

(** [isNaN(n)] on the result of [parseInt]. *)
Definition isNaN (n : option Z) : bool :=
  match n with None => true | Some _ => false end.

Definition stripSign (s : string) : string :=
  match s with
  | String "+" rest => rest
  | String "-" rest => rest
  | _ => s
  end.

Definition allOf (p : ascii -> bool) (s : string) : bool :=
  match snd (span p s) with EmptyString => true | _ => false end.

(** ExponentPart, optional: empty, or [e]/[E], an optional sign and at least
    one digit up to the end. *)
Definition isExponentOpt (s : string) : bool :=
  match s with
  | EmptyString => true
  | String c rest =>
      (Ascii.eqb c "e" || Ascii.eqb c "E") &&
      (let d := stripSign rest in truthyString d && allOf isDigit d)
  end.

(** StrUnsignedDecimalLiteral *)
Definition isUnsignedDecimal (s : string) : bool :=
  String.eqb s "Infinity" ||
  (let (int, r1) := span isDigit s in
   match r1 with
   | String "." r2 =>
       let (frac, r3) := span isDigit r2 in
       (truthyString int || truthyString frac) && isExponentOpt r3
   | _ => truthyString int && isExponentOpt r1
   end).

(** NonDecimalIntegerLiteral: no sign, at least one digit. *)
Definition isNonDecimalInteger (s : string) : bool :=
  match s with
  | String "0" (String k rest) =>
      truthyString rest &&
      (if Ascii.eqb k "x" || Ascii.eqb k "X" then allOf isHexDigit rest
       else if Ascii.eqb k "o" || Ascii.eqb k "O" then allOf isOctalDigit rest
       else if Ascii.eqb k "b" || Ascii.eqb k "B" then allOf isBinaryDigit rest
       else false)
  | _ => false
  end.

(** [isNaN(s)] on a string: [Number(s)] is [NaN] unless [s], trimmed, is
    empty or a StrNumericLiteral. *)
Definition isNaNString (s : string) : bool :=
  let t := trim s in
  negb (negb (truthyString t)
        || isNonDecimalInteger t
        || isUnsignedDecimal (stripSign t)).

End JS.

(* ------------------------------------------------------------------------- *)
(** ** The page: a DOM tree, its text, its attributes and its selectors *)
(* ------------------------------------------------------------------------- *)

Module DOM.

Set Warnings "-register-all".

(** A node of the page.  An element carries its tag name (lower case, as in
    an HTML document), its attributes, the two computed style properties
    that popup.js reads through [window.getComputedStyle], and its child
    nodes in document order. *)
Inductive node : Type :=
| Text (data : string)
| Element (tag : string) (attrs : list (string * string))
          (display visibility : string) (children : list node).

Definition isElement (n : node) : bool :=
  match n with Element _ _ _ _ _ => true | Text _ => false end.

Definition attributes (n : node) : list (string * string) :=
  match n with Element _ a _ _ _ => a | Text _ => [] end.

Definition tagName (n : node) : string :=
  match n with Element t _ _ _ _ => t | Text _ => "" end.

(** The two fields of [window.getComputedStyle(e)] read by popup.js. *)
Definition computedDisplay (n : node) : string :=
  match n with Element _ _ d _ _ => d | Text _ => "" end.

Definition computedVisibility (n : node) : string :=
  match n with Element _ _ _ v _ => v | Text _ => "" end.

(** [n.textContent]: the text of all descendants, in document order. *)
Fixpoint textContent (n : node) : string :=
  match n with
  | Text data => data
  | Element _ _ _ _ kids =>
      (fix texts (l : list node) : string :=
         match l with
         | [] => ""
         | k :: rest => textContent k +++ texts rest
         end) kids
  end.

(** [e.getAttribute(name)] *)
Fixpoint lookupAttr (name : string) (attrs : list (string * string)) : option string :=
  match attrs with
  | [] => None
  | (k, v) :: rest => if String.eqb k name then Some v else lookupAttr name rest
  end.

Definition getAttribute (n : node) (name : string) : option string :=
  lookupAttr name (attributes n).

Definition hasAttribute (n : node) (name : string) : bool :=
  match getAttribute n name with Some _ => true | None => false end.

(** ASCII white space separates the tokens of a [class] attribute. *)
Definition isTokenSeparator (c : ascii) : bool :=
  let n := nat_of_ascii c in
  (n =? 9) || (n =? 10) || (n =? 12) || (n =? 13) || (n =? 32).

(** Tokens of [s]; [cur] is the part already read of the current token. *)
Fixpoint tokens (cur : string) (s : string) : list string :=
  let close := match cur with EmptyString => [] | _ => [cur] end in
  match s with
  | EmptyString => close
  | String c rest =>
      if isTokenSeparator c then close ++ tokens EmptyString rest
      else tokens (cur +++ String c EmptyString) rest
  end.

(** [e.classList] *)
Definition classList (n : node) : list string :=
  match getAttribute n "class" with
  | Some v => tokens EmptyString v
  | None => []
  end.

Definition classListContains (n : node) (c : string) : bool :=
  existsb (String.eqb c) (classList n).

(** *** Selectors

    popup.js passes selector strings; the model keeps them parsed.  Every
    selector of popup.js is a comma list of chains of simple selectors
    joined by the descendant combinator. *)
Inductive simple : Type :=
| Tag (name : string)                    (* h6 *)
| Class (name : string)                  (* .system-type *)
| AttrContains (attr value : string)     (* [class*=value] *)
| AttrEquals (attr value : string)       (* [role=value] *)
| Universal.                             (* * *)

(** A chain [a b c]: [c] is the subject, [b] an ancestor of it, [a] an
    ancestor of that one. *)
Definition chain : Type := list simple.
Definition selector : Type := list chain.

Definition matchesSimple (n : node) (s : simple) : bool :=
  isElement n &&
  match s with
  | Tag name => String.eqb (tagName n) name
  | Class name => classListContains n name
  | AttrContains attr value =>
      match getAttribute n attr with
      | Some v => JS.includes v value
      | None => false
      end
  | AttrEquals attr value =>
      match getAttribute n attr with
      | Some v => String.eqb v value
      | None => false
      end
  | Universal => true
  end.

(** [outer] lists the selectors still to be matched, innermost first;
    [ancestors] lists the ancestors, nearest first.  Taking the nearest
    ancestor that matches loses nothing for descendant combinators. *)
Fixpoint matchesAncestors (outer : list simple) (ancestors : list node) : bool :=
  match outer with
  | [] => true
  | s :: outer' =>
      (fix find (l : list node) : bool :=
         match l with
         | [] => false
         | a :: l' => if matchesSimple a s then matchesAncestors outer' l' else find l'
         end) ancestors
  end.

Definition matchesChain (ancestors : list node) (n : node) (c : chain) : bool :=
  match rev c with
  | [] => false
  | subject :: outer => matchesSimple n subject && matchesAncestors outer ancestors
  end.

Definition matchesSelector (ancestors : list node) (n : node) (sel : selector) : bool :=
  existsb (matchesChain ancestors n) sel.

(** An element together with its place in the tree. *)
Record located : Type := Located {
  self : node;
  ancestors : list node;      (* nearest first *)
  before : list node;         (* preceding sibling nodes, nearest first *)
  after : list node           (* following sibling nodes, in order *)
}.

(** The descendant elements of [n], in document order, each with its place;
    [anc] lists the ancestors of [n]. *)
Fixpoint descendants (anc : list node) (n : node) {struct n} : list located :=
  match n with
  | Text _ => []
  | Element _ _ _ _ kids =>
      (fix walk (prev : list node) (l : list node) {struct l} : list located :=
         match l with
         | [] => []
         | k :: rest =>
             (if isElement k then [Located k (n :: anc) prev rest] else [])
             ++ descendants (n :: anc) k
             ++ walk (k :: prev) rest
         end) [] kids
  end.

(** [e.querySelectorAll(sel)]: the descendants of [e] that match, in
    document order; the selector is matched against the whole tree. *)
Definition querySelectorAllIn (e : located) (sel : selector) : list located :=
  filter (fun d => matchesSelector (ancestors d) (self d) sel)
         (descendants (ancestors e) (self e)).

(** The document, given by its root element. *)
Definition rootLocated (doc : node) : located := Located doc [] [] [].

Definition allElements (doc : node) : list located :=
  (if isElement doc then [rootLocated doc] else []) ++ descendants [] doc.

(** The elements that [document.querySelectorAll(sel)] returns. *)
Definition select (doc : node) (sel : selector) : list located :=
  filter (fun d => matchesSelector (ancestors d) (self d) sel) (allElements doc).

Definition firstElement (l : list node) : option node := find isElement l.

(** [e.previousElementSibling], [e.nextElementSibling] *)
Definition previousElementSibling (e : located) : option node := firstElement (before e).
Definition nextElementSibling (e : located) : option node := firstElement (after e).

(** [Array.from(e.parentElement.children)], [None] when [e.parentElement]
    is [null] (the root element). *)
Definition parentChildren (e : located) : option (list node) :=
  match ancestors e with
  | [] => None
  | _ :: _ => Some (filter isElement (rev (before e) ++ self e :: after e))
  end.

(** Rendering of a selector as popup.js writes it. *)
Definition dquote : string := String (ascii_of_nat 34) EmptyString.

Definition showSimple (s : simple) : string :=
  match s with
  | Tag name => name
  | Class name => "." +++ name
  | AttrContains attr value => "[" +++ attr +++ "*=" +++ dquote +++ value +++ dquote +++ "]"
  | AttrEquals attr value => "[" +++ attr +++ "=" +++ dquote +++ value +++ dquote +++ "]"
  | Universal => "*"
  end.

Definition showSelector (sel : selector) : string :=
  JS.join ", " (map (fun c => JS.join " " (map showSimple c)) sel).

(** Shorthands for building pages. *)
Definition el (tag : string) (attrs : list (string * string)) (kids : list node) : node :=
  Element tag attrs "block" "visible" kids.

Definition txt (tag : string) (attrs : list (string * string)) (s : string) : node :=
  el tag attrs [Text s].

End DOM.

Import DOM.

(* ------------------------------------------------------------------------- *)
(** ** Console and document queries: a writer monad *)
(* ------------------------------------------------------------------------- *)

(** What a run of the scraper does besides computing its result: the lines
    it writes to the console (the first argument of [console.log], template
    literals expanded) and the queries it makes on [document]. *)
Inductive event : Type :=
| Log (line : string)
| Query (sel : selector).

Definition M (A : Type) : Type := (A * list event)%type.

Definition ret {A : Type} (a : A) : M A := (a, []).

Definition bind {A B : Type} (m : M A) (k : A -> M B) : M B :=
  let r := k (fst m) in (fst r, snd m ++ snd r).

Notation "x <- m ;; k" := (bind m (fun x => k))
  (at level 61, m at next level, right associativity).
Notation "m ;; k" := (bind m (fun _ => k))
  (at level 61, right associativity).

(** [console.log(line, ...)] *)
Definition log (line : string) : M unit := (tt, [Log line]).

(** [document.querySelectorAll(sel)] *)
Definition querySelectorAll (doc : node) (sel : selector) : M (list located) :=
  (select doc sel, [Query sel]).

(** [document.querySelector(sel)] *)
Definition querySelector (doc : node) (sel : selector) : M (option located) :=
  (hd_error (select doc sel), [Query sel]).

(** [for (const x of l) body], threading the variables the body assigns. *)
Fixpoint forEach {A S : Type} (l : list A) (body : A -> S -> M S) (s : S) : M S :=
  match l with
  | [] => ret s
  | x :: rest => s' <- body x s ;; forEach rest body s'
  end.

(** The value and the trace of a run. *)
Definition value {A : Type} (m : M A) : A := fst m.
Definition trace {A : Type} (m : M A) : list event := snd m.

(** The queries of a trace, in order. *)
Fixpoint queries (t : list event) : list selector :=
  match t with
  | [] => []
  | Query sel :: rest => sel :: queries rest
  | Log _ :: rest => queries rest
  end.

(** The console lines of a trace, in order. *)
Fixpoint logged (t : list event) : list string :=
  match t with
  | [] => []
  | Log line :: rest => line :: logged rest
  | Query _ :: rest => logged rest
  end.

(* ------------------------------------------------------------------------- *)
(** ** getSystemData and its helpers (popup.js, lines 381-800) *)
(* ------------------------------------------------------------------------- *)

Module Scraper.

Definition newline : string := String (ascii_of_nat 10) EmptyString.

(** *** extractSystemName (lines 387-428) *)

Definition headerSelectors : list selector :=
  [ [[Tag "main"; Tag "header"; Tag "h6"]];
    [[Tag "header"; Tag "h6"]];
    [[Class "MuiPaper-root"; Tag "header"; Tag "h6"]];
    [[AttrContains "class" "header"; Tag "h6"]] ].

Definition h6Selector : selector := [[Tag "h6"]].

(** [text && text.length > 0 && text.length < 30 && !text.includes('\n')] *)
Definition plausibleName (text : string) : bool :=
  JS.truthyString text && (0 <? String.length text) && (String.length text <? 30)
  && negb (JS.includes text newline).

(** The inner loop of strategy 1: the first element whose trimmed text
    passes the test. *)
Fixpoint firstPlausible (elements : list located) : option string :=
  match elements with
  | [] => None
  | element :: rest =>
      let text := JS.trim (textContent (self element)) in
      if plausibleName text then Some text else firstPlausible rest
  end.

(** The outer loop of strategy 1. *)
Fixpoint tryHeaderSelectors (doc : node) (selectors : list selector) : M (option string) :=
  match selectors with
  | [] => ret None
  | selector :: rest =>
      elements <- querySelectorAll doc selector ;;
      match firstPlausible elements with
      | Some text =>
          log ("Found system name using selector " +++ dquote +++ showSelector selector
               +++ dquote +++ ": " +++ text) ;;
          ret (Some text)
      | None => tryHeaderSelectors doc rest
      end
  end.

Definition notInterfaceText (text : string) : bool :=
  negb (JS.includes text "SHORTEST") && negb (JS.includes text "SECURE")
  && negb (JS.includes text "Settings") && negb (JS.includes text "Route").

(** The loop of strategy 2. *)
Fixpoint firstSystemH6 (allH6 : list located) : option string :=
  match allH6 with
  | [] => None
  | h6 :: rest =>
      let text := JS.trim (textContent (self h6)) in
      if plausibleName text && notInterfaceText text then Some text
      else firstSystemH6 rest
  end.

Definition extractSystemName (doc : node) : M (option string) :=
  log "Extracting system name..." ;;
  found <- tryHeaderSelectors doc headerSelectors ;;
  match found with
  | Some text => ret (Some text)
  | None =>
      allH6 <- querySelectorAll doc h6Selector ;;
      match firstSystemH6 allH6 with
      | Some text => log ("Found system name in h6: " +++ text) ;; ret (Some text)
      | None => log "Could not find system name" ;; ret None
      end
  end.

(** *** extractSecurityAndConnection (lines 447-540) *)

Definition mapNodeSelector : selector :=
  [[AttrContains "class" "node"]; [AttrContains "class" "system"]].

Definition systemTypeSelector : selector :=
  [[Class "system-type"]; [AttrContains "class" "system-type"]].

Definition headerAreaSelector : selector :=
  [[Tag "main"; Tag "header"]; [Tag "header"]].

(** The two variables [securityRating] and [connectionType] of the function,
    [None] while they hold [null]. *)
Record fields : Type := Fields {
  rating : option string;
  connection : option string
}.

(** The loop of strategy 1 (lines 457-480): the first node whose text
    contains the system name decides, and ends the loop. *)
Fixpoint scanMapNodes (systemName : string) (mapNodes : list located) : M fields :=
  match mapNodes with
  | [] => ret (Fields None None)
  | node :: rest =>
      let nodeText := textContent (self node) in
      if JS.includes nodeText systemName then
        log "Found system node on map:" ;;
        securityRating <-
          match JS.matchSecurity nodeText with
          | Some m => log ("Found security rating on node: " +++ m) ;; ret (Some m)
          | None => ret None
          end ;;
        connectionType <-
          match JS.matchConnection nodeText with
          | Some m => log ("Found connection type on node: " +++ m) ;; ret (Some m)
          | None => ret None
          end ;;
        ret (Fields securityRating connectionType)
      else scanMapNodes systemName rest
  end.

Definition strategy1 (doc : node) (systemName : string) : M fields :=
  mapNodes <- querySelectorAll doc mapNodeSelector ;;
  scanMapNodes systemName mapNodes.

(** The body of the loop of strategy 2 (lines 486-499): an element is read
    as a connection class or else as a security rating. *)
Definition scanSystemType (element : located) (f : fields) : M fields :=
  let text := JS.trim (textContent (self element)) in
  match JS.matchConnection text with
  | Some m =>
      log ("Found connection type in system-type: " +++ m) ;;
      ret (Fields (rating f) (Some m))
  | None =>
      match JS.matchSecurity text with
      | Some m =>
          log ("Found security rating in system-type: " +++ m) ;;
          ret (Fields (Some m) (connection f))
      | None => ret f
      end
  end.

(** Strategy 2 (lines 483-500), entered when both variables are falsy. *)
Definition strategy2 (doc : node) (f : fields) : M fields :=
  if negb (JS.truthy (rating f)) && negb (JS.truthy (connection f)) then
    systemTypeElements <- querySelectorAll doc systemTypeSelector ;;
    forEach systemTypeElements scanSystemType f
  else ret f.

(** Strategy 3 (lines 503-524), entered when one of the variables is falsy. *)
Definition strategy3 (doc : node) (f : fields) : M fields :=
  if negb (JS.truthy (rating f)) || negb (JS.truthy (connection f)) then
    headerArea <- querySelector doc headerAreaSelector ;;
    match headerArea with
    | Some area =>
        let headerText := textContent (self area) in
        securityRating <-
          (if negb (JS.truthy (rating f)) then
             match JS.matchSecurity headerText with
             | Some m => log ("Found security rating in header: " +++ m) ;; ret (Some m)
             | None => ret (rating f)
             end
           else ret (rating f)) ;;
        connectionType <-
          (if negb (JS.truthy (connection f)) then
             match JS.matchConnection headerText with
             | Some m => log ("Found connection type in header: " +++ m) ;; ret (Some m)
             | None => ret (connection f)
             end
           else ret (connection f)) ;;
        ret (Fields securityRating connectionType)
    | None => ret f
    end
  else ret f.

(** The object [{ securityRating, connectionType }] that is returned. *)
Record classification : Type := Classification {
  securityRating : string;
  connectionType : option string
}.

(** Lines 526-539: the default of the rating, and the return. *)
Definition finish (f : fields) : M classification :=
  securityRating <-
    (if negb (JS.truthy (rating f)) then
       log "Could not find security rating" ;; ret "Unknown"
     else ret (match rating f with Some r => r | None => "" end)) ;;
  (if JS.truthy (connection f)
   then log ("Using connection type: "
             +++ match connection f with Some c => c | None => "" end)
   else log "No wormhole connection type found (system may be direct K-space)") ;;
  ret (Classification securityRating (connection f)).

Definition extractSecurityAndConnection (doc : node) (systemName : string) : M classification :=
  log "Extracting security rating and connection type..." ;;
  f1 <- strategy1 doc systemName ;;
  f2 <- strategy2 doc f1 ;;
  f3 <- strategy3 doc f2 ;;
  finish f3.

(** *** detectActiveTab (lines 545-573) *)

Definition tabButtonSelector : selector := [[Tag "button"]; [AttrEquals "role" "tab"]].

Definition isActive (button : node) : bool :=
  match getAttribute button "aria-selected" with
  | Some v => String.eqb v "true"
  | None => false
  end
  || classListContains button "Mui-selected"
  || classListContains button "active"
  || hasAttribute button "data-selected".

(** The loop over the tab buttons: the first active one labelled SHORTEST
    or SECURE ends it. *)
Fixpoint firstActiveTab (tabButtons : list located) : option string :=
  match tabButtons with
  | [] => None
  | button :: rest =>
      let text := JS.toUpperCase (JS.trim (textContent (self button))) in
      if (String.eqb text "SHORTEST" || String.eqb text "SECURE") && isActive (self button)
      then Some text
      else firstActiveTab rest
  end.

Definition detectActiveTab (doc : node) : M string :=
  log "Detecting active tab..." ;;
  tabButtons <- querySelectorAll doc tabButtonSelector ;;
  match firstActiveTab tabButtons with
  | Some text => log ("Active tab detected: " +++ text) ;; ret text
  | None =>
      log "Could not detect active tab, defaulting to SHORTEST" ;;
      ret "SHORTEST"
  end.

(** *** extractDestinationFromElement (lines 578-615) *)

Record destination : Type := Destination {
  name : string;
  jumps : string
}.

Definition textElementSelector : selector :=
  [[Tag "p"]; [Tag "span"]; [AttrContains "class" "Typography"]].

(** The variables [hubName] and [jumps] of the function. *)
Record reading : Type := Reading {
  hubName : option string;
  jumpCount : option string
}.

(** The body of the loop (lines 587-602) on the trimmed text of one text
    element. *)
Definition readText (text : string) (r : reading) : reading :=
  let number := JS.parseInt text in
  if negb (JS.isNaN number) && (String.length text <=? 3) then
    Reading (hubName r) (Some text)
  else if JS.truthyString text && (0 <? String.length text)
          && (String.length text <? 30) && JS.isNaNString text then
    if negb (JS.includes text "from") && negb (JS.includes text "jumps")
       && negb (JS.includes (JS.toLowerCase text) "route")
    then Reading (Some text) (jumpCount r)
    else r
  else r.

(** The [try] block never throws in the model: the queries and the string
    operations it uses are total, so the [catch] branch is not reached. *)
Definition extractDestinationFromElement (element : located) : M (option destination) :=
  let textElements := querySelectorAllIn element textElementSelector in
  let r := fold_left (fun r textEl => readText (JS.trim (textContent (self textEl))) r)
                     textElements (Reading None None) in
  match hubName r, jumpCount r with
  | Some h, Some j =>
      if JS.truthyString h && JS.truthyString j then
        log ("  Found: " +++ h +++ " - " +++ j +++ " jumps") ;;
        ret (Some (Destination h j))
      else ret None
  | _, _ => ret None
  end.

(** *** extractAllDestinationsFromContainer (lines 620-678) *)

Definition commonHubs : list string :=
  ["Jita"; "Hek"; "Amarr"; "Rens"; "Dodixie"; "Stacmon"].

Definition universalSelector : selector := [[Universal]].

(** Lines 639-645 and 647-653: the trimmed text of a sibling, when
    [parseInt] reads a number in it. *)
Definition siblingNumber (sibling : node) : option string :=
  let siblingText := JS.trim (textContent sibling) in
  if negb (JS.isNaN (JS.parseInt siblingText)) then Some siblingText else None.

(** Lines 658-665: the first child with a number of at most three code
    units. *)
Fixpoint firstShortNumber (parentChildren : list node) : option string :=
  match parentChildren with
  | [] => None
  | child :: rest =>
      let childText := JS.trim (textContent child) in
      if negb (JS.isNaN (JS.parseInt childText)) && (String.length childText <=? 3)
      then Some childText
      else firstShortNumber rest
  end.

(** Lines 636-666: the jump count near an element. *)
Definition findJumps (element : located) : option string :=
  let jumps0 : option string := None in
  let jumps1 :=
    match previousElementSibling element with
    | Some sibling =>
        match siblingNumber sibling with Some t => Some t | None => jumps0 end
    | None => jumps0
    end in
  let jumps2 :=
    if negb (JS.truthy jumps1) then
      match nextElementSibling element with
      | Some sibling =>
          match siblingNumber sibling with Some t => Some t | None => jumps1 end
      | None => jumps1
      end
    else jumps1 in
  if negb (JS.truthy jumps2) then
    match parentChildren element with
    | Some children =>
        match firstShortNumber children with Some t => Some t | None => jumps2 end
    | None => jumps2
    end
  else jumps2.

(** [destinations.find(d => d.name === hub)] is not [undefined]. *)
Definition recorded (hub : string) (destinations : list destination) : bool :=
  existsb (fun d => String.eqb (name d) hub) destinations.

(** The body of the inner loop (lines 634-673) for one element and one
    hub. *)
Definition visitHub (element : located) (text : string) (hub : string)
    (destinations : list destination) : M (list destination) :=
  if String.eqb text hub then
    match findJumps element with
    | Some j =>
        if JS.truthyString j && negb (recorded hub destinations) then
          log ("  Found: " +++ hub +++ " - " +++ j +++ " jumps") ;;
          ret (destinations ++ [Destination hub j])
        else ret destinations
    | None => ret destinations
    end
  else ret destinations.

Definition visitElement (element : located) (destinations : list destination)
    : M (list destination) :=
  let text := JS.trim (textContent (self element)) in
  forEach commonHubs (visitHub element text) destinations.

Definition extractAllDestinationsFromContainer (container : located) : M (list destination) :=
  let allElements := querySelectorAllIn container universalSelector in
  forEach allElements visitElement [].

(** *** extractDestinations (lines 683-729) *)

Definition hubSummarySelector : selector :=
  [[Class "route-hub-summary"]; [AttrContains "class" "route-hub-summary"]].

Definition accordionSelector : selector := [[AttrContains "class" "MuiAccordion"]].

Definition panelSelector : selector :=
  [[AttrEquals "role" "tabpanel"]; [AttrContains "class" "panel"]].

(** The body shared by the loops of strategies 1 and 2. *)
Definition pushDestinationOf (element : located) (destinations : list destination)
    : M (list destination) :=
  destination <- extractDestinationFromElement element ;;
  match destination with
  | Some d => ret (destinations ++ [d])
  | None => ret destinations
  end.

(** [style.display !== 'none' && style.visibility !== 'hidden'] *)
Definition isVisible (panel : node) : bool :=
  negb (String.eqb (computedDisplay panel) "none")
  && negb (String.eqb (computedVisibility panel) "hidden").

(** The body of the loop of strategy 3. *)
Definition pushPanelDestinations (panel : located) (destinations : list destination)
    : M (list destination) :=
  if isVisible (self panel) then
    panelDestinations <- extractAllDestinationsFromContainer panel ;;
    ret (destinations ++ panelDestinations)
  else ret destinations.

(** Lines 689-697. *)
Definition hubSummaryStrategy (doc : node) : M (list destination) :=
  hubSummaries <- querySelectorAll doc hubSummarySelector ;;
  log ("Found " +++ JS.showNat (List.length hubSummaries) +++ " route-hub-summary elements") ;;
  forEach hubSummaries pushDestinationOf [].

(** Lines 700-710. *)
Definition accordionStrategy (doc : node) (destinations : list destination)
    : M (list destination) :=
  if List.length destinations =? 0 then
    log "Trying MuiAccordion strategy..." ;;
    accordions <- querySelectorAll doc accordionSelector ;;
    forEach accordions pushDestinationOf destinations
  else ret destinations.

(** Lines 713-725. *)
Definition panelStrategy (doc : node) (destinations : list destination)
    : M (list destination) :=
  if List.length destinations =? 0 then
    log "Trying panel area strategy..." ;;
    panels <- querySelectorAll doc panelSelector ;;
    forEach panels pushPanelDestinations destinations
  else ret destinations.

Definition extractDestinations (doc : node) (activeTab : string) : M (list destination) :=
  log ("Extracting destinations from " +++ activeTab +++ " tab...") ;;
  d1 <- hubSummaryStrategy doc ;;
  d2 <- accordionStrategy doc d1 ;;
  d3 <- panelStrategy doc d2 ;;
  log ("Extracted " +++ JS.showNat (List.length d3) +++ " destinations:") ;;
  ret d3.

(** *** getSystemData, main part (lines 735-799) *)

(** The object that [getSystemData] returns; [error] is [None] when the
    property is not set. *)
Record extraction : Type := Extraction {
  success : bool;
  error : option string;
  header : string;
  destinations : string
}.

(** [destinations.map(d => `${d.name} ${d.jumps}`)] *)
Definition pairText (d : destination) : string := name d +++ " " +++ jumps d.

(** No operation of the [try] block throws in the model, so its [catch]
    branch (lines 791-798) is not reached. *)
Definition getSystemData (doc : node) : M extraction :=
  log "=== Starting System Data Extraction ===" ;;
  systemName <- extractSystemName doc ;;
  match systemName with
  | Some sysName =>
      if JS.truthyString sysName then
        log "✓ System name:" ;;
        c <- extractSecurityAndConnection doc sysName ;;
        log "✓ Security rating:" ;;
        log "✓ Connection type:" ;;
        activeTab <- detectActiveTab doc ;;
        log "✓ Active tab:" ;;
        dests <- extractDestinations doc activeTab ;;
        log "✓ Destinations:" ;;
        if List.length dests =? 0 then
          log "No destinations found" ;;
          ret (Extraction false
                 (Some "Could not extract destination data. Please ensure the tab is expanded.")
                 (if JS.truthy (connectionType c)
                  then sysName +++ ", " +++ securityRating c +++ ", "
                       +++ match connectionType c with Some t => t | None => "" end
                  else sysName +++ ", " +++ securityRating c)
                 "")
        else
          let header :=
            if JS.truthy (connectionType c)
            then sysName +++ ", " +++ securityRating c +++ ", "
                 +++ match connectionType c with Some t => t | None => "" end +++ ","
            else sysName +++ ", " +++ securityRating c +++ "," in
          let destinationText := JS.join ", " (map pairText dests) in
          log "=== Extraction Complete ===" ;;
          ret (Extraction true None header destinationText)
      else
        log "No system name found - no system selected" ;;
        ret (Extraction false (Some "No system selected.") "No system selected" "")
  | None =>
      log "No system name found - no system selected" ;;
      ret (Extraction false (Some "No system selected.") "No system selected" "")
  end.

End Scraper.

(* ------------------------------------------------------------------------- *)
(** ** The "send to Discord" button (popup.js, lines 43-113 and 248-279) *)
(* ------------------------------------------------------------------------- *)

Module Popup.

(** A call of [fetch]: the address, the message posted as [content], and the
    request identifier it was logged with. *)
Record request : Type := Request {
  url : string;
  content : string;
  requestId : Z
}.

(** How a call of [fetch] ends: it rejects, or it resolves with a response,
    of which the code reads the status, the [content-length] header and,
    through [response.json()], whether the body parses. *)
Inductive fetchOutcome : Type :=
| Rejected
| Response (status : Z) (contentLength : option string) (bodyParses : bool).

(** [response.ok] *)
Definition ok (status : Z) : bool := ((200 <=? status) && (status <=? 299))%Z.

(** The popup page is taken to hold the elements that the script looks up
    by their identifiers, so that no lookup fails.

    The state of one popup: the two variables of the handler's closure, the
    text of the input, the texts that the handlers read from the two
    display elements, the calls of [fetch] that have not ended, every call
    made so far, the alerts shown to the operator and the lines written with
    [console.log] and [console.error] (their first argument).

    [headerData] and [number] are what the getter [innerText] returns: the
    text as the page renders it.  That is not always the text that was
    assigned (rendering may collapse white space), so these two fields are
    set by the input [Display] to any texts, and nothing here computes them
    from an assigned text. *)
Record popup : Type := Popup_ {
  isSendingToDiscord : bool;
  lastRequestId : option Z;
  webhookUrl : string;          (* webhookUrlInput.value *)
  headerData : string;          (* innerText of #headerData, as read *)
  number : string;              (* innerText of #number, as read *)
  pending : list request;
  sent : list request;
  alerts : list string;
  console : list string
}.

Definition initial (storedUrl header numbers : string) : popup :=
  Popup_ false None storedUrl header numbers [] [] [] [].

(** [!webhookUrl || webhookUrl.trim() === ''] *)
Definition blank (webhookUrl : string) : bool :=
  negb (JS.truthyString webhookUrl) || String.eqb (JS.trim webhookUrl) "".

(** Lines 80-82 (and 186-188 in the copy handler): the text that is sent. *)
Definition fullText (s : popup) : string :=
  let numbers := number s in
  let header := headerData s in
  if JS.truthyString numbers then header +++ " " +++ numbers else header.

(** The click handler (lines 67-109) up to the point where [sendToDiscord]
    has called [fetch]; [now] is the value of [Date.now()]. *)
Definition click (now : Z) (s : popup) : popup :=
  if isSendingToDiscord s then
    Popup_ (isSendingToDiscord s) (lastRequestId s) (webhookUrl s) (headerData s)
           (number s) (pending s) (sent s) (alerts s)
           (console s ++ ["Message is already being sent. Please wait."])
  else
    let console1 := console s ++ ["Starting to send message to Discord..."] in
    let fullText := fullText s in
    if blank (webhookUrl s) then
      Popup_ false (Some now) (webhookUrl s) (headerData s) (number s)
             (pending s) (sent s)
             (alerts s ++ ["Please enter a Discord Webhook URL first!"])
             console1
    else
      let call := Request (webhookUrl s) fullText now in
      Popup_ true (Some now) (webhookUrl s) (headerData s) (number s)
             (pending s ++ [call]) (sent s ++ [call]) (alerts s)
             (console1 ++ ["Request to send message initiated:"]).

(** The promise returned by [sendToDiscord] (lines 260-278) once [fetch] has
    ended: whether it is fulfilled, and the console lines written. *)
Definition sendToDiscordEnds (o : fetchOutcome) : bool * list string :=
  match o with
  | Rejected => (false, ["Error sending to Discord (requestId:"])
  | Response status contentLength bodyParses =>
      if negb (ok status) then (false, ["Error sending to Discord (requestId:"])
      else
        let line := "Message sent successfully for requestId:" in
        if (status =? 204)%Z
           || match contentLength with Some l => String.eqb l "0" | None => false end
        then (true, [line])
        else if bodyParses then (true, [line])
        else (false, [line; "Error sending to Discord (requestId:"])
  end.

(** The oldest pending call ends with [o]: the callbacks of lines 96-108
    run, [then] or [catch], and [finally] in both cases. *)
Definition settle (o : fetchOutcome) (s : popup) : popup :=
  match pending s with
  | [] => s
  | _ :: others =>
      let (fulfilled, lines) := sendToDiscordEnds o in
      Popup_ false (lastRequestId s) (webhookUrl s) (headerData s) (number s)
             others (sent s)
             (if fulfilled then alerts s
              else alerts s ++ ["Failed to send to Discord. Check console for details."])
             (console s ++ lines
              ++ [if fulfilled then "Message sent successfully." else "Error sending message:"]
              ++ ["Sending process finished for request:"])
  end.

(** What can happen to a popup: a run of the click handler, the end of a
    pending call, an edit of the address field, and a change of the texts
    that the two display elements show (as after lines 145-177).

    [Click] is a click that reaches the handler.  The button's [disabled]
    flag is no part of this state: every state with any sequence of clicks
    is covered, also those that a disabled button would not let through.
    [Window] below adds the flag. *)
Inductive input : Type :=
| Click (now : Z)
| Settle (o : fetchOutcome)
| EditUrl (v : string)
| Display (header numbers : string).

Definition step (s : popup) (i : input) : popup :=
  match i with
  | Click now => click now s
  | Settle o => settle o s
  | EditUrl v =>
      Popup_ (isSendingToDiscord s) (lastRequestId s) v (headerData s) (number s)
             (pending s) (sent s) (alerts s) (console s)
  | Display header numbers =>
      Popup_ (isSendingToDiscord s) (lastRequestId s) (webhookUrl s) header numbers
             (pending s) (sent s) (alerts s) (console s)
  end.

Definition run (s : popup) (inputs : list input) : popup := fold_left step inputs s.

(** Lines 158-176 for the object [data] returned by [getSystemData], on a
    page that renders the assigned texts as they are written: the texts
    shown are then the texts assigned.  For a text that rendering changes
    (two spaces in a row, say) the input is [Display] with the rendered
    text instead, and this definition does not apply. *)
Definition showResult (data : Scraper.extraction) : input :=
  if Scraper.success data then
    Display (Scraper.header data)
         (if JS.truthyString (Scraper.destinations data)
             && negb (String.eqb (JS.trim (Scraper.destinations data)) "")
          then Scraper.destinations data else "")
  else
    Display (if JS.truthy (Scraper.error data)
          then match Scraper.error data with Some e => e | None => "" end
          else "No system selected.")
         "".

(** The states a popup can be in. *)
Definition reachable (s : popup) : Prop :=
  exists storedUrl header numbers inputs,
    s = run (initial storedUrl header numbers) inputs.

(** A delivery call is in flight. *)
Definition inFlight (s : popup) : Prop := pending s <> [].

(** The guard is held while exactly one call is pending, and free while
    none is. *)
Definition guarded (s : popup) : Prop :=
  (isSendingToDiscord s = true /\ exists call, pending s = [call])
  \/ (isSendingToDiscord s = false /\ pending s = []).

End Popup.

(* ------------------------------------------------------------------------- *)
(** ** Notions used to state the properties *)
(* ------------------------------------------------------------------------- *)

Module Spec.

Import Scraper.

(** A decimal numeral [-]d..d[.d..d] as a pair: its digits read as one
    integer, with the sign, and the number of digits after the point.  The
    numeral [s] denotes [n / 10^k] when [decimalParts s = Some (n, k)]. *)
Definition decimalParts (s : string) : option (Z * nat) :=
  let (negative, body) :=
    match s with String "-" r => (true, r) | _ => (false, s) end in
  let signed (v : Z) : Z := if negative then (- v)%Z else v in
  let (int, r1) := JS.span JS.isDigit body in
  match int with
  | EmptyString => None
  | _ =>
      match r1 with
      | EmptyString => Some (signed (JS.digitsValue 10 0 int), 0)
      | String "." frac =>
          if JS.truthyString frac && JS.allOf JS.isDigit frac
          then Some (signed (JS.digitsValue 10 0 (int +++ frac)), String.length frac)
          else None
      | _ => None
      end
  end.

(** [s] is a decimal numeral whose value lies in [-1.0, 1.0]. *)
Definition inUnitInterval (s : string) : bool :=
  match decimalParts s with
  | Some (n, k) => ((- 10 ^ Z.of_nat k <=? n) && (n <=? 10 ^ Z.of_nat k))%Z
  | None => false
  end.

(** The security rating is the sentinel or a numeral of [-1.0, 1.0]. *)
Definition ratingInUnitInterval (r : string) : Prop :=
  r = "Unknown" \/ inUnitInterval r = true.

(** [r] is what the pattern [-?\d\.\d] matches: an optional minus, a digit,
    a point and a digit. *)
Definition ratingShape (r : string) : Prop :=
  exists sign a b,
    r = sign +++ String a (String "." (String b EmptyString))
    /\ (sign = "" \/ sign = "-")
    /\ JS.isDigit a = true /\ JS.isDigit b = true.

(** A field that is set holds a match: a rating has the shape of the
    pattern, a connection class is not empty. *)
Definition fieldsOk (f : fields) : Prop :=
  (forall r, rating f = Some r -> ratingShape r)
  /\ (forall c, connection f = Some c -> JS.truthyString c = true).

(** The destinations that [extractDestinationFromElement] finds in the
    elements of [l], one after the other, none left out. *)
Definition destinationsOf (l : list located) : list destination :=
  flat_map (fun e => match value (extractDestinationFromElement e) with
                     | Some d => [d]
                     | None => []
                     end) l.





(** A trace of work on single elements: no query on the document, and on
    the console only lines that report a destination found. *)
Definition quiet (t : list event) : Prop :=
  queries t = [] /\ Forall (fun line => exists rest, line = "  Found: " +++ rest) (logged t).

Definition tryingAccordions : string := "Trying MuiAccordion strategy...".
Definition tryingPanels : string := "Trying panel area strategy...".


(** [s] begins with a code unit that is not white space. *)
Definition startsVisible (s : string) : bool :=
  match s with
  | String c _ => negb (JS.isWhiteSpace c)
  | EmptyString => false
  end.

(** Every name in the list begins with a visible code unit. *)
Definition visibleNames (ds : list destination) : Prop :=
  Forall (fun d => startsVisible (name d) = true) ds.

(** The segments of a header: name, rating and, when one was detected, the
    connection class, separated by a comma and a space. *)
Definition headerSegments (sysName : string) (c : classification) : string :=
  match connectionType c with
  | Some tag => sysName +++ ", " +++ securityRating c +++ ", " +++ tag
  | None => sysName +++ ", " +++ securityRating c
  end.

(** The object returned when no name is found (lines 740-745). *)
Definition noSelection : extraction :=
  Extraction false (Some "No system selected.") "No system selected" "".

(** The error text of line 767. *)
Definition noDestinationData : string :=
  "Could not extract destination data. Please ensure the tab is expanded.".

(** The first lines that the three later helpers write when they are
    called. *)
Definition classifierEntry : event := Log "Extracting security rating and connection type...".
Definition modeDetectorEntry : event := Log "Detecting active tab...".
Definition destinationEntry (activeTab : string) : event :=
  Log ("Extracting destinations from " +++ activeTab +++ " tab...").

End Spec.

(* ------------------------------------------------------------------------- *)
(** ** Sample pages *)
(* ------------------------------------------------------------------------- *)

Module Pages.

Definition hubSummary (hub jumps : string) : node :=
  el "div" [("class", "route-hub-summary")] [txt "span" [] hub; txt "span" [] jumps].

Definition systemHeader : node := el "header" [] [txt "h6" [] "Egmur"].

Definition mapNode (text : string) : node :=
  el "div" [("class", "map")] [txt "div" [("class", "system-node")] text].

Definition tabs : list node :=
  [ txt "button" [("role", "tab"); ("aria-selected", "true")] "Shortest";
    txt "button" [("role", "tab"); ("aria-selected", "false")] "Secure" ].

Definition page (content : list node) : node :=
  el "html" [] [el "body" [] [el "main" [] content]].

(** Egmur, 0.7, C4 with five hubs. *)
Definition egmurPage : node :=
  page ([systemHeader; mapNode "Egmur 0.7 C4"] ++ tabs ++
        [ hubSummary "Jita" "14"; hubSummary "Hek" "16"; hubSummary "Amarr" "5";
          hubSummary "Rens" "16"; hubSummary "Dodixie" "10" ]).

(** The same system with the route panel collapsed: no destination. *)
Definition collapsedPage : node :=
  page ([systemHeader; mapNode "Egmur 0.7 C4"] ++ tabs).

(** A system without a connection class, route panel collapsed. *)
Definition collapsedPlainPage : node :=
  page ([systemHeader; mapNode "Egmur 0.7"] ++ tabs).

(** A page without any heading. *)
Definition blankPage : node := page [].


(** A map node whose text holds a digit, a point and a digit that are not a
    security rating. *)
Definition versionPage : node :=
  page [systemHeader; mapNode "Egmur v9.9"].

(** No map node; the class is in a system-type element and the rating in
    the header. *)
Definition layeredPage : node :=
  page [ el "header" [] [txt "h6" [] "Egmur"; txt "span" [] "sec 0.7"];
         txt "span" [("class", "system-type")] "C4" ].

(** Neither a rating nor a class anywhere. *)
Definition barePage : node := page [systemHeader].

(** A visible panel in which Jita is listed twice, and no summaries. *)
Definition panel : node :=
  el "div" [("role", "tabpanel")]
     [ el "div" [] [txt "b" [] "Jita"; txt "i" [] "14"];
       el "div" [] [txt "b" [] "Jita"; txt "i" [] "15"];
       el "div" [] [txt "i" [] "7"; txt "b" [] "Hek"] ].

Definition panelPage : node := page [systemHeader; panel].

(** The place of [panel] in [panelPage]. *)
Definition panelLocated : located :=
  match select panelPage Scraper.panelSelector with
  | p :: _ => p
  | [] => rootLocated panelPage
  end.

(** A popup with an address, showing what [getSystemData] returns for
    [doc], on a page that renders these texts as they are written. *)
Definition popupShowing (doc : node) : Popup.popup :=
  Popup.step (Popup.initial "https://discord.com/api/webhooks/1/token" "" "")
             (Popup.showResult (value (Scraper.getSystemData doc))).

(** The same popup after a click at time 1000: a delivery is in flight. *)
Definition busyPopup : Popup.popup :=
  Popup.run (popupShowing egmurPage) [Popup.Click 1000].

(** The address field emptied while that delivery is in flight. *)
Definition busyBlankPopup : Popup.popup :=
  Popup.run (popupShowing egmurPage) [Popup.Click 1000; Popup.EditUrl "   "].

(** A popup without an address. *)
Definition unconfiguredPopup : Popup.popup :=
  Popup.step (Popup.initial "" "" "")
             (Popup.showResult (value (Scraper.getSystemData egmurPage))).

End Pages.

(* ------------------------------------------------------------------------- *)
(** ** The callback that shows the result (popup.js, lines 145-177, 201-230) *)
(* ------------------------------------------------------------------------- *)

Module Activation.

(** What [disableButtons] and [enableButtons] set on a button. *)
Record button : Type := Button {
  disabled : bool;
  opacity : string;
  cursor : string
}.

(** The part of the popup page that the callback writes: the texts it
    assigns to the two display elements, the two buttons and the console.
    [headerData] and [number] hold the text last assigned to [innerText];
    what the getter returns afterwards is the text as rendered, which is
    not computed here. *)
Record view : Type := View {
  headerData : string;          (* last text assigned to innerText of #headerData *)
  number : string;              (* last text assigned to innerText of #number *)
  copyButton : button;
  discordButton : button;
  console : list string         (* the first argument of each console call *)
}.

(** Lines 201-213. *)
Definition disableButtons (v : view) : view :=
  View (headerData v) (number v)
       (Button true "0.5" "not-allowed") (Button true "0.5" "not-allowed")
       (console v ++ ["Buttons disabled - no system data available"]).

(** Lines 218-230. *)
Definition enableButtons (v : view) : view :=
  View (headerData v) (number v)
       (Button false "1" "pointer") (Button false "1" "pointer")
       (console v ++ ["Buttons enabled - system data available"]).

Definition setHeader (text : string) (v : view) : view :=
  View text (number v) (copyButton v) (discordButton v) (console v).

Definition setNumber (text : string) (v : view) : view :=
  View (headerData v) text (copyButton v) (discordButton v) (console v).

Definition write (line : string) (v : view) : view :=
  View (headerData v) (number v) (copyButton v) (discordButton v) (console v ++ [line]).

(** The callback of [executeScript] (lines 145-177).  [lastError] is the
    message of [chrome.runtime.lastError] when that is set; [data] is
    [results[0].result], [None] when the script returned nothing. *)
Definition onResults (lastError : option string) (data : option Scraper.extraction)
    (v : view) : view :=
  match lastError with
  | Some message =>
      disableButtons (setHeader ("Error: " +++ message) (write "Chrome Runtime Error:" v))
  | None =>
      let v := write "Scraped data received:" v in
      match data with
      | Some d =>
          if Scraper.success d then
            let v := setHeader (Scraper.header d) v in
            if JS.truthyString (Scraper.destinations d)
               && negb (String.eqb (JS.trim (Scraper.destinations d)) "")
            then enableButtons (setNumber (Scraper.destinations d) v)
            else disableButtons (setNumber "" v)
          else
            let v := write "Error from content script:" v in
            let v := setHeader (if JS.truthy (Scraper.error d)
                                then match Scraper.error d with Some e => e | None => "" end
                                else "No system selected.") v in
            disableButtons (setNumber "" v)
      | None =>
          let v := write "Error from content script:" v in
          disableButtons (setNumber "" (setHeader "No system selected." v))
      end
  end.

(** The view before the callback has run. *)
Definition blankView : view :=
  View "" "" (Button false "" "") (Button false "" "") [].

(** Both buttons can be used. *)
Definition enabled (v : view) : bool :=
  negb (disabled (copyButton v)) && negb (disabled (discordButton v)).

End Activation.

(* ------------------------------------------------------------------------- *)
(** ** The send button with its handler *)
(* ------------------------------------------------------------------------- *)

Module Window.




End Window.

(* ------------------------------------------------------------------------- *)
(** ** The copy button (popup.js, lines 185-190 and 814-836) *)
(* ------------------------------------------------------------------------- *)

Module Clipboard.

(** The part of the popup page that [copyToClipboard] touches: the texts
    handed to the copy command, the number of temporary text areas attached
    to the body, whether the notification has the class [show], the number
    of timers set and not yet fired, and the console (the first argument
    of each call). *)
Record page : Type := Page {
  copied : list string;
  textareas : nat;
  notificationShown : bool;
  timers : nat;
  console : list string
}.

(** Lines 814-836: the text area is created, filled, attached, selected,
    copied and removed; then the notification is shown and a timer set. *)
Definition copyToClipboard (text : string) (p : page) : page :=
  let attached := S (textareas p) in
  let copied' := copied p ++ [text] in
  let removed := attached - 1 in
  Page copied' removed true (S (timers p)) (console p ++ ["Copied to clipboard:"]).

(** Lines 834-836: a timer fires and takes the class [show] away. *)
Definition timerFires (p : page) : page :=
  match timers p with
  | 0 => p
  | S n => Page (copied p) (textareas p) false n (console p)
  end.

(** The click handler of the copy button (lines 185-190) on a popup that
    shows [s]. *)
Definition copyClick (s : Popup.popup) (p : page) : page :=
  copyToClipboard (Popup.fullText s) p.

Inductive input : Type :=
| Copy (text : string)
| Timer.

Definition step (p : page) (i : input) : page :=
  match i with
  | Copy text => copyToClipboard text p
  | Timer => timerFires p
  end.

Definition run (p : page) (inputs : list input) : page := fold_left step inputs p.

Definition initial : page := Page [] 0 false 0 [].

(** The texts of the copy clicks among the inputs, in order. *)
Definition copyTexts (inputs : list input) : list string :=
  flat_map (fun i => match i with Copy text => [text] | Timer => [] end) inputs.

End Clipboard.

(* ------------------------------------------------------------------------- *)
(** ** The stored webhook address (popup.js, lines 52-59 and 121) *)
(* ------------------------------------------------------------------------- *)

Module Storage.

(** [localStorage]: a string for every key that is set. *)
Definition storage : Type := string -> option string.

Definition empty : storage := fun _ => None.

(** [localStorage.getItem(key)], [None] for [null]. *)
Definition getItem (st : storage) (key : string) : option string := st key.

(** [localStorage.setItem(key, value)] *)
Definition setItem (st : storage) (key value : string) : storage :=
  fun k => if String.eqb k key then Some value else st k.

(** [v || fallback] for a value that is [null] or a string. *)
Definition orElse (v : option string) (fallback : string) : string :=
  match v with
  | Some s => if JS.truthyString s then s else fallback
  | None => fallback
  end.

(** Line 52: the value put in the address field when the popup opens. *)
Definition loadWebhookUrl (st : storage) : string :=
  orElse (getItem st "webhookUrl") "".

(** Lines 56-59: the [change] handler of the address field. *)
Definition saveWebhookUrl (value : string) (st : storage) : storage :=
  setItem st "webhookUrl" value.

(** Line 121: the theme that is applied when the popup opens. *)
Definition savedTheme (st : storage) : string :=
  orElse (getItem st "theme") "default".

End Storage.

(* ------------------------------------------------------------------------- *)
(** ** The body of the request (popup.js, lines 251-259) *)
(* ------------------------------------------------------------------------- *)

Module Wire.

Definition hexDigit (n : nat) : ascii :=
  if n <? 10 then ascii_of_nat (48 + n) else ascii_of_nat (87 + n).

Definition backslash : ascii := ascii_of_nat 92.
Definition quote : ascii := ascii_of_nat 34.

(** One code unit inside a JSON string, as [JSON.stringify] writes it: the
    short escapes, a [\u00xx] escape for the other code units below 32, and
    the code unit itself otherwise. *)
Definition quoteUnit (c : ascii) : string :=
  let n := nat_of_ascii c in
  let esc (x : ascii) := String backslash (String x EmptyString) in
  if n =? 8 then esc "b"%char
  else if n =? 9 then esc "t"%char
  else if n =? 10 then esc "n"%char
  else if n =? 12 then esc "f"%char
  else if n =? 13 then esc "r"%char
  else if n =? 34 then esc quote
  else if n =? 92 then esc backslash
  else if n <? 32 then
    String backslash
      (String "u" (String "0" (String "0"
         (String (hexDigit (n / 16)) (String (hexDigit (n mod 16)) EmptyString)))))
  else String c EmptyString.

Fixpoint quoteUnits (s : string) : string :=
  match s with
  | EmptyString => EmptyString
  | String c rest => quoteUnit c +++ quoteUnits rest
  end.

(** [JSON.stringify(s)] for a string. *)
Definition quoteJSONString (s : string) : string :=
  String quote (quoteUnits s +++ String quote EmptyString).

(** [JSON.stringify({ content: data })] *)
Definition body (data : string) : string :=
  "{" +++ String quote ("content" +++ String quote (":" +++ quoteJSONString data +++ "}")).

(** The body of a call of [fetch]. *)
Definition requestBody (r : Popup.request) : string := body (Popup.content r).

(** Reading a JSON string back, as a JSON parser does: the inverse used to
    state what the body carries.  [readUnits] reads up to the closing quote
    and returns the text and what follows the quote. *)
Definition hexValue (c : ascii) : option nat :=
  let n := nat_of_ascii c in
  if (48 <=? n) && (n <=? 57) then Some (n - 48)
  else if (97 <=? n) && (n <=? 102) then Some (n - 87)
  else if (65 <=? n) && (n <=? 70) then Some (n - 55)
  else None.

Fixpoint readUnits (fuel : nat) (s : string) : option (string * string) :=
  match fuel with
  | 0 => None
  | S fuel' =>
      match s with
      | EmptyString => None
      | String c rest =>
          if Ascii.eqb c quote then Some (EmptyString, rest)
          else if Ascii.eqb c backslash then
            match rest with
            | String e rest' =>
                let continue (u : ascii) (r : string) :=
                  match readUnits fuel' r with
                  | Some (text, after) => Some (String u text, after)
                  | None => None
                  end in
                if Ascii.eqb e "b" then continue (ascii_of_nat 8) rest'
                else if Ascii.eqb e "t" then continue (ascii_of_nat 9) rest'
                else if Ascii.eqb e "n" then continue (ascii_of_nat 10) rest'
                else if Ascii.eqb e "f" then continue (ascii_of_nat 12) rest'
                else if Ascii.eqb e "r" then continue (ascii_of_nat 13) rest'
                else if Ascii.eqb e quote then continue quote rest'
                else if Ascii.eqb e backslash then continue backslash rest'
                else if Ascii.eqb e "/" then continue "/"%char rest'
                else if Ascii.eqb e "u" then
                  match rest' with
                  | String "0" (String "0" (String h (String l rest''))) =>
                      match hexValue h, hexValue l with
                      | Some hv, Some lv => continue (ascii_of_nat (16 * hv + lv)) rest''
                      | _, _ => None
                      end
                  | _ => None
                  end
                else None
            | EmptyString => None
            end
          else if nat_of_ascii c <? 32 then None
          else
            match readUnits fuel' rest with
            | Some (text, after) => Some (String c text, after)
            | None => None
            end
      end
  end.

(** What follows the prefix [p] in [s], if [s] begins with [p]. *)
Fixpoint dropPrefix (p s : string) : option string :=
  match p with
  | EmptyString => Some s
  | String a p' =>
      match s with
      | String b s' => if Ascii.eqb a b then dropPrefix p' s' else None
      | EmptyString => None
      end
  end.

(** The text carried by a body of the form [{"content":"..."}]. *)
Definition readContent (b : string) : option string :=
  let opening := "{" +++ String quote ("content" +++ String quote (":" +++ String quote "")) in
  match dropPrefix opening b with
  | Some rest =>
      match readUnits (String.length rest) rest with
      | Some (text, "}") => Some text
      | _ => None
      end
  | None => None
  end.

End Wire.

(* ------------------------------------------------------------------------- *)
(** ** Further notions *)
(* ------------------------------------------------------------------------- *)

Module More.

Import Scraper.

(** The selectors of the Name Locator in the order in which it tries
    them. *)
Definition nameSelectors : list selector := headerSelectors ++ [h6Selector].

Definition connectionClasses : list string := ["C1"; "C2"; "C3"; "C4"; "C5"; "C6"].

(** A connection class that is set is one of the six classes. *)
Definition classOk (f : fields) : Prop :=
  forall c, connection f = Some c -> In c connectionClasses.

(** The upper-case label of a button or tab. *)
Definition label (button : located) : string :=
  JS.toUpperCase (JS.trim (textContent (self button))).

(** A button or tab that [detectActiveTab] accepts: it carries one of the
    two labels and is marked active. *)
Definition activeTab (button : located) : bool :=
  (String.eqb (label button) "SHORTEST" || String.eqb (label button) "SECURE")
  && isActive (self button).

(** What the scans of the visible panels give, panel after panel. *)
Definition panelDestinations (doc : node) : list destination :=
  flat_map (fun panel => value (extractAllDestinationsFromContainer panel))
           (filter (fun panel => isVisible (self panel)) (select doc panelSelector)).

(** The texts of the text elements of an element, trimmed. *)
Definition textsOf (element : located) : list string :=
  map (fun textEl => JS.trim (textContent (self textEl)))
      (querySelectorAllIn element textElementSelector).

(** What [extractDestinationFromElement] accepts as a jump count and as a
    hub name (the tests of lines 591 and 595-599, and of line 605).  A jump
    count is a text of at most three code units at whose start [parseInt]
    reads a number.  A name is a text that failed that test and that
    [isNaN] does not convert to a number as a whole; [parseInt] may still
    read a number at its start. *)
Definition jumpsOk (text : string) : Prop :=
  0 < String.length text <= 3 /\ JS.isNaN (JS.parseInt text) = false.

Definition nameOk (text : string) : Prop :=
  0 < String.length text < 30
  /\ JS.isNaNString text = true
  /\ JS.includes text "from" = false
  /\ JS.includes text "jumps" = false
  /\ JS.includes (JS.toLowerCase text) "route" = false
  /\ (JS.isNaN (JS.parseInt text) = true \/ 3 < String.length text).

(** The variables of [extractDestinationFromElement] hold texts of [texts]
    that passed the tests, or nothing. *)
Definition readingOk (texts : list string) (r : reading) : Prop :=
  (forall h, hubName r = Some h -> In h texts /\ nameOk h)
  /\ (forall j, jumpCount r = Some j -> In j texts /\ jumpsOk j).


(** The alert of line 102. *)
Definition failureAlert : string := "Failed to send to Discord. Check console for details.".

(** Every call made went to an address that is not blank, and a pending call
    is the last call made. *)
Definition callsOk (s : Popup.popup) : Prop :=
  Forall (fun call => Popup.blank (Popup.url call) = false) (Popup.sent s)
  /\ (Popup.pending s = []
      \/ exists earlier call, Popup.sent s = earlier ++ [call] /\ Popup.pending s = [call]).

(** The state of the copy notification is sound: no text area is left on
    the page, and a notification that shows has a timer that will hide
    it. *)
Definition notificationOk (p : Clipboard.page) : Prop :=
  Clipboard.textareas p = 0
  /\ (Clipboard.notificationShown p = true -> 0 < Clipboard.timers p).

(** A page on which nothing is visible in the panels: every panel hidden. *)
Definition hiddenPanel : node :=
  Element "div" [("role", "tabpanel")] "none" "visible"
          [ el "div" [] [txt "b" [] "Jita"; txt "i" [] "14"] ].

Definition hiddenPanelPage : node := Pages.page [Pages.systemHeader; hiddenPanel].

(** A page whose name is only in a plain heading. *)
Definition plainHeadingPage : node :=
  el "html" [] [el "body" [] [txt "h6" [] "Route Settings"; txt "h6" [] " Egmur "]].

(** A page with the SECURE tab active after an inactive SHORTEST tab. *)
Definition securePage : node :=
  Pages.page [ txt "button" [("role", "tab")] "Shortest";
               txt "button" [("class", "MuiTab-root Mui-selected")] " secure " ].

(** One summary inside an accordion, no hub-summary element. *)
Definition accordionPage : node :=
  Pages.page [ Pages.systemHeader;
               el "div" [("class", "MuiAccordion-root")]
                  [txt "span" [] "Perimeter"; txt "p" [] "3"; txt "span" [] "jumps from here"] ].

(** The two tabs of [securePage] with their places. *)
Definition shortestTab : located := nth 0 (select securePage tabButtonSelector) (rootLocated securePage).
Definition secureTab : located := nth 1 (select securePage tabButtonSelector) (rootLocated securePage).

(** The accordion of [accordionPage] with its place. *)
Definition accordionLocated : located :=
  nth 0 (select accordionPage accordionSelector) (rootLocated accordionPage).

(** A system whose name holds the word Route, in the header. *)
Definition routeNamePage : node :=
  Pages.page [el "header" [] [txt "h6" [] "Route 66"]].

(** An accordion whose name text begins with a number. *)
Definition numberedNamePage : node :=
  Pages.page [ Pages.systemHeader;
               el "div" [("class", "MuiAccordion-root")]
                  [txt "span" [] "12 Jita"; txt "p" [] "3"] ].

Definition numberedNameLocated : located :=
  nth 0 (select numberedNamePage accordionSelector) (rootLocated numberedNamePage).

(** A panel in which the text next to the hub goes on after the number. *)
Definition wordyPanelPage : node :=
  Pages.page [ Pages.systemHeader;
               el "div" [("role", "tabpanel")]
                  [ el "div" [] [txt "b" [] "Jita"; txt "i" [] "12 jumps"] ] ].

Definition wordyPanelLocated : located :=
  nth 0 (select wordyPanelPage panelSelector) (rootLocated wordyPanelPage).

(** A hidden panel followed by a visible one. *)
Definition mixedPanelsPage : node :=
  Pages.page [ Pages.systemHeader; hiddenPanel;
               el "div" [("role", "tabpanel")]
                  [ el "div" [] [txt "b" [] "Hek"; txt "i" [] "16"] ] ].

Definition mixedHiddenLocated : located :=
  nth 0 (select mixedPanelsPage panelSelector) (rootLocated mixedPanelsPage).
Definition mixedVisibleLocated : located :=
  nth 1 (select mixedPanelsPage panelSelector) (rootLocated mixedPanelsPage).

(** A hidden panel inside a visible one. *)
Definition nestedPanelPage : node :=
  Pages.page [ Pages.systemHeader; el "div" [("role", "tabpanel")] [hiddenPanel] ].

(** A panel is hidden. *)
Definition hidden (panel : located) : Prop :=
  computedDisplay (self panel) = "none" \/ computedVisibility (self panel) = "hidden".


(** Two map nodes hold the name; only the second holds a rating. *)
Definition twoNodesPage : node :=
  Pages.page [ Pages.systemHeader;
               txt "div" [("class", "node-label")] "Egmur";
               txt "div" [("class", "system-node")] "Egmur 0.7 C4" ].

End More.

(* ------------------------------------------------------------------------- *)
(** ** The model at work on small inputs *)
(* ------------------------------------------------------------------------- *)

Example trim_ex : JS.trim "  Jita 14  " = "Jita 14". Proof. reflexivity. Qed.
Example matchSecurity_ex : JS.matchSecurity "Egmur -0.3 C4" = Some "-0.3". Proof. reflexivity. Qed.
Example matchSecurity_ex2 : JS.matchSecurity "v12.75" = Some "2.7". Proof. reflexivity. Qed.
Example matchConnection_ex : JS.matchConnection "Egmur 0.7 C4" = Some "C4". Proof. reflexivity. Qed.
Example parseInt_ex : JS.parseInt " 14 jumps" = Some 14%Z. Proof. reflexivity. Qed.
Example parseInt_ex2 : JS.parseInt "0x1f" = Some 31%Z. Proof. reflexivity. Qed.
Example parseInt_ex3 : JS.parseInt "Jita" = None. Proof. reflexivity. Qed.
Example parseInt_ex4 : JS.parseInt "-" = None. Proof. reflexivity. Qed.
Example isNaNString_ex : JS.isNaNString "Jita" = true. Proof. reflexivity. Qed.
Example isNaNString_ex2 : JS.isNaNString "1e3" = false. Proof. reflexivity. Qed.
Example isNaNString_ex3 : JS.isNaNString "12px" = true. Proof. reflexivity. Qed.
Example isNaNString_ex4 : JS.isNaNString ".5" = false. Proof. reflexivity. Qed.
Example isNaNString_ex5 : JS.isNaNString "-0x10" = true. Proof. reflexivity. Qed.
Example join_ex : JS.join ", " ["a"; "b"; "c"] = "a, b, c". Proof. reflexivity. Qed.
Example upper_ex : JS.toUpperCase "Shortest" = "SHORTEST". Proof. reflexivity. Qed.
Example showNat_ex : JS.showNat 12 = "12". Proof. reflexivity. Qed.
Example textContent_ex :
  textContent (el "div" [] [txt "span" [] "Jita"; Text " "; txt "span" [] "14"]) = "Jita 14".
Proof. reflexivity. Qed.
Example select_ex :
  map (fun d => textContent (self d))
      (select (el "main" [] [el "header" [] [txt "h6" [] "Egmur"]; txt "h6" [] "Other"])
              [[Tag "main"; Tag "header"; Tag "h6"]])
  = ["Egmur"].
Proof. reflexivity. Qed.
Example classList_ex :
  classList (el "div" [("class", "MuiTab-root  Mui-selected")] []) = ["MuiTab-root"; "Mui-selected"].
Proof. reflexivity. Qed.
Example siblings_ex :
  map (fun d => (tagName (self d),
                 option_map tagName (previousElementSibling d),
                 option_map tagName (nextElementSibling d)))
      (descendants [] (el "div" [] [txt "p" [] "a"; Text "x"; txt "span" [] "b"; txt "b" [] "c"]))
  = [("p", None, Some "span"); ("span", Some "p", Some "b"); ("b", Some "span", None)].
Proof. reflexivity. Qed.

Example getSystemData_egmur :
  value (Scraper.getSystemData Pages.egmurPage)
  = Scraper.Extraction true None "Egmur, 0.7, C4,"
      "Jita 14, Hek 16, Amarr 5, Rens 16, Dodixie 10".
Proof. vm_compute. reflexivity. Qed.

Example classification_layered :
  value (Scraper.extractSecurityAndConnection Pages.layeredPage "Egmur")
  = Scraper.Classification "0.7" (Some "C4").
Proof. vm_compute. reflexivity. Qed.

Example panel_scan :
  value (Scraper.extractAllDestinationsFromContainer Pages.panelLocated)
  = [Scraper.Destination "Jita" "14"; Scraper.Destination "Hek" "7"].
Proof. vm_compute. reflexivity. Qed.

(* ------------------------------------------------------------------------- *)
(** ** Runs of the writer monad *)
(* ------------------------------------------------------------------------- *)

Section Runs.

Context {A B : Type}.

Lemma value_bind (m : M A) (k : A -> M B) :
  value (bind m k) = value (k (value m)).
Proof. reflexivity. Qed.

Lemma trace_bind (m : M A) (k : A -> M B) :
  trace (bind m k) = trace m ++ trace (k (value m)).
Proof. reflexivity. Qed.

Lemma value_ret (a : A) : value (ret a) = a.
Proof. reflexivity. Qed.

Lemma trace_ret (a : A) : trace (ret a) = [].
Proof. reflexivity. Qed.

End Runs.

Lemma queries_app (t u : list event) : queries (t ++ u) = queries t ++ queries u.
Proof.
  induction t as [|e t IH]; simpl; [reflexivity|].
  destruct e; simpl; rewrite IH; reflexivity.
Qed.

Lemma logged_app (t u : list event) : logged (t ++ u) = logged t ++ logged u.
Proof.
  induction t as [|e t IH]; simpl; [reflexivity|].
  destruct e; simpl; rewrite IH; reflexivity.
Qed.

Lemma In_queries (sel : selector) (t : list event) :
  In sel (queries t) <-> In (Query sel) t.
Proof.
  induction t as [|e t IH]; simpl; [tauto|].
  destruct e; simpl; rewrite IH; split; intros H.
  - now right.
  - destruct H as [H|H]; [discriminate | exact H].
  - destruct H as [H|H]; [left; now subst | now right].
  - destruct H as [H|H]; [left; now inversion H | now right].
Qed.

Lemma In_logged (line : string) (t : list event) :
  In line (logged t) <-> In (Log line) t.
Proof.
  induction t as [|e t IH]; simpl; [tauto|].
  destruct e; simpl; rewrite IH; split; intros H.
  - destruct H as [H|H]; [left; now subst | now right].
  - destruct H as [H|H]; [left; now inversion H | now right].
  - now right.
  - destruct H as [H|H]; [discriminate | exact H].
Qed.

(* ------------------------------------------------------------------------- *)
(** ** Mode Detector *)
(* ------------------------------------------------------------------------- *)

Section ModeDetector.

Import Scraper.

Lemma firstActiveTab_label (tabButtons : list located) (text : string) :
  firstActiveTab tabButtons = Some text -> text = "SHORTEST" \/ text = "SECURE".
Proof.
  induction tabButtons as [|button rest IH]; simpl; [discriminate|].
  destruct (String.eqb_spec
              (JS.toUpperCase (JS.trim (textContent (self button)))) "SHORTEST") as [E1|N1];
    [|destruct (String.eqb_spec
                 (JS.toUpperCase (JS.trim (textContent (self button)))) "SECURE") as [E2|N2]];
    simpl; try exact IH;
    (destruct (isActive (self button)); [|exact IH]);
    intros H; inversion H; subst; auto.
Qed.

Lemma firstActiveTab_none (tabButtons : list located) :
  (forall button, In button tabButtons ->
     let text := JS.toUpperCase (JS.trim (textContent (self button))) in
     ((String.eqb text "SHORTEST" || String.eqb text "SECURE")
      && isActive (self button)) = false) ->
  firstActiveTab tabButtons = None.
Proof.
  induction tabButtons as [|button rest IH]; simpl; intros H; [reflexivity|].
  rewrite (H button (or_introl eq_refl)). apply IH.
  intros b Hb. apply H. now right.
Qed.

Lemma detectActiveTab_value (doc : node) :
  value (detectActiveTab doc)
  = match firstActiveTab (select doc tabButtonSelector) with
    | Some text => text
    | None => "SHORTEST"
    end.
Proof.
  unfold detectActiveTab. rewrite !value_bind. simpl value at 2.
  unfold querySelectorAll. cbn [value fst].
  destruct (firstActiveTab (select doc tabButtonSelector)); reflexivity.
Qed.

(** C8. The Mode Detector returns one of the two labels SHORTEST and SECURE
    on every page, and it returns SHORTEST when no button or tab labelled
    SHORTEST or SECURE is marked active. *)
Theorem detectActiveTab_total :
  (forall doc : node,
     value (detectActiveTab doc) = "SHORTEST" \/ value (detectActiveTab doc) = "SECURE")
  /\ (forall doc : node,
        (forall button, In button (select doc tabButtonSelector) ->
           let text := JS.toUpperCase (JS.trim (textContent (self button))) in
           ((String.eqb text "SHORTEST" || String.eqb text "SECURE")
            && isActive (self button)) = false) ->
        value (detectActiveTab doc) = "SHORTEST").
Proof.
  split; intros doc.
  - rewrite detectActiveTab_value.
    destruct (firstActiveTab (select doc tabButtonSelector)) as [text|] eqn:E.
    + exact (firstActiveTab_label _ _ E).
    + now left.
  - intros H. rewrite detectActiveTab_value.
    now rewrite (firstActiveTab_none _ H).
Qed.

(** On a page without tabs the default is returned; on [egmurPage] the
    label of the active tab is. *)
Lemma detectActiveTab_total_witness :
  value (detectActiveTab Pages.blankPage) = "SHORTEST"
  /\ (value (detectActiveTab Pages.egmurPage) = "SHORTEST"
      \/ value (detectActiveTab Pages.egmurPage) = "SECURE").
Proof.
  split.
  - apply (proj2 detectActiveTab_total Pages.blankPage).
    intros button H. vm_compute in H. destruct H.
  - apply (proj1 detectActiveTab_total Pages.egmurPage).
Defined.

End ModeDetector.

(* ------------------------------------------------------------------------- *)
(** ** Classifier Extractor *)
(* ------------------------------------------------------------------------- *)

Section Classifier.

Import Scraper Spec.

Lemma digitDotDigit_shape (s m : string) :
  JS.digitDotDigit s = Some m ->
  exists a b, m = String a (String "." (String b EmptyString))
              /\ JS.isDigit a = true /\ JS.isDigit b = true.
Proof.
  unfold JS.digitDotDigit.
  destruct s as [|a [|p [|b rest]]]; try discriminate.
  - destruct (Ascii.eqb_spec p "."%char) as [->|N].
    + discriminate.
    + destruct p as [[] [] [] [] [] [] [] []]; discriminate.
  - destruct (Ascii.eqb_spec p "."%char) as [->|N].
    + destruct (JS.isDigit a) eqn:Ea; [|discriminate].
      destruct (JS.isDigit b) eqn:Eb; [|discriminate].
      simpl. intros H. inversion H. now exists a, b.
    + destruct p as [[] [] [] [] [] [] [] []]; try discriminate.
      now contradiction N.
Qed.

Lemma securityAt_shape (s m : string) :
  JS.securityAt s = Some m -> ratingShape m.
Proof.
  unfold JS.securityAt. intros H.
  assert (plain : forall t, JS.digitDotDigit t = Some m -> ratingShape m).
  { intros t Ht. destruct (digitDotDigit_shape _ _ Ht) as (a & b & -> & Ha & Hb).
    exists "", a, b. auto. }
  destruct s as [|c rest]; [discriminate|].
  destruct (Ascii.eqb_spec c "-"%char) as [->|N].
  - destruct (JS.digitDotDigit rest) as [m'|] eqn:E; [|discriminate].
    inversion H; subst.
    destruct (digitDotDigit_shape _ _ E) as (a & b & -> & Ha & Hb).
    exists "-", a, b. auto.
  - apply (plain (String c rest)).
    destruct c as [[] [] [] [] [] [] [] []]; try exact H.
    now contradiction N.
Qed.

Lemma matchSecurity_eq (s : string) :
  JS.matchSecurity s
  = match JS.securityAt s with
    | Some m => Some m
    | None => match s with
              | EmptyString => None
              | String _ rest => JS.matchSecurity rest
              end
    end.
Proof. destruct s; reflexivity. Qed.

Lemma matchSecurity_shape (s m : string) :
  JS.matchSecurity s = Some m -> ratingShape m.
Proof.
  induction s as [|c rest IH]; rewrite matchSecurity_eq.
  - discriminate.
  - destruct (JS.securityAt (String c rest)) as [m'|] eqn:E.
    + intros H. inversion H; subst. exact (securityAt_shape _ _ E).
    + exact IH.
Qed.

Lemma ratingShape_truthy (r : string) : ratingShape r -> JS.truthyString r = true.
Proof.
  intros (sign & a & b & -> & [-> | ->] & _); reflexivity.
Qed.

Lemma isDigit_cases (c : ascii) :
  JS.isDigit c = true ->
  In c ["0"; "1"; "2"; "3"; "4"; "5"; "6"; "7"; "8"; "9"]%char.
Proof.
  destruct c as [[] [] [] [] [] [] [] []]; vm_compute; intros H;
    try discriminate H; tauto.
Qed.

(** The value of a matched rating lies between -9.9 and 9.9. *)
Lemma ratingShape_value (r : string) :
  ratingShape r ->
  exists n : Z, decimalParts r = Some (n, 1) /\ (-99 <= n <= 99)%Z.
Proof.
  intros (sign & a & b & -> & Hs & Ha & Hb).
  apply isDigit_cases in Ha. apply isDigit_cases in Hb.
  simpl in Ha, Hb.
  destruct Hs as [-> | ->];
    repeat (destruct Ha as [<- | Ha]; [|]); try contradiction;
    repeat (destruct Hb as [<- | Hb]; [|]); try contradiction;
    vm_compute; eexists; (split; [reflexivity | split; discriminate]).
Qed.

Lemma queries_bind {A B : Type} (m : M A) (k : A -> M B) :
  queries (trace (bind m k)) = queries (trace m) ++ queries (trace (k (value m))).
Proof. rewrite trace_bind. apply queries_app. Qed.

Section Loops.

Context {A S : Type} (body : A -> S -> M S).

Lemma forEach_queries (l : list A) (s : S) :
  (forall x s, queries (trace (body x s)) = []) ->
  queries (trace (forEach l body s)) = [].
Proof.
  intros Hbody. revert s.
  induction l as [|x rest IH]; intros s; cbn [forEach].
  - reflexivity.
  - rewrite queries_bind, Hbody, IH. reflexivity.
Qed.

Lemma forEach_invariant (P : S -> Prop) (l : list A) (s : S) :
  (forall x s, P s -> P (value (body x s))) ->
  P s -> P (value (forEach l body s)).
Proof.
  intros Hbody. revert s.
  induction l as [|x rest IH]; intros s Hs; cbn [forEach].
  - exact Hs.
  - rewrite value_bind. apply IH, Hbody, Hs.
Qed.

End Loops.

Lemma connectionAt_truthy (s m : string) :
  JS.connectionAt s = Some m -> JS.truthyString m = true.
Proof.
  unfold JS.connectionAt.
  destruct s as [|c [|d rest]]; try discriminate.
  - destruct c as [[] [] [] [] [] [] [] []]; discriminate.
  - destruct c as [[] [] [] [] [] [] [] []]; try discriminate.
    destruct ((49 <=? nat_of_ascii d) && (nat_of_ascii d <=? 54)); [|discriminate].
    intros H. inversion H. reflexivity.
Qed.

Lemma matchConnection_eq (s : string) :
  JS.matchConnection s
  = match JS.connectionAt s with
    | Some m => Some m
    | None => match s with
              | EmptyString => None
              | String _ rest => JS.matchConnection rest
              end
    end.
Proof. destruct s; reflexivity. Qed.

Lemma matchConnection_truthy (s m : string) :
  JS.matchConnection s = Some m -> JS.truthyString m = true.
Proof.
  induction s as [|c rest IH]; rewrite matchConnection_eq.
  - discriminate.
  - destruct (JS.connectionAt (String c rest)) as [m'|] eqn:E.
    + intros H. inversion H; subst. exact (connectionAt_truthy _ _ E).
    + exact IH.
Qed.

Lemma fieldsOk_of (r c : option string) :
  (forall m, r = Some m -> ratingShape m) ->
  (forall m, c = Some m -> JS.truthyString m = true) ->
  fieldsOk (Fields r c).
Proof. intros Hr Hc. split; assumption. Qed.

Lemma scanMapNodes_ok (systemName : string) (mapNodes : list located) :
  fieldsOk (value (scanMapNodes systemName mapNodes)).
Proof.
  induction mapNodes as [|node rest IH]; cbn [scanMapNodes].
  - split; intros r H; discriminate H.
  - destruct (JS.includes (textContent (self node)) systemName); [|exact IH].
    destruct (JS.matchSecurity (textContent (self node))) as [m|] eqn:E;
      destruct (JS.matchConnection (textContent (self node))) as [m'|] eqn:E';
      apply fieldsOk_of; intros x H; inversion H; subst;
      first [ exact (matchSecurity_shape _ _ E) | exact (matchConnection_truthy _ _ E') ].
Qed.

Lemma scanMapNodes_queries (systemName : string) (mapNodes : list located) :
  queries (trace (scanMapNodes systemName mapNodes)) = [].
Proof.
  induction mapNodes as [|node rest IH]; cbn [scanMapNodes].
  - reflexivity.
  - destruct (JS.includes (textContent (self node)) systemName); [|exact IH].
    destruct (JS.matchSecurity (textContent (self node)));
      destruct (JS.matchConnection (textContent (self node))); reflexivity.
Qed.

Lemma scanSystemType_ok (element : located) (f : fields) :
  fieldsOk f -> fieldsOk (value (scanSystemType element f)).
Proof.
  intros [Hr Hc]. unfold scanSystemType.
  destruct (JS.matchConnection (JS.trim (textContent (self element)))) as [m|] eqn:E.
  - apply fieldsOk_of; [exact Hr|].
    intros x H. inversion H; subst. exact (matchConnection_truthy _ _ E).
  - destruct (JS.matchSecurity (JS.trim (textContent (self element)))) as [m|] eqn:E'.
    + apply fieldsOk_of; [|exact Hc].
      intros x H. inversion H; subst. exact (matchSecurity_shape _ _ E').
    + split; assumption.
Qed.

Lemma scanSystemType_queries (element : located) (f : fields) :
  queries (trace (scanSystemType element f)) = [].
Proof.
  unfold scanSystemType.
  destruct (JS.matchConnection (JS.trim (textContent (self element))));
    [|destruct (JS.matchSecurity (JS.trim (textContent (self element))))]; reflexivity.
Qed.

Lemma strategy1_ok (doc : node) (systemName : string) :
  fieldsOk (value (strategy1 doc systemName)).
Proof. unfold strategy1. rewrite value_bind. apply scanMapNodes_ok. Qed.

Lemma strategy1_queries (doc : node) (systemName : string) :
  queries (trace (strategy1 doc systemName)) = [mapNodeSelector].
Proof.
  unfold strategy1. rewrite queries_bind, scanMapNodes_queries. reflexivity.
Qed.

Lemma strategy2_ok (doc : node) (f : fields) :
  fieldsOk f -> fieldsOk (value (strategy2 doc f)).
Proof.
  intros Hf. unfold strategy2.
  destruct (negb (JS.truthy (rating f)) && negb (JS.truthy (connection f))); [|exact Hf].
  rewrite value_bind.
  apply forEach_invariant; [|exact Hf].
  intros x s. apply scanSystemType_ok.
Qed.

Lemma strategy2_queries (doc : node) (f : fields) :
  queries (trace (strategy2 doc f))
  = if negb (JS.truthy (rating f)) && negb (JS.truthy (connection f))
    then [systemTypeSelector] else [].
Proof.
  unfold strategy2.
  destruct (negb (JS.truthy (rating f)) && negb (JS.truthy (connection f))); [|reflexivity].
  rewrite queries_bind, forEach_queries; [reflexivity|].
  intros x s. apply scanSystemType_queries.
Qed.

(** The values of strategy 3, field by field. *)
Lemma strategy3_rating (doc : node) (f : fields) :
  rating (value (strategy3 doc f))
  = if JS.truthy (rating f) then rating f
    else match hd_error (select doc headerAreaSelector) with
         | Some area =>
             match JS.matchSecurity (textContent (self area)) with
             | Some m => Some m
             | None => rating f
             end
         | None => rating f
         end.
Proof.
  unfold strategy3.
  destruct (JS.truthy (rating f)) eqn:Er; destruct (JS.truthy (connection f)) eqn:Ec;
    cbn [negb orb]; try reflexivity;
    rewrite value_bind; unfold querySelector; cbn [value fst];
    (destruct (hd_error (select doc headerAreaSelector)) as [area|]; [|reflexivity]);
    try (destruct (JS.matchSecurity (textContent (self area))));
    try (destruct (JS.matchConnection (textContent (self area)))); reflexivity.
Qed.

Lemma strategy3_connection (doc : node) (f : fields) :
  connection (value (strategy3 doc f))
  = if JS.truthy (connection f) then connection f
    else match hd_error (select doc headerAreaSelector) with
         | Some area =>
             match JS.matchConnection (textContent (self area)) with
             | Some m => Some m
             | None => connection f
             end
         | None => connection f
         end.
Proof.
  unfold strategy3.
  destruct (JS.truthy (rating f)) eqn:Er; destruct (JS.truthy (connection f)) eqn:Ec;
    cbn [negb orb]; try reflexivity;
    rewrite value_bind; unfold querySelector; cbn [value fst];
    (destruct (hd_error (select doc headerAreaSelector)) as [area|]; [|reflexivity]);
    try (destruct (JS.matchSecurity (textContent (self area))));
    try (destruct (JS.matchConnection (textContent (self area)))); reflexivity.
Qed.

Lemma strategy3_ok (doc : node) (f : fields) :
  fieldsOk f -> fieldsOk (value (strategy3 doc f)).
Proof.
  intros [Hr Hc]. split.
  - intros r. rewrite strategy3_rating.
    destruct (JS.truthy (rating f)); [apply Hr|].
    destruct (hd_error (select doc headerAreaSelector)) as [area|]; [|apply Hr].
    destruct (JS.matchSecurity (textContent (self area))) as [m|] eqn:E; [|apply Hr].
    intros H. inversion H; subst. exact (matchSecurity_shape _ _ E).
  - intros c. rewrite strategy3_connection.
    destruct (JS.truthy (connection f)); [apply Hc|].
    destruct (hd_error (select doc headerAreaSelector)) as [area|]; [|apply Hc].
    destruct (JS.matchConnection (textContent (self area))) as [m|] eqn:E; [|apply Hc].
    intros H. inversion H; subst. exact (matchConnection_truthy _ _ E).
Qed.

Lemma strategy3_queries (doc : node) (f : fields) :
  queries (trace (strategy3 doc f))
  = if negb (JS.truthy (rating f)) || negb (JS.truthy (connection f))
    then [headerAreaSelector] else [].
Proof.
  unfold strategy3.
  destruct (negb (JS.truthy (rating f)) || negb (JS.truthy (connection f))); [|reflexivity].
  rewrite queries_bind. unfold querySelector; cbn [value trace fst snd queries app].
  destruct (hd_error (select doc headerAreaSelector)) as [area|]; [|reflexivity].
  destruct (negb (JS.truthy (rating f))); destruct (negb (JS.truthy (connection f)));
    try (destruct (JS.matchSecurity (textContent (self area))));
    try (destruct (JS.matchConnection (textContent (self area)))); reflexivity.
Qed.

Lemma finish_securityRating (f : fields) :
  securityRating (value (finish f))
  = if JS.truthy (rating f)
    then match rating f with Some r => r | None => "" end
    else "Unknown".
Proof.
  unfold finish.
  destruct (JS.truthy (rating f)); destruct (JS.truthy (connection f)); reflexivity.
Qed.

Lemma finish_connectionType (f : fields) :
  connectionType (value (finish f)) = connection f.
Proof.
  unfold finish.
  destruct (JS.truthy (rating f)); destruct (JS.truthy (connection f)); reflexivity.
Qed.

Lemma finish_queries (f : fields) : queries (trace (finish f)) = [].
Proof.
  unfold finish.
  destruct (JS.truthy (rating f)); destruct (JS.truthy (connection f)); reflexivity.
Qed.

(** The result of the Classifier Extractor in terms of its three stages. *)
Lemma extractSecurityAndConnection_value (doc : node) (systemName : string) :
  value (extractSecurityAndConnection doc systemName)
  = value (finish (value (strategy3 doc (value (strategy2 doc
                                                  (value (strategy1 doc systemName))))))).
Proof. reflexivity. Qed.

Lemma extractSecurityAndConnection_queries (doc : node) (systemName : string) :
  let f1 := value (strategy1 doc systemName) in
  let f2 := value (strategy2 doc f1) in
  queries (trace (extractSecurityAndConnection doc systemName))
  = [mapNodeSelector]
    ++ (if negb (JS.truthy (rating f1)) && negb (JS.truthy (connection f1))
        then [systemTypeSelector] else [])
    ++ (if negb (JS.truthy (rating f2)) || negb (JS.truthy (connection f2))
        then [headerAreaSelector] else []).
Proof.
  intros f1 f2. unfold extractSecurityAndConnection.
  rewrite !queries_bind.
  rewrite strategy1_queries, strategy2_queries, strategy3_queries, finish_queries.
  fold f1. fold f2. cbn [log trace snd value fst queries app].
  rewrite app_nil_r. reflexivity.
Qed.

Lemma extractSecurityAndConnection_ok (doc : node) (systemName : string) :
  fieldsOk (value (strategy3 doc (value (strategy2 doc (value (strategy1 doc systemName)))))).
Proof. apply strategy3_ok, strategy2_ok, strategy1_ok. Qed.

(** C7, as the code has it. The security rating of the Classification is the
    sentinel "Unknown" or a match of the pattern: an optional minus, one
    digit, a point and one digit, a numeral between -9.9 and 9.9.  The code
    compares no rating with the interval [-1.0, 1.0]. *)
Theorem securityRating_unknown_or_match (doc : node) (systemName : string) :
  let r := securityRating (value (extractSecurityAndConnection doc systemName)) in
  r = "Unknown"
  \/ (ratingShape r
      /\ exists n : Z, decimalParts r = Some (n, 1%nat) /\ (-99 <= n <= 99)%Z).
Proof.
  intros r. subst r.
  rewrite extractSecurityAndConnection_value, finish_securityRating.
  destruct (extractSecurityAndConnection_ok doc systemName) as [Hr _].
  set (f3 := value (strategy3 doc _)) in *.
  destruct (JS.truthy (rating f3)) eqn:T; [|now left].
  destruct (rating f3) as [r|] eqn:E.
  - right. split; [exact (Hr r eq_refl) | exact (ratingShape_value r (Hr r eq_refl))].
  - discriminate T.
Qed.

(** C7 fails as stated: on [versionPage] the map node of Egmur reads
    "Egmur v9.9", and the rating is "9.9", neither the sentinel nor a
    numeral of [-1.0, 1.0]. *)
Lemma securityRating_outside_unit_interval :
  securityRating (value (extractSecurityAndConnection Pages.versionPage "Egmur")) = "9.9"
  /\ ~ ratingInUnitInterval
         (securityRating (value (extractSecurityAndConnection Pages.versionPage "Egmur"))).
Proof.
  split; [vm_compute; reflexivity|].
  intros [H | H]; vm_compute in H; discriminate H.
Qed.

(** C4. Strategy 2 is tried exactly when strategy 1 left both fields unset,
    and strategy 3 exactly when a field is unset after strategies 1 and 2;
    so each is tried only if both fields were not filled before it.
    Strategy 3 keeps every field that is set.  At the end an unset rating
    is "Unknown" and an unset connection class stays absent, while a field
    that is set is returned as it is. *)
Theorem classifier_strategies (doc : node) (systemName : string) :
  let f1 := value (strategy1 doc systemName) in
  let f2 := value (strategy2 doc f1) in
  let f3 := value (strategy3 doc f2) in
  let run := extractSecurityAndConnection doc systemName in
  (In systemTypeSelector (queries (trace run))
   <-> JS.truthy (rating f1) = false /\ JS.truthy (connection f1) = false)
  /\ (In headerAreaSelector (queries (trace run))
      <-> JS.truthy (rating f2) = false \/ JS.truthy (connection f2) = false)
  /\ (JS.truthy (rating f2) = true -> rating f3 = rating f2)
  /\ (JS.truthy (connection f2) = true -> connection f3 = connection f2)
  /\ (JS.truthy (rating f3) = false -> securityRating (value run) = "Unknown")
  /\ (JS.truthy (connection f3) = false -> connectionType (value run) = None)
  /\ (forall r, rating f3 = Some r -> securityRating (value run) = r)
  /\ connectionType (value run) = connection f3.
Proof.
  intros f1 f2 f3 run.
  assert (Hq := extractSecurityAndConnection_queries doc systemName).
  cbn zeta in Hq. fold f1 in Hq. fold f2 in Hq. fold run in Hq.
  assert (Hok := extractSecurityAndConnection_ok doc systemName).
  fold f1 in Hok. fold f2 in Hok. fold f3 in Hok. destruct Hok as [Hr Hc].
  assert (Hv : value run = value (finish f3)) by reflexivity.
  split; [split|split; [split|]].
  - rewrite Hq. intros H.
    destruct (JS.truthy (rating f1)); destruct (JS.truthy (connection f1));
      destruct (negb (JS.truthy (rating f2)) || negb (JS.truthy (connection f2)));
      cbn in H; intuition discriminate.
  - rewrite Hq. intros [-> ->]. cbn. auto.
  - rewrite Hq. intros H.
    destruct (negb (JS.truthy (rating f1)) && negb (JS.truthy (connection f1)));
      destruct (JS.truthy (rating f2)); destruct (JS.truthy (connection f2));
      cbn in H; intuition discriminate.
  - rewrite Hq. intros H. apply in_or_app. right. apply in_or_app. right.
    destruct H as [-> | ->]; cbn; [|rewrite orb_true_r]; now left.
  - split; [|split; [|split; [|split; [|split]]]].
    + intros H. unfold f3. rewrite strategy3_rating, H. reflexivity.
    + intros H. unfold f3. rewrite strategy3_connection, H. reflexivity.
    + intros H. rewrite Hv, finish_securityRating, H. reflexivity.
    + intros H. rewrite Hv, finish_connectionType.
      destruct (connection f3) as [c|] eqn:E; [|reflexivity].
      cbn in H. rewrite (Hc c eq_refl) in H. discriminate H.
    + intros r E. rewrite Hv, finish_securityRating, E. cbn.
      rewrite (ratingShape_truthy r (Hr r E)). reflexivity.
    + rewrite Hv. apply finish_connectionType.
Qed.

(** On [layeredPage] strategy 1 finds no map node, so strategies 2 and 3 are
    both tried; on [barePage] nothing is found and the defaults apply; on
    [egmurPage] strategy 1 fills both fields and strategy 3 keeps them. *)
Lemma classifier_strategies_witness :
  In systemTypeSelector
     (queries (trace (extractSecurityAndConnection Pages.layeredPage "Egmur")))
  /\ In headerAreaSelector
        (queries (trace (extractSecurityAndConnection Pages.layeredPage "Egmur")))
  /\ securityRating (value (extractSecurityAndConnection Pages.barePage "Egmur")) = "Unknown"
  /\ connectionType (value (extractSecurityAndConnection Pages.barePage "Egmur")) = None
  /\ rating (value (strategy3 Pages.egmurPage
                      (value (strategy2 Pages.egmurPage
                                (value (strategy1 Pages.egmurPage "Egmur"))))))
     = Some "0.7".
Proof.
  destruct (classifier_strategies Pages.layeredPage "Egmur")
    as (H2 & H3 & _).
  destruct (classifier_strategies Pages.barePage "Egmur")
    as (_ & _ & _ & _ & Hu & Hn & _).
  destruct (classifier_strategies Pages.egmurPage "Egmur")
    as (_ & _ & Hk & _).
  split; [apply (proj2 H2); split; vm_compute; reflexivity|].
  split; [apply (proj2 H3); left; vm_compute; reflexivity|].
  split; [apply Hu; vm_compute; reflexivity|].
  split; [apply Hn; vm_compute; reflexivity|].
  rewrite Hk; vm_compute; reflexivity.
Defined.

End Classifier.

(* ------------------------------------------------------------------------- *)
(** ** Destination Extractor *)
(* ------------------------------------------------------------------------- *)

Section Destinations.

Import Scraper Spec.

Lemma quiet_nil : quiet [].
Proof. split; [reflexivity | constructor]. Qed.

Lemma quiet_app (t u : list event) : quiet t -> quiet u -> quiet (t ++ u).
Proof.
  intros [Qt Lt] [Qu Lu]. split.
  - rewrite queries_app, Qt, Qu. reflexivity.
  - rewrite logged_app. apply Forall_app. split; assumption.
Qed.

Lemma quiet_found (rest : string) : quiet [Log ("  Found: " +++ rest)].
Proof.
  split; [reflexivity|].
  constructor; [|constructor]. now exists rest.
Qed.

Lemma quiet_bind {A B : Type} (m : M A) (k : A -> M B) :
  quiet (trace m) -> (forall a, quiet (trace (k a))) -> quiet (trace (bind m k)).
Proof. intros Hm Hk. rewrite trace_bind. apply quiet_app; [exact Hm | apply Hk]. Qed.

Lemma forEach_quiet {A S : Type} (body : A -> S -> M S) (l : list A) (s : S) :
  (forall x s, quiet (trace (body x s))) -> quiet (trace (forEach l body s)).
Proof.
  intros Hbody. revert s.
  induction l as [|x rest IH]; intros s; cbn [forEach].
  - apply quiet_nil.
  - apply quiet_bind; [apply Hbody | intros a; apply IH].
Qed.

(** A quiet trace holds neither of the lines that announce a fallback. *)
Lemma quiet_not_trying (t : list event) :
  quiet t -> ~ In tryingAccordions (logged t) /\ ~ In tryingPanels (logged t).
Proof.
  intros [_ Hl]. rewrite Forall_forall in Hl.
  split; intros H; destruct (Hl _ H) as [rest E]; discriminate E.
Qed.

Lemma extractDestinationFromElement_quiet (element : located) :
  quiet (trace (extractDestinationFromElement element)).
Proof.
  unfold extractDestinationFromElement.
  destruct (hubName _) as [h|]; [|apply quiet_nil].
  destruct (jumpCount _) as [j|]; [|apply quiet_nil].
  destruct (JS.truthyString h && JS.truthyString j); [|apply quiet_nil].
  apply (quiet_found (h +++ " - " +++ j +++ " jumps")).
Qed.

Lemma pushDestinationOf_quiet (element : located) (ds : list destination) :
  quiet (trace (pushDestinationOf element ds)).
Proof.
  unfold pushDestinationOf.
  apply quiet_bind; [apply extractDestinationFromElement_quiet|].
  intros [d|]; apply quiet_nil.
Qed.

Lemma visitHub_quiet (element : located) (text hub : string) (ds : list destination) :
  quiet (trace (visitHub element text hub ds)).
Proof.
  unfold visitHub.
  destruct (String.eqb text hub); [|apply quiet_nil].
  destruct (findJumps element) as [j|]; [|apply quiet_nil].
  destruct (JS.truthyString j && negb (recorded hub ds)); [|apply quiet_nil].
  apply (quiet_found (hub +++ " - " +++ j +++ " jumps")).
Qed.

Lemma extractAllDestinationsFromContainer_quiet (container : located) :
  quiet (trace (extractAllDestinationsFromContainer container)).
Proof.
  unfold extractAllDestinationsFromContainer.
  apply forEach_quiet. intros element ds. unfold visitElement.
  apply forEach_quiet. intros hub ds'. apply visitHub_quiet.
Qed.

Lemma pushPanelDestinations_quiet (panel : located) (ds : list destination) :
  quiet (trace (pushPanelDestinations panel ds)).
Proof.
  unfold pushPanelDestinations.
  destruct (isVisible (self panel)); [|apply quiet_nil].
  apply quiet_bind; [apply extractAllDestinationsFromContainer_quiet|].
  intros a. apply quiet_nil.
Qed.

(** Strategies 1 and 2 push the destination of every element that has
    one. *)
Lemma forEach_pushDestinationOf (l : list located) (ds : list destination) :
  value (forEach l pushDestinationOf ds) = ds ++ destinationsOf l.
Proof.
  revert ds. induction l as [|e rest IH]; intros ds; cbn [forEach].
  - cbn. now rewrite app_nil_r.
  - rewrite value_bind, IH. unfold pushDestinationOf at 1. rewrite value_bind.
    unfold destinationsOf. cbn [flat_map].
    destruct (value (extractDestinationFromElement e)) as [d|]; cbn [value ret fst].
    + now rewrite <- app_assoc.
    + reflexivity.
Qed.

Lemma hubSummaryStrategy_value (doc : node) :
  value (hubSummaryStrategy doc) = destinationsOf (select doc hubSummarySelector).
Proof.
  unfold hubSummaryStrategy. rewrite !value_bind.
  apply (forEach_pushDestinationOf _ []).
Qed.

(** The traces of the three strategies: the marks of the strategy, then
    quiet work on its elements. *)
Lemma hubSummaryStrategy_trace (doc : node) :
  exists line t,
    trace (hubSummaryStrategy doc) = Query hubSummarySelector :: Log line :: t
    /\ line = "Found " +++ JS.showNat (List.length (select doc hubSummarySelector))
              +++ " route-hub-summary elements"
    /\ quiet t.
Proof.
  unfold hubSummaryStrategy. rewrite !trace_bind.
  eexists _, _. split; [reflexivity|]. split; [reflexivity|].
  apply forEach_quiet. intros. apply pushDestinationOf_quiet.
Qed.

Lemma accordionStrategy_value (doc : node) (ds : list destination) :
  value (accordionStrategy doc ds)
  = match ds with
    | [] => destinationsOf (select doc accordionSelector)
    | _ :: _ => ds
    end.
Proof.
  unfold accordionStrategy. destruct ds as [|d ds]; cbn [List.length Nat.eqb].
  - rewrite !value_bind. apply (forEach_pushDestinationOf _ []).
  - reflexivity.
Qed.

Lemma accordionStrategy_trace (doc : node) (ds : list destination) :
  match ds with
  | [] => exists t, trace (accordionStrategy doc ds)
                    = Log tryingAccordions :: Query accordionSelector :: t
                    /\ quiet t
  | _ :: _ => trace (accordionStrategy doc ds) = []
  end.
Proof.
  unfold accordionStrategy. destruct ds as [|d ds]; cbn [List.length Nat.eqb].
  - rewrite !trace_bind. eexists. split; [reflexivity|].
    apply forEach_quiet. intros. apply pushDestinationOf_quiet.
  - reflexivity.
Qed.

Lemma panelStrategy_value_nonempty (doc : node) (d : destination) (ds : list destination) :
  value (panelStrategy doc (d :: ds)) = d :: ds.
Proof. reflexivity. Qed.

Lemma panelStrategy_trace (doc : node) (ds : list destination) :
  match ds with
  | [] => exists t, trace (panelStrategy doc ds)
                    = Log tryingPanels :: Query panelSelector :: t
                    /\ quiet t
  | _ :: _ => trace (panelStrategy doc ds) = []
  end.
Proof.
  unfold panelStrategy. destruct ds as [|d ds]; cbn [List.length Nat.eqb].
  - rewrite !trace_bind. eexists. split; [reflexivity|].
    apply forEach_quiet. intros. apply pushPanelDestinations_quiet.
  - reflexivity.
Qed.

(** The run of [extractDestinations], stage by stage. *)
Lemma extractDestinations_value (doc : node) (activeTab : string) :
  value (extractDestinations doc activeTab)
  = value (panelStrategy doc (value (accordionStrategy doc (value (hubSummaryStrategy doc))))).
Proof. reflexivity. Qed.

Lemma extractDestinations_trace (doc : node) (activeTab : string) :
  let dA := value (hubSummaryStrategy doc) in
  let dB := value (accordionStrategy doc dA) in
  exists line,
    trace (extractDestinations doc activeTab)
    = Log ("Extracting destinations from " +++ activeTab +++ " tab...")
      :: trace (hubSummaryStrategy doc)
      ++ trace (accordionStrategy doc dA)
      ++ trace (panelStrategy doc dB)
      ++ [Log line]
    /\ line = "Extracted " +++ JS.showNat (List.length (value (panelStrategy doc dB)))
              +++ " destinations:".
Proof.
  intros dA dB. unfold extractDestinations. rewrite !trace_bind.
  eexists. split; reflexivity.
Qed.

(** Distributes [queries] and [logged] over the events of a trace. *)
Ltac split_trace :=
  repeat first [ rewrite queries_app | rewrite logged_app
               | progress cbn [queries logged app] ].

(** The queries and the announcing lines of a run, by what strategies A and
    B yield. *)
Lemma extractDestinations_marks (doc : node) (activeTab : string) :
  let dA := value (hubSummaryStrategy doc) in
  let dB := value (accordionStrategy doc []) in
  let run := extractDestinations doc activeTab in
  queries (trace run)
  = hubSummarySelector
    :: match dA with
       | [] => accordionSelector :: match dB with [] => [panelSelector] | _ :: _ => [] end
       | _ :: _ => []
       end
  /\ (In tryingAccordions (logged (trace run)) <-> dA = [])
  /\ (In tryingPanels (logged (trace run)) <-> dA = [] /\ dB = []).
Proof.
  intros dA dB run.
  destruct (extractDestinations_trace doc activeTab) as (line2 & Ht & El2).
  destruct (hubSummaryStrategy_trace doc) as (line1 & tA & HtA & El1 & QA).
  fold run in Ht. cbn zeta in Ht. fold dA in Ht. rewrite HtA in Ht.
  assert (HB := accordionStrategy_trace doc dA).
  assert (HC := panelStrategy_trace doc (value (accordionStrategy doc dA))).
  destruct (quiet_not_trying _ QA) as [NA1 NA2]. destruct QA as [QA _].
  assert (N1 : forall l, In l [tryingAccordions; tryingPanels] ->
                         l <> "Extracting destinations from " +++ activeTab +++ " tab..."
                         /\ l <> line1 /\ l <> line2).
  { intros l [<- | [<- | []]]; subst line1 line2; repeat split; discriminate. }
  destruct (N1 tryingAccordions (or_introl eq_refl)) as (a1 & a2 & a3).
  destruct (N1 tryingPanels (or_intror (or_introl eq_refl))) as (p1 & p2 & p3).
  destruct dA as [|d ds] eqn:EA.
  - destruct HB as (tB & HtB & QB). rewrite HtB in Ht.
    destruct (quiet_not_trying _ QB) as [NB1 NB2]. destruct QB as [QB _].
    fold dB in HC, Ht.
    destruct dB as [|d' ds'] eqn:EB.
    + destruct HC as (tC & HtC & QC). rewrite HtC in Ht.
      destruct (quiet_not_trying _ QC) as [NC1 NC2]. destruct QC as [QC _].
      rewrite Ht. split_trace. rewrite QA, QB, QC. cbn [app].
      split; [reflexivity|]. split; split; auto.
      * intros _. right. right. apply in_or_app. right. now left.
      * intros _. right. right. apply in_or_app. right. right.
        apply in_or_app. right. now left.
    + rewrite HC in Ht. rewrite Ht. split_trace. rewrite QA, QB. cbn [app].
      split; [reflexivity|]. split; split; auto.
      * intros _. right. right. apply in_or_app. right. now left.
      * intros [H | [H | H]]; try congruence.
        apply in_app_or in H. destruct H as [H | [H | H]]; try contradiction.
        -- discriminate H.
        -- apply in_app_or in H. destruct H as [H | [H | []]]; [contradiction | congruence].
      * intros [_ H]. discriminate H.
  - rewrite HB in Ht. rewrite accordionStrategy_value in HC, Ht.
    rewrite HC in Ht. rewrite Ht. split_trace. rewrite QA. cbn [app].
    split; [reflexivity|]. split; split.
    + intros [H | [H | H]]; try congruence.
      apply in_app_or in H. destruct H as [H | [H | []]]; [contradiction | congruence].
    + discriminate.
    + intros [H | [H | H]]; try congruence.
      apply in_app_or in H. destruct H as [H | [H | []]]; [contradiction | congruence].
    + intros [H _]. discriminate H.
Qed.

(** C6. When strategy A (the hub summaries) yields a destination, its
    destinations are the result and neither strategy B (the accordions) nor
    strategy C (the panels) is invoked: neither queries the page nor
    announces itself on the console.  Strategy B is invoked only when A
    yields nothing, and strategy C only when A and B both yield nothing;
    in those cases they are invoked. *)
Theorem destination_strategy_fallback (doc : node) (activeTab : string) :
  let dA := value (hubSummaryStrategy doc) in
  let dB := value (accordionStrategy doc []) in
  let run := extractDestinations doc activeTab in
  let invokedB := In accordionSelector (queries (trace run))
                  \/ In tryingAccordions (logged (trace run)) in
  let invokedC := In panelSelector (queries (trace run))
                  \/ In tryingPanels (logged (trace run)) in
  (dA <> [] -> value run = dA /\ ~ invokedB /\ ~ invokedC)
  /\ (invokedB -> dA = [])
  /\ (invokedC -> dA = [] /\ dB = [])
  /\ (dA = [] ->
      In accordionSelector (queries (trace run)) /\ In tryingAccordions (logged (trace run)))
  /\ (dA = [] -> dB = [] ->
      In panelSelector (queries (trace run)) /\ In tryingPanels (logged (trace run))).
Proof.
  intros dA dB run invokedB invokedC.
  destruct (extractDestinations_marks doc activeTab) as (Hq & HlB & HlC).
  fold dA in Hq, HlB, HlC. fold dB in Hq, HlC. fold run in Hq, HlB, HlC.
  assert (Hv : value run = value (panelStrategy doc (value (accordionStrategy doc dA))))
    by reflexivity.
  assert (HB : invokedB -> dA = []).
  { intros [H | H]; [|now apply HlB].
    rewrite Hq in H. destruct dA; [reflexivity|].
    destruct H as [H | []]. discriminate H. }
  assert (HC : invokedC -> dA = [] /\ dB = []).
  { intros [H | H]; [|now apply HlC].
    rewrite Hq in H. destruct dA; [|destruct H as [H | []]; discriminate H].
    destruct dB; [now split|].
    destruct H as [H | [H | []]]; discriminate H. }
  split; [|split; [exact HB | split; [exact HC | split]]].
  - intros Hne. split; [|split].
    + rewrite Hv, accordionStrategy_value.
      destruct dA as [|d ds]; [now contradiction Hne | reflexivity].
    + intros H. now apply Hne, HB.
    + intros H. now apply Hne, HC.
  - intros E. split; [|now apply HlB].
    rewrite Hq, E. right. now left.
  - intros EA EB. split; [|now apply HlC].
    rewrite Hq, EA, EB. right. right. now left.
Qed.

(** On [egmurPage] strategy A yields five destinations; on [panelPage] A and
    B yield nothing and C is invoked. *)
Lemma destination_strategy_fallback_witness :
  value (extractDestinations Pages.egmurPage "SHORTEST")
  = value (hubSummaryStrategy Pages.egmurPage)
  /\ ~ In accordionSelector (queries (trace (extractDestinations Pages.egmurPage "SHORTEST")))
  /\ In panelSelector (queries (trace (extractDestinations Pages.panelPage "SHORTEST"))).
Proof.
  destruct (destination_strategy_fallback Pages.egmurPage "SHORTEST") as (HA & _).
  destruct (destination_strategy_fallback Pages.panelPage "SHORTEST")
    as (_ & _ & _ & _ & HC).
  assert (N : value (hubSummaryStrategy Pages.egmurPage) <> []).
  { vm_compute. discriminate. }
  destruct (HA N) as (Hv & HnB & _).
  split; [exact Hv|]. split.
  - intros H. apply HnB. now left.
  - apply HC; vm_compute; reflexivity.
Defined.

(** *** Deduplication in the scan of a container *)


Lemma recorded_In (hub : string) (l : list destination) :
  recorded hub l = true <-> In hub (map name l).
Proof.
  unfold recorded. rewrite existsb_exists, in_map_iff.
  split; intros (d & H1 & H2).
  - exists d. apply String.eqb_eq in H2. now split.
  - exists d. split; [exact H2 | now apply String.eqb_eq].
Qed.















End Destinations.

(* ------------------------------------------------------------------------- *)
(** ** Name Locator and Formatter *)
(* ------------------------------------------------------------------------- *)

Section Formatter.

Import Scraper Spec.

Lemma plausibleName_truthy (text : string) :
  plausibleName text = true -> JS.truthyString text = true.
Proof.
  unfold plausibleName. intros H.
  destruct (JS.truthyString text); [reflexivity | discriminate H].
Qed.

Lemma firstPlausible_truthy (elements : list located) (text : string) :
  firstPlausible elements = Some text -> JS.truthyString text = true.
Proof.
  induction elements as [|element rest IH]; cbn [firstPlausible]; [discriminate|].
  destruct (plausibleName (JS.trim (textContent (self element)))) eqn:E; [|exact IH].
  intros H. inversion H; subst. exact (plausibleName_truthy _ E).
Qed.

Lemma firstSystemH6_truthy (allH6 : list located) (text : string) :
  firstSystemH6 allH6 = Some text -> JS.truthyString text = true.
Proof.
  induction allH6 as [|h6 rest IH]; cbn [firstSystemH6]; [discriminate|].
  destruct (plausibleName (JS.trim (textContent (self h6)))) eqn:E; cbn [andb];
    [|exact IH].
  destruct (notInterfaceText (JS.trim (textContent (self h6)))); [|exact IH].
  intros H. inversion H; subst. exact (plausibleName_truthy _ E).
Qed.

Lemma tryHeaderSelectors_value (doc : node) (selectors : list selector) (text : string) :
  value (tryHeaderSelectors doc selectors) = Some text -> JS.truthyString text = true.
Proof.
  induction selectors as [|selector rest IH]; cbn [tryHeaderSelectors]; [discriminate|].
  rewrite value_bind. unfold querySelectorAll at 1. cbn [value fst].
  destruct (firstPlausible (select doc selector)) as [t|] eqn:E; [|exact IH].
  intros H. inversion H; subst. exact (firstPlausible_truthy _ _ E).
Qed.

(** Without a result, strategy 1 has queried every selector and written
    nothing. *)
Lemma tryHeaderSelectors_none (doc : node) (selectors : list selector) :
  value (tryHeaderSelectors doc selectors) = None ->
  trace (tryHeaderSelectors doc selectors) = map Query selectors.
Proof.
  induction selectors as [|selector rest IH]; cbn [tryHeaderSelectors map]; [reflexivity|].
  rewrite value_bind, trace_bind. unfold querySelectorAll. cbn [value trace fst snd app].
  destruct (firstPlausible (select doc selector)) as [t|] eqn:E; [discriminate|].
  intros H. now rewrite (IH H).
Qed.

(** A name that is returned is not empty. *)
Lemma extractSystemName_truthy (doc : node) (sysName : string) :
  value (extractSystemName doc) = Some sysName -> JS.truthyString sysName = true.
Proof.
  unfold extractSystemName. rewrite !value_bind.
  destruct (value (tryHeaderSelectors doc headerSelectors)) as [t|] eqn:E.
  - intros H. inversion H; subst. exact (tryHeaderSelectors_value _ _ _ E).
  - rewrite value_bind. unfold querySelectorAll. cbn [value fst].
    destruct (firstSystemH6 (select doc h6Selector)) as [t|] eqn:E6; [|discriminate].
    intros H. inversion H; subst. exact (firstSystemH6_truthy _ _ E6).
Qed.

(** The trace of a Name Locator that finds nothing. *)
Lemma extractSystemName_none (doc : node) :
  JS.truthy (value (extractSystemName doc)) = false ->
  value (extractSystemName doc) = None
  /\ trace (extractSystemName doc)
     = Log "Extracting system name..."
       :: map Query headerSelectors
       ++ [Query h6Selector; Log "Could not find system name"].
Proof.
  intros H.
  assert (N : value (extractSystemName doc) = None).
  { destruct (value (extractSystemName doc)) as [n|] eqn:E; [|reflexivity].
    cbn in H. rewrite (extractSystemName_truthy _ _ E) in H. discriminate H. }
  split; [exact N|]. clear H. revert N.
  unfold extractSystemName. rewrite !value_bind, !trace_bind.
  destruct (value (tryHeaderSelectors doc headerSelectors)) as [t|] eqn:E; [discriminate|].
  rewrite (tryHeaderSelectors_none _ _ E).
  rewrite value_bind, trace_bind. unfold querySelectorAll. cbn [value trace fst snd].
  destruct (firstSystemH6 (select doc h6Selector)) as [t|]; [discriminate|].
  intros _. reflexivity.
Qed.

(** A connection class that is returned is not empty. *)
Lemma connectionType_truthy (doc : node) (systemName tag : string) :
  connectionType (value (extractSecurityAndConnection doc systemName)) = Some tag ->
  JS.truthyString tag = true.
Proof.
  rewrite extractSecurityAndConnection_value, finish_connectionType.
  apply (proj2 (extractSecurityAndConnection_ok doc systemName)).
Qed.

Lemma append_assoc (a b c : string) : (a +++ b) +++ c = a +++ b +++ c.
Proof. induction a as [|x a IH]; cbn; [reflexivity | now rewrite IH]. Qed.

(** The two header expressions of lines 768-770 and 778-780 in terms of
    [headerSegments]. *)
Lemma header_with_comma (doc : node) (sysName : string) :
  let c := value (extractSecurityAndConnection doc sysName) in
  (if JS.truthy (connectionType c)
   then sysName +++ ", " +++ securityRating c +++ ", "
        +++ match connectionType c with Some t => t | None => "" end +++ ","
   else sysName +++ ", " +++ securityRating c +++ ",")
  = headerSegments sysName c +++ ",".
Proof.
  intros c. unfold headerSegments.
  destruct (connectionType c) as [tag|] eqn:E.
  - cbn [JS.truthy]. rewrite (connectionType_truthy _ _ _ E).
    now rewrite !append_assoc.
  - cbn [JS.truthy]. now rewrite !append_assoc.
Qed.

Lemma header_without_comma (doc : node) (sysName : string) :
  let c := value (extractSecurityAndConnection doc sysName) in
  (if JS.truthy (connectionType c)
   then sysName +++ ", " +++ securityRating c +++ ", "
        +++ match connectionType c with Some t => t | None => "" end
   else sysName +++ ", " +++ securityRating c)
  = headerSegments sysName c.
Proof.
  intros c. unfold headerSegments.
  destruct (connectionType c) as [tag|] eqn:E; [|reflexivity].
  cbn [JS.truthy]. now rewrite (connectionType_truthy _ _ _ E).
Qed.

(** The object returned by [getSystemData], case by case. *)
Lemma getSystemData_value (doc : node) :
  value (getSystemData doc)
  = match value (extractSystemName doc) with
    | Some sysName =>
        let c := value (extractSecurityAndConnection doc sysName) in
        let dests := value (extractDestinations doc (value (detectActiveTab doc))) in
        match dests with
        | [] => Extraction false (Some noDestinationData) (headerSegments sysName c) ""
        | _ :: _ =>
            Extraction true None (headerSegments sysName c +++ ",")
                       (JS.join ", " (map pairText dests))
        end
    | None => noSelection
    end.
Proof.
  unfold getSystemData. rewrite !value_bind.
  destruct (value (extractSystemName doc)) as [sysName|] eqn:E; [|reflexivity].
  rewrite (extractSystemName_truthy _ _ E).
  rewrite !value_bind. cbn zeta.
  rewrite <- header_with_comma, <- header_without_comma.
  destruct (value (extractDestinations doc (value (detectActiveTab doc)))); reflexivity.
Qed.

Lemma getSystemData_trace_none (doc : node) :
  value (extractSystemName doc) = None ->
  trace (getSystemData doc)
  = Log "=== Starting System Data Extraction ==="
    :: trace (extractSystemName doc)
    ++ [Log "No system name found - no system selected"].
Proof.
  intros N. unfold getSystemData. rewrite !trace_bind, N. reflexivity.
Qed.

(** The three later helpers write their first line, and make their first
    query, whenever they are called. *)
Lemma helpers_leave_marks (doc : node) (systemName activeTab : string) :
  (In classifierEntry (trace (extractSecurityAndConnection doc systemName))
   /\ In mapNodeSelector (queries (trace (extractSecurityAndConnection doc systemName))))
  /\ (In modeDetectorEntry (trace (detectActiveTab doc))
      /\ In tabButtonSelector (queries (trace (detectActiveTab doc))))
  /\ (In (destinationEntry activeTab) (trace (extractDestinations doc activeTab))
      /\ In hubSummarySelector (queries (trace (extractDestinations doc activeTab)))).
Proof.
  split; [|split]; split.
  - now left.
  - rewrite extractSecurityAndConnection_queries. now left.
  - now left.
  - unfold detectActiveTab. rewrite !queries_bind.
    apply in_or_app. right. apply in_or_app. left. now left.
  - now left.
  - rewrite (proj1 (extractDestinations_marks doc activeTab)). now left.
Qed.

(** C3, as the code has it. When the Name Locator finds no name,
    [getSystemData] returns success=false, error "No system selected.", the
    header "No system selected" (the placeholder has no full stop, it is
    not a copy of the error text) and an empty body; the run consists of
    the queries of the Name Locator and three console lines, so the
    Classifier Extractor, the Mode Detector and the Destination Extractor
    are not invoked. *)
Theorem no_name_short_circuit (doc : node) :
  JS.truthy (value (extractSystemName doc)) = false ->
  value (getSystemData doc)
  = Extraction false (Some "No system selected.") "No system selected" ""
  /\ trace (getSystemData doc)
     = [Log "=== Starting System Data Extraction ==="; Log "Extracting system name..."]
       ++ map Query headerSelectors
       ++ [Query h6Selector; Log "Could not find system name";
           Log "No system name found - no system selected"]
  /\ ~ In classifierEntry (trace (getSystemData doc))
  /\ ~ In modeDetectorEntry (trace (getSystemData doc))
  /\ (forall activeTab, ~ In (destinationEntry activeTab) (trace (getSystemData doc)))
  /\ ~ In mapNodeSelector (queries (trace (getSystemData doc)))
  /\ ~ In tabButtonSelector (queries (trace (getSystemData doc)))
  /\ ~ In hubSummarySelector (queries (trace (getSystemData doc))).
Proof.
  intros H. destruct (extractSystemName_none doc H) as [N T].
  assert (Tr : trace (getSystemData doc)
               = [Log "=== Starting System Data Extraction ==="; Log "Extracting system name..."]
                 ++ map Query headerSelectors
                 ++ [Query h6Selector; Log "Could not find system name";
                     Log "No system name found - no system selected"]).
  { rewrite (getSystemData_trace_none doc N), T. reflexivity. }
  split; [rewrite getSystemData_value, N; reflexivity|].
  split; [exact Tr|].
  rewrite Tr.
  split; [|split; [|split; [intros activeTab|split; [|split]]]]; intros C;
    cbn in C;
    repeat (destruct C as [C | C]; [discriminate C|]); exact C.
Qed.

(** [blankPage] has no heading. *)
Lemma no_name_short_circuit_witness :
  value (getSystemData Pages.blankPage)
  = Extraction false (Some "No system selected.") "No system selected" ""
  /\ ~ In classifierEntry (trace (getSystemData Pages.blankPage)).
Proof.
  assert (H : JS.truthy (value (extractSystemName Pages.blankPage)) = false)
    by (vm_compute; reflexivity).
  destruct (no_name_short_circuit Pages.blankPage H) as (V & _ & C & _).
  split; [exact V | exact C].
Defined.

(** C3 fails as stated: on [blankPage] the header is not a copy of the
    error text. *)
Lemma no_name_header_is_not_the_error :
  JS.truthy (value (extractSystemName Pages.blankPage)) = false
  /\ error (value (getSystemData Pages.blankPage)) = Some "No system selected."
  /\ header (value (getSystemData Pages.blankPage)) = "No system selected"
  /\ Some (header (value (getSystemData Pages.blankPage)))
     <> error (value (getSystemData Pages.blankPage)).
Proof.
  repeat split; try (vm_compute; reflexivity).
  vm_compute. discriminate.
Qed.

(** C1, as the code has it. When a name is found and no destination is,
    [getSystemData] returns success=false, the error text of line 767, an
    empty body, and the header "<name>, <securityRating>, <connectionTag>"
    when a connection class was detected, else "<name>, <securityRating>":
    the segments of the success header without its trailing comma. *)
Theorem no_destinations_result (doc : node) (sysName : string) :
  value (extractSystemName doc) = Some sysName ->
  value (extractDestinations doc (value (detectActiveTab doc))) = [] ->
  let c := value (extractSecurityAndConnection doc sysName) in
  value (getSystemData doc)
  = Extraction false
      (Some "Could not extract destination data. Please ensure the tab is expanded.")
      (match connectionType c with
       | Some tag => sysName +++ ", " +++ securityRating c +++ ", " +++ tag
       | None => sysName +++ ", " +++ securityRating c
       end)
      "".
Proof.
  intros N D c. rewrite getSystemData_value, N. cbn zeta. rewrite D. reflexivity.
Qed.

(** [collapsedPage] has a connection class and [collapsedPlainPage] has
    none. *)
Lemma no_destinations_result_witness :
  value (getSystemData Pages.collapsedPage)
  = Extraction false
      (Some "Could not extract destination data. Please ensure the tab is expanded.")
      "Egmur, 0.7, C4" ""
  /\ value (getSystemData Pages.collapsedPlainPage)
     = Extraction false
         (Some "Could not extract destination data. Please ensure the tab is expanded.")
         "Egmur, 0.7" "".
Proof.
  split.
  - rewrite (no_destinations_result Pages.collapsedPage "Egmur");
      vm_compute; reflexivity.
  - rewrite (no_destinations_result Pages.collapsedPlainPage "Egmur");
      vm_compute; reflexivity.
Defined.

(** C1 fails as stated: on [collapsedPage] a name is found, no destination
    is, and the header is "Egmur, 0.7, C4", not the success header
    "Egmur, 0.7, C4,"; on [collapsedPlainPage] it is "Egmur, 0.7". *)
Lemma no_destinations_header_without_comma :
  value (extractSystemName Pages.collapsedPage) = Some "Egmur"
  /\ value (extractDestinations Pages.collapsedPage
              (value (detectActiveTab Pages.collapsedPage))) = []
  /\ header (value (getSystemData Pages.collapsedPage)) = "Egmur, 0.7, C4"
  /\ header (value (getSystemData Pages.collapsedPage))
     <> headerSegments "Egmur"
          (value (extractSecurityAndConnection Pages.collapsedPage "Egmur")) +++ ","
  /\ header (value (getSystemData Pages.collapsedPlainPage)) = "Egmur, 0.7"
  /\ header (value (getSystemData Pages.collapsedPlainPage))
     <> headerSegments "Egmur"
          (value (extractSecurityAndConnection Pages.collapsedPlainPage "Egmur")) +++ ",".
Proof.
  repeat split; try (vm_compute; reflexivity); vm_compute; discriminate.
Qed.


(** *** The body of a successful result is not blank *)

Lemma trimStart_startsVisible (s : string) :
  JS.truthyString (JS.trimStart s) = true -> startsVisible (JS.trimStart s) = true.
Proof.
  induction s as [|c rest IH]; cbn [JS.trimStart]; [discriminate|].
  destruct (JS.isWhiteSpace c) eqn:W; [exact IH|].
  intros _. cbn [startsVisible]. now rewrite W.
Qed.

Lemma trimEnd_head (s : string) (c : ascii) (r : string) :
  JS.trimEnd s = String c r -> exists r', s = String c r'.
Proof.
  destruct s as [|c0 rest]; cbn [JS.trimEnd]; [discriminate|].
  destruct (JS.trimEnd rest);
    [destruct (JS.isWhiteSpace c0); [discriminate|]|];
    intros H; inversion H; subst; now exists rest.
Qed.

Lemma trimEnd_startsVisible (s : string) :
  startsVisible s = true -> JS.trimEnd s = EmptyString -> False.
Proof.
  destruct s as [|c rest]; cbn [startsVisible JS.trimEnd]; [discriminate|].
  intros V. destruct (JS.trimEnd rest); [|discriminate].
  destruct (JS.isWhiteSpace c); discriminate.
Qed.

Lemma trim_startsVisible (s : string) :
  JS.truthyString (JS.trim s) = true -> startsVisible (JS.trim s) = true.
Proof.
  unfold JS.trim. destruct (JS.trimEnd (JS.trimStart s)) as [|c r] eqn:E; [discriminate|].
  intros _. destruct (trimEnd_head _ _ _ E) as [r' E'].
  assert (V : startsVisible (JS.trimStart s) = true)
    by (apply trimStart_startsVisible; now rewrite E').
  rewrite E' in V. exact V.
Qed.

(** A text that begins with a visible code unit is neither empty nor
    blank. *)
Lemma startsVisible_not_blank (s : string) :
  startsVisible s = true ->
  JS.truthyString s = true /\ String.eqb (JS.trim s) "" = false.
Proof.
  intros V. split.
  - destruct s; [discriminate V | reflexivity].
  - assert (T : JS.trimStart s = s).
    { destruct s as [|c rest]; [reflexivity|]. cbn in V |- *.
      destruct (JS.isWhiteSpace c); [discriminate V | reflexivity]. }
    unfold JS.trim. rewrite T.
    destruct (JS.trimEnd s) eqn:E; [|reflexivity].
    now destruct (trimEnd_startsVisible s V E).
Qed.

Lemma startsVisible_append (s t : string) :
  startsVisible s = true -> startsVisible (s +++ t) = true.
Proof. destruct s; [discriminate | intros V; exact V]. Qed.

Lemma readText_visible (text : string) (r : reading) :
  startsVisible text = true \/ JS.truthyString text = false ->
  (forall h, hubName r = Some h -> startsVisible h = true) ->
  forall h, hubName (readText text r) = Some h -> startsVisible h = true.
Proof.
  intros T Hr h. unfold readText.
  destruct (negb (JS.isNaN (JS.parseInt text)) && (String.length text <=? 3));
    [apply Hr|].
  destruct (JS.truthyString text) eqn:E; cbn [andb]; [|apply Hr].
  destruct ((0 <? String.length text) && (String.length text <? 30)
            && JS.isNaNString text); [|apply Hr].
  destruct (negb (JS.includes text "from") && negb (JS.includes text "jumps")
            && negb (JS.includes (JS.toLowerCase text) "route")); [|apply Hr].
  cbn [hubName]. intros H. inversion H; subst.
  destruct T as [T | T]; [exact T | discriminate T].
Qed.

(** The value of [extractDestinationFromElement], without its console
    line. *)
Lemma extractDestinationFromElement_value (element : located) :
  value (extractDestinationFromElement element)
  = let r := fold_left (fun r textEl => readText (JS.trim (textContent (self textEl))) r)
                       (querySelectorAllIn element textElementSelector)
                       (Reading None None) in
    match hubName r, jumpCount r with
    | Some h, Some j =>
        if JS.truthyString h && JS.truthyString j then Some (Destination h j) else None
    | _, _ => None
    end.
Proof.
  unfold extractDestinationFromElement. cbn zeta.
  destruct (hubName _) as [h|]; [|reflexivity].
  destruct (jumpCount _) as [j|]; [|reflexivity].
  destruct (JS.truthyString h && JS.truthyString j); reflexivity.
Qed.

Lemma readTexts_visible (l : list located) (r : reading) :
  (forall h, hubName r = Some h -> startsVisible h = true) ->
  forall h,
    hubName (fold_left (fun r textEl => readText (JS.trim (textContent (self textEl))) r)
                       l r) = Some h ->
    startsVisible h = true.
Proof.
  revert r. induction l as [|x rest IH]; intros r Hr; cbn [fold_left]; [exact Hr|].
  apply IH. apply readText_visible; [|exact Hr].
  destruct (JS.truthyString (JS.trim (textContent (self x)))) eqn:E.
  - left. now apply trim_startsVisible.
  - now right.
Qed.

Lemma extractDestinationFromElement_visible (element : located) (d : destination) :
  value (extractDestinationFromElement element) = Some d -> startsVisible (name d) = true.
Proof.
  rewrite extractDestinationFromElement_value. cbn zeta.
  assert (Inv := readTexts_visible (querySelectorAllIn element textElementSelector)
                   (Reading None None)).
  set (r := fold_left _ _ _) in *.
  destruct (hubName r) as [h|] eqn:Eh; [|intros H; discriminate H].
  destruct (jumpCount r) as [j|]; [|intros H; discriminate H].
  destruct (JS.truthyString h && JS.truthyString j); [|intros H; discriminate H].
  intros H. inversion H; subst. cbn [name].
  apply Inv; [intros h' H'; discriminate H' | reflexivity].
Qed.

Lemma visibleNames_app (l1 l2 : list destination) :
  visibleNames l1 -> visibleNames l2 -> visibleNames (l1 ++ l2).
Proof. intros H1 H2. apply Forall_app. now split. Qed.

Lemma pushDestinationOf_visible (element : located) (ds : list destination) :
  visibleNames ds -> visibleNames (value (pushDestinationOf element ds)).
Proof.
  intros H. unfold pushDestinationOf. rewrite value_bind.
  destruct (value (extractDestinationFromElement element)) as [d|] eqn:E; [|exact H].
  apply visibleNames_app; [exact H|].
  constructor; [|constructor]. exact (extractDestinationFromElement_visible _ _ E).
Qed.

Lemma visitHub_visible (element : located) (text hub : string) (ds : list destination) :
  In hub commonHubs ->
  visibleNames ds -> visibleNames (value (visitHub element text hub ds)).
Proof.
  intros Hh H. unfold visitHub.
  destruct (String.eqb text hub); [|exact H].
  destruct (findJumps element) as [j|]; [|exact H].
  destruct (JS.truthyString j && negb (recorded hub ds)); [|exact H].
  apply visibleNames_app; [exact H|].
  constructor; [|constructor]. cbn [name].
  cbn in Hh. repeat (destruct Hh as [<- | Hh]; [reflexivity|]). destruct Hh.
Qed.

Lemma forEach_visitHub_visible (element : located) (text : string)
    (hubs : list string) (ds : list destination) :
  (forall hub, In hub hubs -> In hub commonHubs) ->
  visibleNames ds -> visibleNames (value (forEach hubs (visitHub element text) ds)).
Proof.
  revert ds. induction hubs as [|hub rest IH]; intros ds Sub H; cbn [forEach].
  - exact H.
  - rewrite value_bind. apply IH.
    + intros h Hh. apply Sub. now right.
    + apply visitHub_visible; [apply Sub; now left | exact H].
Qed.

Lemma extractAllDestinationsFromContainer_visible (container : located) :
  visibleNames (value (extractAllDestinationsFromContainer container)).
Proof.
  unfold extractAllDestinationsFromContainer.
  apply (forEach_invariant visitElement visibleNames); [|constructor].
  intros element ds H. unfold visitElement.
  apply forEach_visitHub_visible; [tauto | exact H].
Qed.

Lemma extractDestinations_visible (doc : node) (activeTab : string) :
  visibleNames (value (extractDestinations doc activeTab)).
Proof.
  rewrite extractDestinations_value.
  assert (A : visibleNames (value (hubSummaryStrategy doc))).
  { unfold hubSummaryStrategy. rewrite !value_bind.
    apply (forEach_invariant pushDestinationOf visibleNames); [|constructor].
    intros. now apply pushDestinationOf_visible. }
  assert (B : visibleNames (value (accordionStrategy doc (value (hubSummaryStrategy doc))))).
  { unfold accordionStrategy.
    destruct (List.length (value (hubSummaryStrategy doc)) =? 0); [|exact A].
    rewrite !value_bind.
    apply (forEach_invariant pushDestinationOf visibleNames); [|exact A].
    intros. now apply pushDestinationOf_visible. }
  unfold panelStrategy.
  destruct (List.length (value (accordionStrategy doc (value (hubSummaryStrategy doc)))) =? 0);
    [|exact B].
  rewrite !value_bind.
  apply (forEach_invariant pushPanelDestinations visibleNames); [|exact B].
  intros panel ds H. unfold pushPanelDestinations.
  destruct (isVisible (self panel)); [|exact H].
  rewrite value_bind.
  apply visibleNames_app; [exact H | apply extractAllDestinationsFromContainer_visible].
Qed.

Lemma join_startsVisible (d : destination) (ds : list destination) :
  startsVisible (name d) = true ->
  startsVisible (JS.join ", " (map pairText (d :: ds))) = true.
Proof.
  intros V. cbn [map]. destruct ds as [|e es].
  - apply startsVisible_append, V.
  - change (JS.join ", " (pairText d :: map pairText (e :: es)))
      with (pairText d +++ ", " +++ JS.join ", " (map pairText (e :: es))).
    apply startsVisible_append. apply startsVisible_append, V.
Qed.



End Formatter.

(* ------------------------------------------------------------------------- *)
(** ** Delivery guard *)
(* ------------------------------------------------------------------------- *)

Section Delivery.

Import Popup.

Lemma initial_guarded (storedUrl header numbers : string) :
  guarded (initial storedUrl header numbers).
Proof. right. split; reflexivity. Qed.

Lemma click_guarded (now : Z) (s : popup) : guarded s -> guarded (click now s).
Proof.
  unfold click. intros [[G (call & P)] | [G P]]; rewrite G.
  - left. cbn. split; [reflexivity | now exists call].
  - destruct (blank (webhookUrl s)).
    + right. cbn. now split.
    + left. cbn. split; [reflexivity|]. rewrite P. now eexists.
Qed.

Lemma settle_guarded (o : fetchOutcome) (s : popup) : guarded s -> guarded (settle o s).
Proof.
  unfold settle. intros [[G (call & P)] | [G P]]; rewrite P.
  - destruct (sendToDiscordEnds o) as [fulfilled lines]. right. cbn. now split.
  - right. now split.
Qed.

Lemma step_guarded (s : popup) (i : input) : guarded s -> guarded (step s i).
Proof.
  destruct i as [now | o | v | header numbers]; cbn [step].
  - apply click_guarded.
  - apply settle_guarded.
  - intros H. exact H.
  - intros H. exact H.
Qed.

Lemma run_guarded (inputs : list input) (s : popup) : guarded s -> guarded (run s inputs).
Proof.
  revert s. induction inputs as [|i rest IH]; intros s G; cbn [run fold_left].
  - exact G.
  - apply IH, step_guarded, G.
Qed.

(** In every state of a popup the guard is held exactly while a call is
    pending, and at most one call is pending. *)
Lemma reachable_guarded (s : popup) : reachable s -> guarded s.
Proof.
  intros (storedUrl & header & numbers & inputs & ->).
  apply run_guarded, initial_guarded.
Qed.

(** C9. In a popup with a delivery call in flight, a click changes nothing
    but the console: no call is made, none is queued, the operator gets no
    alert.  When the call ends, with any outcome, the guard is free again
    and nothing is pending or newly sent; a click then, with an address in
    the field, makes a new call. *)
Theorem delivery_guard (s : popup) :
  reachable s -> inFlight s ->
  (forall now : Z,
     click now s
     = Popup_ (isSendingToDiscord s) (lastRequestId s) (webhookUrl s) (headerData s)
              (number s) (pending s) (sent s) (alerts s)
              (console s ++ ["Message is already being sent. Please wait."]))
  /\ (forall o : fetchOutcome,
        isSendingToDiscord (settle o s) = false
        /\ pending (settle o s) = []
        /\ sent (settle o s) = sent s
        /\ forall now : Z,
             blank (webhookUrl s) = false ->
             sent (click now (settle o s))
             = sent s ++ [Request (webhookUrl s) (fullText s) now]
             /\ pending (click now (settle o s))
                = [Request (webhookUrl s) (fullText s) now]).
Proof.
  intros R F.
  destruct (reachable_guarded s R) as [[G (call & P)] | [G P]];
    [|now contradiction F].
  split.
  - intros now. unfold click. now rewrite G.
  - intros o.
    assert (E : exists al co,
               settle o s
               = Popup_ false (lastRequestId s) (webhookUrl s) (headerData s) (number s)
                        [] (sent s) al co).
    { unfold settle. rewrite P.
      destruct (sendToDiscordEnds o) as [fulfilled lines]. now eexists _, _. }
    destruct E as (al & co & E). rewrite E. cbn.
    split; [reflexivity | split; [reflexivity | split; [reflexivity|]]].
    intros now B. unfold click. cbn. rewrite B. split; reflexivity.
Qed.

(** [busyPopup] has a call in flight: a second click sends nothing, and
    after the call has failed with status 500 a third click sends again. *)
Lemma delivery_guard_witness :
  sent (click 2000 Pages.busyPopup) = sent Pages.busyPopup
  /\ List.length (sent Pages.busyPopup) = 1
  /\ isSendingToDiscord (settle (Response 500 None false) Pages.busyPopup) = false
  /\ List.length (sent (click 3000 (settle (Response 500 None false) Pages.busyPopup))) = 2.
Proof.
  assert (R : reachable Pages.busyPopup).
  { exists "https://discord.com/api/webhooks/1/token", "", "".
    exists [showResult (value (Scraper.getSystemData Pages.egmurPage)); Click 1000].
    reflexivity. }
  assert (F : inFlight Pages.busyPopup).
  { unfold inFlight. vm_compute. discriminate. }
  destruct (delivery_guard Pages.busyPopup R F) as [Hc Hs].
  destruct (Hs (Response 500 None false)) as (G & _ & _ & Again).
  split; [now rewrite Hc|].
  split; [vm_compute; reflexivity|].
  split; [exact G|].
  destruct (Again 3000%Z) as [S _]; [vm_compute; reflexivity|].
  rewrite S, length_app. vm_compute. reflexivity.
Defined.

(** C10, as the code has it. A click with an empty or blank address field
    makes no call and leaves the two display elements as they are.  When
    the guard is free, the handler alerts the operator and leaves the guard
    free; when a delivery is in flight, the guard stops the handler before
    it reads the address: no alert, and the guard stays held. *)
Theorem blank_url_click (s : popup) (now : Z) :
  blank (webhookUrl s) = true ->
  (sent (click now s) = sent s
   /\ pending (click now s) = pending s
   /\ headerData (click now s) = headerData s
   /\ number (click now s) = number s)
  /\ (isSendingToDiscord s = false ->
      alerts (click now s) = alerts s ++ ["Please enter a Discord Webhook URL first!"]
      /\ isSendingToDiscord (click now s) = false)
  /\ (isSendingToDiscord s = true ->
      alerts (click now s) = alerts s
      /\ isSendingToDiscord (click now s) = true).
Proof.
  intros B. unfold click. rewrite B.
  destruct (isSendingToDiscord s); cbn.
  - split; [repeat split; reflexivity|].
    split; [intros H; discriminate H | intros _; split; reflexivity].
  - split; [repeat split; reflexivity|].
    split; [intros _; split; reflexivity | intros H; discriminate H].
Qed.

(** [unconfiguredPopup] has no address and no delivery in flight. *)
Lemma blank_url_click_witness :
  sent (click 1000 Pages.unconfiguredPopup) = []
  /\ alerts (click 1000 Pages.unconfiguredPopup)
     = ["Please enter a Discord Webhook URL first!"]
  /\ isSendingToDiscord (click 1000 Pages.unconfiguredPopup) = false
  /\ headerData (click 1000 Pages.unconfiguredPopup) = "Egmur, 0.7, C4,".
Proof.
  assert (B : blank (webhookUrl Pages.unconfiguredPopup) = true)
    by (vm_compute; reflexivity).
  destruct (blank_url_click Pages.unconfiguredPopup 1000 B) as ((S & _ & H & _) & Free & _).
  destruct Free as [A G]; [vm_compute; reflexivity|].
  split; [rewrite S; vm_compute; reflexivity|].
  split; [rewrite A; vm_compute; reflexivity|].
  split; [exact G|].
  rewrite H. vm_compute. reflexivity.
Defined.

(** C10 fails as stated: in [busyBlankPopup] the address field is blank, and
    a click neither alerts the operator nor frees the guard, because a
    delivery is in flight. *)
Lemma blank_url_click_in_flight :
  blank (webhookUrl Pages.busyBlankPopup) = true
  /\ alerts (click 2000 Pages.busyBlankPopup) = []
  /\ isSendingToDiscord (click 2000 Pages.busyBlankPopup) = true
  /\ reachable Pages.busyBlankPopup.
Proof.
  repeat split; try (vm_compute; reflexivity).
  exists "https://discord.com/api/webhooks/1/token", "", "".
  exists [showResult (value (Scraper.getSystemData Pages.egmurPage));
          Click 1000; EditUrl "   "].
  reflexivity.
Qed.

End Delivery.

(* ------------------------------------------------------------------------- *)
(** ** More on the Name Locator *)
(* ------------------------------------------------------------------------- *)

Section NameLocator.

Import Scraper Spec More.







Lemma firstSystemH6_origin (allH6 : list located) (text : string) :
  firstSystemH6 allH6 = Some text ->
  plausibleName text = true /\ notInterfaceText text = true
  /\ exists h6, In h6 allH6 /\ text = JS.trim (textContent (self h6)).
Proof.
  induction allH6 as [|h6 rest IH]; cbn [firstSystemH6]; [discriminate|].
  destruct (plausibleName (JS.trim (textContent (self h6)))) eqn:E; cbn [andb].
  - destruct (notInterfaceText (JS.trim (textContent (self h6)))) eqn:N.
    + intros H. inversion H; subst. split; [exact E|]. split; [exact N|].
      exists h6. split; [now left | reflexivity].
    + intros H. destruct (IH H) as (P & N' & e & I & T).
      split; [exact P|]. split; [exact N'|]. exists e. split; [now right | exact T].
  - intros H. destruct (IH H) as (P & N' & e & I & T).
    split; [exact P|]. split; [exact N'|]. exists e. split; [now right | exact T].
Qed.


(** The outer loop of strategy 1 on a list of selectors of which the first
    to give a text is [sel]. *)
Lemma tryHeaderSelectors_hit (doc : node) (tried : list selector) (sel : selector)
    (rest : list selector) (text : string) :
  (forall s, In s tried -> firstPlausible (select doc s) = None) ->
  firstPlausible (select doc sel) = Some text ->
  value (tryHeaderSelectors doc (tried ++ sel :: rest)) = Some text
  /\ queries (trace (tryHeaderSelectors doc (tried ++ sel :: rest))) = tried ++ [sel].
Proof.
  intros N H. induction tried as [|s tried IH]; cbn [app tryHeaderSelectors].
  - rewrite value_bind, queries_bind. unfold querySelectorAll at 1 2 3.
    cbn [value trace fst snd]. rewrite H. split; reflexivity.
  - rewrite value_bind, queries_bind. unfold querySelectorAll at 1 2 3.
    cbn [value trace fst snd]. rewrite (N s (or_introl eq_refl)).
    destruct IH as [V Q]; [intros s' I; apply N; now right|].
    rewrite V, Q. split; reflexivity.
Qed.

Lemma tryHeaderSelectors_miss (doc : node) (selectors : list selector) :
  (forall s, In s selectors -> firstPlausible (select doc s) = None) ->
  value (tryHeaderSelectors doc selectors) = None
  /\ queries (trace (tryHeaderSelectors doc selectors)) = selectors.
Proof.
  intros N. induction selectors as [|s rest IH]; cbn [tryHeaderSelectors].
  - split; reflexivity.
  - rewrite value_bind, queries_bind. unfold querySelectorAll at 1 2 3.
    cbn [value trace fst snd]. rewrite (N s (or_introl eq_refl)).
    destruct IH as [V Q]; [intros s' I; apply N; now right|].
    rewrite V, Q. split; reflexivity.
Qed.

(** What the Name Locator returns, by the first selector that gives a
    text. *)
Lemma extractSystemName_cases (doc : node) :
  (exists tried sel rest text,
      headerSelectors = tried ++ sel :: rest
      /\ (forall s, In s tried -> firstPlausible (select doc s) = None)
      /\ firstPlausible (select doc sel) = Some text
      /\ value (extractSystemName doc) = Some text
      /\ queries (trace (extractSystemName doc)) = tried ++ [sel])
  \/ ((forall s, In s headerSelectors -> firstPlausible (select doc s) = None)
      /\ value (extractSystemName doc) = firstSystemH6 (select doc h6Selector)
      /\ queries (trace (extractSystemName doc)) = nameSelectors).
Proof.
  assert (Split : forall l : list selector,
            (exists tried sel rest text,
                l = tried ++ sel :: rest
                /\ (forall s, In s tried -> firstPlausible (select doc s) = None)
                /\ firstPlausible (select doc sel) = Some text)
            \/ (forall s, In s l -> firstPlausible (select doc s) = None)).
  { induction l as [|s l IH].
    - right. intros s [].
    - destruct (firstPlausible (select doc s)) as [text|] eqn:E.
      + left. exists [], s, l, text. split; [reflexivity|]. split; [intros ? []|exact E].
      + destruct IH as [(tried & sel & rest & text & -> & N & H) | N].
        * left. exists (s :: tried), sel, rest, text. split; [reflexivity|].
          split; [|exact H]. intros s' [<- | I]; [exact E | now apply N].
        * right. intros s' [<- | I]; [exact E | now apply N]. }
  destruct (Split headerSelectors) as [(tried & sel & rest & text & E & N & H) | N].
  - left. exists tried, sel, rest, text.
    split; [exact E|]. split; [exact N|]. split; [exact H|].
    destruct (tryHeaderSelectors_hit doc tried sel rest text N H) as [V Q].
    unfold extractSystemName. rewrite !value_bind, !queries_bind, E, V, Q.
    cbn. split; [reflexivity | now rewrite app_nil_r].
  - right. split; [exact N|].
    destruct (tryHeaderSelectors_miss doc headerSelectors N) as [V Q].
    unfold extractSystemName. rewrite !value_bind, !queries_bind, V, Q.
    rewrite value_bind, queries_bind. unfold querySelectorAll. cbn [value trace fst snd].
    destruct (firstSystemH6 (select doc h6Selector)); cbn; split; reflexivity.
Qed.



(** X2. The Name Locator tries its four header selectors in order and stops
    at the first that gives a text: that text is the name and no later
    selector is queried.  Only when none of the four gives a text does it
    scan all [h6] elements. *)
Theorem name_search_order (doc : node) :
  (forall tried sel rest text,
     headerSelectors = tried ++ sel :: rest ->
     (forall s, In s tried -> firstPlausible (select doc s) = None) ->
     firstPlausible (select doc sel) = Some text ->
     value (extractSystemName doc) = Some text
     /\ queries (trace (extractSystemName doc)) = tried ++ [sel])
  /\ ((forall s, In s headerSelectors -> firstPlausible (select doc s) = None) ->
      value (extractSystemName doc) = firstSystemH6 (select doc h6Selector)
      /\ queries (trace (extractSystemName doc)) = headerSelectors ++ [h6Selector])
  /\ (In h6Selector (queries (trace (extractSystemName doc))) ->
      forall s, In s headerSelectors -> firstPlausible (select doc s) = None).
Proof.
  split; [|split].
  - intros tried sel rest text E N H.
    destruct (tryHeaderSelectors_hit doc tried sel rest text N H) as [V Q].
    unfold extractSystemName. rewrite !value_bind, !queries_bind, E, V, Q.
    cbn. split; [reflexivity | now rewrite app_nil_r].
  - intros N.
    destruct (extractSystemName_cases doc)
      as [(tried & sel & rest & text & E & _ & H & _) | (_ & V & Q)].
    + rewrite (N sel) in H; [discriminate H|].
      rewrite E. apply in_or_app. right. now left.
    + split; [exact V | exact Q].
  - intros I.
    destruct (extractSystemName_cases doc)
      as [(tried & sel & rest & text & E & _ & _ & _ & Q) | (N & _)]; [|exact N].
    exfalso. rewrite Q in I.
    assert (S : In h6Selector headerSelectors).
    { rewrite E. apply in_app_or in I. destruct I as [I | [<- | []]].
      - apply in_or_app. now left.
      - apply in_or_app. right. now left. }
    cbn in S. repeat (destruct S as [S | S]; [discriminate S|]). exact S.
Qed.

(** On [egmurPage] the first selector gives the name; on [plainHeadingPage]
    none of the four does. *)
Lemma name_search_order_witness :
  queries (trace (extractSystemName Pages.egmurPage)) = [[[Tag "main"; Tag "header"; Tag "h6"]]]
  /\ queries (trace (extractSystemName plainHeadingPage)) = headerSelectors ++ [h6Selector].
Proof.
  destruct (name_search_order Pages.egmurPage) as (Hit & _).
  destruct (name_search_order plainHeadingPage) as (_ & Miss & _).
  split.
  - apply (Hit [] [[Tag "main"; Tag "header"; Tag "h6"]]
               (tl headerSelectors) "Egmur").
    + reflexivity.
    + intros s [].
    + vm_compute. reflexivity.
  - apply Miss. intros s I. cbn in I.
    repeat (destruct I as [<- | I]; [vm_compute; reflexivity|]). destruct I.
Defined.

(** X3. A name that contains SHORTEST, SECURE, Settings or Route is returned
    only when a header selector finds it: the scan over all [h6] elements
    passes over such headings. *)
Theorem interface_text_only_from_headers (doc : node) (sysName : string) :
  value (extractSystemName doc) = Some sysName ->
  notInterfaceText sysName = false ->
  exists sel, In sel headerSelectors /\ firstPlausible (select doc sel) = Some sysName.
Proof.
  intros V N.
  destruct (extractSystemName_cases doc)
    as [(tried & sel & rest & text & E & _ & H & V' & _) | (_ & V' & _)];
    rewrite V' in V.
  - inversion V; subst. exists sel. split; [|exact H].
    rewrite E. apply in_or_app. right. now left.
  - destruct (firstSystemH6_origin _ _ V) as (_ & N' & _).
    rewrite N' in N. discriminate N.
Qed.

(** On [routeNamePage] the name holds the word Route and comes from the
    first header selector. *)
Lemma interface_text_only_from_headers_witness :
  exists sel, In sel headerSelectors
              /\ firstPlausible (select routeNamePage sel) = Some "Route 66".
Proof.
  apply (interface_text_only_from_headers routeNamePage "Route 66");
    vm_compute; reflexivity.
Defined.

End NameLocator.

(* ------------------------------------------------------------------------- *)
(** ** More on the Classifier Extractor and the Mode Detector *)
(* ------------------------------------------------------------------------- *)

Section ClassifierAndMode.

Import Scraper Spec More.

Lemma connectionAt_class (s m : string) :
  JS.connectionAt s = Some m -> In m connectionClasses.
Proof.
  unfold JS.connectionAt.
  destruct s as [|c [|d rest]]; try discriminate.
  - destruct c as [[] [] [] [] [] [] [] []]; discriminate.
  - destruct c as [[] [] [] [] [] [] [] []]; try discriminate.
    destruct d as [[] [] [] [] [] [] [] []]; cbn; intros H; try discriminate H;
      inversion H; cbn; tauto.
Qed.

Lemma matchConnection_class (s m : string) :
  JS.matchConnection s = Some m -> In m connectionClasses.
Proof.
  induction s as [|c rest IH]; rewrite matchConnection_eq.
  - discriminate.
  - destruct (JS.connectionAt (String c rest)) as [m'|] eqn:E.
    + intros H. inversion H; subst. exact (connectionAt_class _ _ E).
    + exact IH.
Qed.

(** The loop of strategy 1 as a search: the first node whose text holds the
    name. *)
Lemma scanMapNodes_find (systemName : string) (mapNodes : list located) :
  value (scanMapNodes systemName mapNodes)
  = match find (fun node => JS.includes (textContent (self node)) systemName) mapNodes with
    | Some node => Fields (JS.matchSecurity (textContent (self node)))
                          (JS.matchConnection (textContent (self node)))
    | None => Fields None None
    end.
Proof.
  induction mapNodes as [|node rest IH]; cbn [scanMapNodes find]; [reflexivity|].
  destruct (JS.includes (textContent (self node)) systemName); [|exact IH].
  destruct (JS.matchSecurity (textContent (self node)));
    destruct (JS.matchConnection (textContent (self node))); reflexivity.
Qed.

Lemma scanMapNodes_class (systemName : string) (mapNodes : list located) :
  classOk (value (scanMapNodes systemName mapNodes)).
Proof.
  rewrite scanMapNodes_find.
  destruct (find _ mapNodes) as [node|]; intros c H; cbn in H; [|discriminate H].
  exact (matchConnection_class _ _ H).
Qed.

Lemma scanSystemType_class (element : located) (f : fields) :
  classOk f -> classOk (value (scanSystemType element f)).
Proof.
  intros Hf. unfold scanSystemType.
  destruct (JS.matchConnection (JS.trim (textContent (self element)))) as [m|] eqn:E.
  - intros c H. cbn in H. inversion H; subst. exact (matchConnection_class _ _ E).
  - destruct (JS.matchSecurity (JS.trim (textContent (self element)))); exact Hf.
Qed.

Lemma strategy3_class (doc : node) (f : fields) :
  classOk f -> classOk (value (strategy3 doc f)).
Proof.
  intros Hf c. rewrite strategy3_connection.
  destruct (JS.truthy (connection f)); [apply Hf|].
  destruct (hd_error (select doc headerAreaSelector)) as [area|]; [|apply Hf].
  destruct (JS.matchConnection (textContent (self area))) as [m|] eqn:E; [|apply Hf].
  intros H. inversion H; subst. exact (matchConnection_class _ _ E).
Qed.

(** X4. A connection class that the Classifier Extractor returns is one of
    C1, C2, C3, C4, C5 and C6. *)
Theorem connectionType_is_a_class (doc : node) (systemName tag : string) :
  connectionType (value (extractSecurityAndConnection doc systemName)) = Some tag ->
  In tag connectionClasses.
Proof.
  rewrite extractSecurityAndConnection_value, finish_connectionType.
  apply strategy3_class. unfold strategy2.
  assert (C1 : classOk (value (strategy1 doc systemName))).
  { unfold strategy1. rewrite value_bind. apply scanMapNodes_class. }
  destruct (negb (JS.truthy (rating (value (strategy1 doc systemName))))
            && negb (JS.truthy (connection (value (strategy1 doc systemName)))));
    [|exact C1].
  rewrite value_bind.
  apply (forEach_invariant scanSystemType classOk); [|exact C1].
  intros x s. apply scanSystemType_class.
Qed.

Lemma connectionType_is_a_class_witness : In "C4" connectionClasses.
Proof.
  apply (connectionType_is_a_class Pages.layeredPage "Egmur").
  vm_compute. reflexivity.
Defined.

(** X5. Strategy 1 of the Classifier Extractor reads one map node only: the
    first, in document order, whose text holds the name.  Rating and class
    are the first matches in the text of that node, and a later node is not
    read even when the first holds neither. *)
Theorem first_map_node_decides (doc : node) (systemName : string) :
  value (strategy1 doc systemName)
  = match find (fun node => JS.includes (textContent (self node)) systemName)
               (select doc mapNodeSelector) with
    | Some node => Fields (JS.matchSecurity (textContent (self node)))
                          (JS.matchConnection (textContent (self node)))
    | None => Fields None None
    end.
Proof.
  unfold strategy1. rewrite value_bind. apply scanMapNodes_find.
Qed.

(** On [twoNodesPage] the first node that holds the name is a bare label,
    so strategy 1 finds nothing and the rating of the second node is not
    used. *)
Example first_map_node_example :
  value (extractSecurityAndConnection twoNodesPage "Egmur") = Classification "Unknown" None.
Proof. vm_compute. reflexivity. Qed.

Lemma firstActiveTab_cons (button : located) (rest : list located) :
  firstActiveTab (button :: rest)
  = if activeTab button then Some (label button) else firstActiveTab rest.
Proof. reflexivity. Qed.

(** The loop over the tabs as a search for the first accepted one. *)
Lemma firstActiveTab_first (tabButtons : list located) (text : string) :
  firstActiveTab tabButtons = Some text
  <-> exists before button after,
        tabButtons = before ++ button :: after
        /\ (forall b, In b before -> activeTab b = false)
        /\ activeTab button = true /\ label button = text.
Proof.
  induction tabButtons as [|b rest IH].
  - split; [discriminate|]. intros (before & button & after & E & _).
    destruct before; discriminate E.
  - rewrite firstActiveTab_cons. destruct (activeTab b) eqn:A.
    + split.
      * intros H. inversion H; subst. exists [], b, rest.
        split; [reflexivity|]. split; [intros ? []|]. now split.
      * intros (before & button & after & E & N & A' & L).
        destruct before as [|x before]; cbn in E; injection E as Eb Er.
        -- subst button. now rewrite L.
        -- subst x. rewrite (N b (or_introl eq_refl)) in A. discriminate A.
    + rewrite IH. split.
      * intros (before & button & after & -> & N & A' & L).
        exists (b :: before), button, after. split; [reflexivity|].
        split; [|now split]. intros x [<- | I]; [exact A | now apply N].
      * intros (before & button & after & E & N & A' & L).
        destruct before as [|x before]; cbn in E; injection E as Eb Er.
        -- subst button. rewrite A' in A. discriminate A.
        -- subst x rest. exists before, button, after. split; [reflexivity|].
           split; [|now split]. intros y I. apply N. now right.
Qed.

(** X6. The Mode Detector returns SECURE exactly when the first button or
    tab, in document order, that is labelled SHORTEST or SECURE (whatever the
    case of the letters and the white space around the label) and marked
    active is labelled SECURE. *)
Theorem secure_iff_first_active_tab_is_secure (doc : node) :
  value (detectActiveTab doc) = "SECURE"
  <-> exists before button after,
        select doc tabButtonSelector = before ++ button :: after
        /\ (forall b, In b before -> activeTab b = false)
        /\ activeTab button = true /\ label button = "SECURE".
Proof.
  rewrite detectActiveTab_value, <- firstActiveTab_first.
  destruct (firstActiveTab (select doc tabButtonSelector)) as [text|].
  - split; intros H; [now subst | now inversion H].
  - split; discriminate.
Qed.

(** On [securePage] the SHORTEST tab is not marked active and the second
    button, labelled " secure " and marked by its class, is. *)
Lemma secure_iff_first_active_tab_is_secure_witness :
  value (detectActiveTab securePage) = "SECURE".
Proof.
  apply (proj2 (secure_iff_first_active_tab_is_secure securePage)).
  exists [shortestTab], secureTab, [].
  split; [vm_compute; reflexivity|].
  split; [intros x [<- | []]; vm_compute; reflexivity|].
  split; vm_compute; reflexivity.
Defined.

End ClassifierAndMode.

(* ------------------------------------------------------------------------- *)
(** ** More on the Destination Extractor *)
(* ------------------------------------------------------------------------- *)

Section MoreDestinations.

Import Scraper Spec More.

Lemma parseInt_of_empty : JS.parseInt "" = None.
Proof. reflexivity. Qed.

Lemma numeric_nonempty (text : string) :
  JS.isNaN (JS.parseInt text) = false -> 0 < String.length text.
Proof.
  destruct text; [discriminate | intros _; cbn; lia].
Qed.

Lemma readText_ok (texts : list string) (text : string) (r : reading) :
  In text texts -> readingOk texts r -> readingOk texts (readText text r).
Proof.
  intros I [Hn Hj]. unfold readText.
  destruct (negb (JS.isNaN (JS.parseInt text))) eqn:P; cbn [andb].
  - destruct (String.length text <=? 3) eqn:L; cbn [andb].
    + split; [exact Hn|]. intros j H. cbn in H. inversion H; subst.
      apply Nat.leb_le in L. apply negb_true_iff in P.
      split; [exact I|]. split; [|exact P].
      split; [now apply numeric_nonempty | exact L].
    + assert (T : JS.isNaN (JS.parseInt text) = true \/ 3 < String.length text)
        by (right; now apply Nat.leb_gt in L).
      clear P L. destruct (JS.truthyString text); cbn [andb]; [|now split].
      destruct (0 <? String.length text) eqn:L0; cbn [andb]; [|now split].
      destruct (String.length text <? 30) eqn:L1; cbn [andb]; [|now split].
      destruct (JS.isNaNString text) eqn:N; cbn [andb]; [|now split].
      destruct (JS.includes text "from") eqn:F; cbn [negb andb]; [now split|].
      destruct (JS.includes text "jumps") eqn:J; cbn [negb andb]; [now split|].
      destruct (JS.includes (JS.toLowerCase text) "route") eqn:R; cbn [negb andb];
        [now split|].
      split; [|exact Hj]. intros h H. cbn in H. inversion H; subst.
      apply Nat.ltb_lt in L0. apply Nat.ltb_lt in L1.
      split; [exact I|]. repeat split; assumption.
  - assert (T : JS.isNaN (JS.parseInt text) = true \/ 3 < String.length text)
      by (left; now apply negb_false_iff in P).
    destruct (JS.truthyString text); cbn [andb]; [|now split].
    destruct (0 <? String.length text) eqn:L0; cbn [andb]; [|now split].
    destruct (String.length text <? 30) eqn:L1; cbn [andb]; [|now split].
    destruct (JS.isNaNString text) eqn:N; cbn [andb]; [|now split].
    destruct (JS.includes text "from") eqn:F; cbn [negb andb]; [now split|].
    destruct (JS.includes text "jumps") eqn:J; cbn [negb andb]; [now split|].
    destruct (JS.includes (JS.toLowerCase text) "route") eqn:R; cbn [negb andb];
      [now split|].
    split; [|exact Hj]. intros h H. cbn in H. inversion H; subst.
    apply Nat.ltb_lt in L0. apply Nat.ltb_lt in L1.
    split; [exact I|]. repeat split; assumption.
Qed.

Lemma readTexts_ok (texts : list string) (l : list located) (r : reading) :
  (forall textEl, In textEl l -> In (JS.trim (textContent (self textEl))) texts) ->
  readingOk texts r ->
  readingOk texts
    (fold_left (fun r textEl => readText (JS.trim (textContent (self textEl))) r) l r).
Proof.
  revert r. induction l as [|x rest IH]; intros r I R; cbn [fold_left]; [exact R|].
  apply IH; [intros e He; apply I; now right|].
  apply readText_ok; [apply I; now left | exact R].
Qed.

(** X7. A destination that [extractDestinationFromElement] returns is made
    of two trimmed texts of text elements inside the element.  Its jump
    count has between one and three code units and [parseInt] reads a
    number at its start.  Its name has between 1 and 29 code units, is a
    text for which [isNaN] is true (as a whole it does not convert to a
    number), did not pass the test of a jump count, and holds neither
    "from" nor "jumps" nor, in any case of the letters, "route".  A name
    may begin with digits: [parseInt] is not applied to decide on
    names. *)
Theorem destination_of_element_passes_tests (element : located) (d : destination) :
  value (extractDestinationFromElement element) = Some d ->
  In (name d) (textsOf element) /\ nameOk (name d)
  /\ In (jumps d) (textsOf element) /\ jumpsOk (jumps d).
Proof.
  rewrite extractDestinationFromElement_value. cbn zeta.
  assert (R : readingOk (textsOf element)
                (fold_left (fun r textEl => readText (JS.trim (textContent (self textEl))) r)
                           (querySelectorAllIn element textElementSelector)
                           (Reading None None))).
  { apply readTexts_ok.
    - intros textEl I. unfold textsOf.
      exact (in_map (fun e => JS.trim (textContent (self e))) _ _ I).
    - split; intros x H; discriminate H. }
  set (r := fold_left _ _ _) in *. destruct R as [Hn Hj].
  destruct (hubName r) as [h|]; [|intros H; discriminate H].
  destruct (jumpCount r) as [j|]; [|intros H; discriminate H].
  destruct (JS.truthyString h && JS.truthyString j); [|intros H; discriminate H].
  intros H. inversion H; subst. cbn [name jumps].
  destruct (Hn h eq_refl) as [I1 N1]. destruct (Hj j eq_refl) as [I2 N2].
  split; [exact I1|]. split; [exact N1|]. split; [exact I2 | exact N2].
Qed.

(** In the accordion of [accordionPage] the name is "Perimeter" and the
    jump count "3"; the text "jumps from here" is passed over. *)
Lemma destination_of_element_passes_tests_witness :
  value (extractDestinationFromElement accordionLocated) = Some (Destination "Perimeter" "3")
  /\ nameOk "Perimeter" /\ jumpsOk "3".
Proof.
  assert (V : value (extractDestinationFromElement accordionLocated)
              = Some (Destination "Perimeter" "3")) by (vm_compute; reflexivity).
  destruct (destination_of_element_passes_tests accordionLocated _ V) as (_ & N & _ & J).
  split; [exact V|]. split; [exact N | exact J].
Defined.

(** "12 Jita" is returned as a name, though [parseInt] reads 12 from it: it
    has more than three code units and [isNaN] is true of it. *)
Example name_may_begin_with_digits :
  value (extractDestinationFromElement numberedNameLocated) = Some (Destination "12 Jita" "3")
  /\ JS.parseInt "12 Jita" = Some 12%Z
  /\ JS.isNaNString "12 Jita" = true.
Proof. vm_compute. repeat split. Qed.






(** The sibling text "12 jumps" is returned whole as the jump count. *)
Example jump_count_may_go_on_after_the_number :
  value (extractAllDestinationsFromContainer wordyPanelLocated)
  = [Destination "Jita" "12 jumps"].
Proof. vm_compute. reflexivity. Qed.


Lemma forEach_pushPanelDestinations (panels : list located) (ds : list destination) :
  value (forEach panels pushPanelDestinations ds)
  = ds ++ flat_map (fun panel => value (extractAllDestinationsFromContainer panel))
                   (filter (fun panel => isVisible (self panel)) panels).
Proof.
  revert ds. induction panels as [|panel rest IH]; intros ds; cbn [forEach filter].
  - cbn. now rewrite app_nil_r.
  - rewrite value_bind, IH. unfold pushPanelDestinations at 1.
    destruct (isVisible (self panel)); cbn [flat_map].
    + rewrite value_bind. cbn [value ret fst]. now rewrite <- app_assoc.
    + reflexivity.
Qed.

Lemma panelStrategy_value (doc : node) (ds : list destination) :
  value (panelStrategy doc ds)
  = match ds with
    | [] => panelDestinations doc
    | _ :: _ => ds
    end.
Proof.
  unfold panelStrategy. destruct ds as [|d ds]; cbn [List.length Nat.eqb]; [|reflexivity].
  rewrite !value_bind. apply (forEach_pushPanelDestinations _ []).
Qed.

Lemma destinations_by_first_strategy_that_yields_aux (doc : node) (activeTab : string) :
  value (extractDestinations doc activeTab)
  = match destinationsOf (select doc hubSummarySelector) with
    | d :: ds => d :: ds
    | [] =>
        match destinationsOf (select doc accordionSelector) with
        | d :: ds => d :: ds
        | [] => panelDestinations doc
        end
    end.
Proof.
  rewrite extractDestinations_value, hubSummaryStrategy_value.
  rewrite accordionStrategy_value.
  destruct (destinationsOf (select doc hubSummarySelector)) as [|d ds].
  - rewrite panelStrategy_value.
    destruct (destinationsOf (select doc accordionSelector)); reflexivity.
  - apply panelStrategy_value.
Qed.

(** X9. The Destination Extractor returns the destinations of the
    hub-summary elements when there are any; else those of the accordion
    elements when there are any; else what the scans of the visible panels
    give, panel after panel.  The result does not depend on the active tab
    it is given. *)
Theorem destinations_by_first_strategy_that_yields (doc : node) :
  (forall activeTab : string,
     value (extractDestinations doc activeTab)
     = match destinationsOf (select doc hubSummarySelector) with
       | d :: ds => d :: ds
       | [] =>
           match destinationsOf (select doc accordionSelector) with
           | d :: ds => d :: ds
           | [] => panelDestinations doc
           end
       end)
  /\ (forall tab1 tab2 : string,
        value (extractDestinations doc tab1) = value (extractDestinations doc tab2)).
Proof.
  split.
  - apply destinations_by_first_strategy_that_yields_aux.
  - intros tab1 tab2.
    now rewrite !destinations_by_first_strategy_that_yields_aux.
Qed.

Lemma hidden_isVisible (panel : located) : hidden panel -> isVisible (self panel) = false.
Proof.
  unfold isVisible. intros [-> | ->]; cbn; [reflexivity | apply andb_false_r].
Qed.

(** X10. A hidden panel, one whose computed display is "none" or whose
    computed visibility is "hidden", is not scanned: when no hub-summary and
    no accordion element gives a destination, the result is what the scans
    of the other panels that are visible give, in their order, and it is
    empty when every panel is hidden.  This is about the panel as a
    container of a scan; elements of a hidden panel that lies inside a
    visible panel are still reached by the scan of the visible one. *)
Theorem hidden_panels_are_not_read (doc : node) (activeTab : string) :
  destinationsOf (select doc hubSummarySelector) = [] ->
  destinationsOf (select doc accordionSelector) = [] ->
  (forall before panel after,
     select doc panelSelector = before ++ panel :: after ->
     hidden panel ->
     value (extractDestinations doc activeTab)
     = flat_map (fun p => value (extractAllDestinationsFromContainer p))
                (filter (fun p => isVisible (self p)) (before ++ after)))
  /\ ((forall panel, In panel (select doc panelSelector) -> hidden panel) ->
      value (extractDestinations doc activeTab) = []).
Proof.
  intros A B. rewrite destinations_by_first_strategy_that_yields_aux, A, B.
  unfold panelDestinations. split.
  - intros before panel after E H. rewrite E, !filter_app. cbn [filter].
    now rewrite (hidden_isVisible panel H).
  - intros H.
    assert (F : filter (fun panel => isVisible (self panel)) (select doc panelSelector) = []).
    { induction (select doc panelSelector) as [|p rest IH]; [reflexivity|].
      cbn [filter]. rewrite (hidden_isVisible p (H p (or_introl eq_refl))).
      apply IH. intros q I. apply H. now right. }
    now rewrite F.
Qed.

(** On [mixedPanelsPage] the hidden panel lists Jita and the visible one
    Hek: only Hek is found.  On [hiddenPanelPage] the only panel is hidden:
    nothing is found. *)
Lemma hidden_panels_are_not_read_witness :
  value (extractDestinations mixedPanelsPage "SHORTEST") = [Destination "Hek" "16"]
  /\ value (extractDestinations hiddenPanelPage "SHORTEST") = [].
Proof.
  split.
  - assert (A : destinationsOf (select mixedPanelsPage hubSummarySelector) = [])
      by (vm_compute; reflexivity).
    assert (B : destinationsOf (select mixedPanelsPage accordionSelector) = [])
      by (vm_compute; reflexivity).
    destruct (hidden_panels_are_not_read mixedPanelsPage "SHORTEST" A B) as [One _].
    rewrite (One [] mixedHiddenLocated [mixedVisibleLocated]).
    + vm_compute. reflexivity.
    + vm_compute. reflexivity.
    + left. vm_compute. reflexivity.
  - assert (A : destinationsOf (select hiddenPanelPage hubSummarySelector) = [])
      by (vm_compute; reflexivity).
    assert (B : destinationsOf (select hiddenPanelPage accordionSelector) = [])
      by (vm_compute; reflexivity).
    destruct (hidden_panels_are_not_read hiddenPanelPage "SHORTEST" A B) as [_ All].
    apply All. intros panel I. vm_compute in I. destruct I as [<- | []].
    left. reflexivity.
Defined.

(** A hidden panel inside a visible panel: the scan of the visible panel
    visits all its descendants and finds what the hidden one lists. *)
Example hidden_panel_inside_a_visible_one :
  value (extractDestinations nestedPanelPage "SHORTEST") = [Destination "Jita" "14"].
Proof. vm_compute. reflexivity. Qed.

End MoreDestinations.

(* ------------------------------------------------------------------------- *)
(** ** More on getSystemData *)
(* ------------------------------------------------------------------------- *)

Section Outcomes.

Import Scraper Spec More.

Lemma truthy_append (s t : string) :
  JS.truthyString s = true -> JS.truthyString (s +++ t) = true.
Proof. destruct s; [discriminate | reflexivity]. Qed.

(** X11. [getSystemData] has three outcomes.  It succeeds exactly when a name
    is found and at least one destination; then no error is set and the
    body is not empty.  Otherwise the body is empty and the error is
    "No system selected." when no name was found, and the text about the
    destination data when a name was found.  The header is never empty. *)
Theorem getSystemData_outcomes (doc : node) :
  let r := value (getSystemData doc) in
  let dests := value (extractDestinations doc (value (detectActiveTab doc))) in
  (success r = true
   <-> (exists sysName, value (extractSystemName doc) = Some sysName) /\ dests <> [])
  /\ (success r = true -> error r = None /\ JS.truthyString (destinations r) = true)
  /\ (success r = false -> destinations r = "")
  /\ (error r = Some "No system selected." <-> value (extractSystemName doc) = None)
  /\ (error r = Some noDestinationData
      <-> (exists sysName, value (extractSystemName doc) = Some sysName) /\ dests = [])
  /\ JS.truthyString (header r) = true.
Proof.
  intros r dests. unfold r. rewrite getSystemData_value.
  assert (V := extractDestinations_visible doc (value (detectActiveTab doc))).
  fold dests in V.
  destruct (value (extractSystemName doc)) as [sysName|] eqn:N.
  - assert (T := extractSystemName_truthy doc sysName N).
    cbn zeta. fold dests. destruct dests as [|d ds].
    + cbn [success error destinations header].
      split; [split; [discriminate | intros [_ H]; now contradiction H]|].
      split; [discriminate|]. split; [reflexivity|].
      split; [split; discriminate|].
      split; [split; [intros _; split; [now exists sysName | reflexivity] | reflexivity]|].
      unfold headerSegments.
      destruct (connectionType _); apply truthy_append, T.
    + cbn [success error destinations header].
      split; [split; [intros _; split; [now exists sysName | discriminate] | reflexivity]|].
      split; [intros _; split; [reflexivity|]|].
      { inversion V as [|? ? Vd _]; subst.
        apply startsVisible_not_blank. now apply join_startsVisible. }
      split; [discriminate|].
      split; [split; discriminate|].
      split; [split; [discriminate | intros [_ H]; discriminate H]|].
      apply truthy_append. unfold headerSegments.
      destruct (connectionType _); apply truthy_append, T.
  - cbn [noSelection success error destinations header].
    split; [split; [discriminate | intros [[n H] _]; discriminate H]|].
    split; [discriminate|]. split; [reflexivity|].
    split; [split; reflexivity|].
    split; [split; [discriminate | intros [[n H] _]; discriminate H]|].
    reflexivity.
Qed.

Lemma getSystemData_outcomes_witness :
  error (value (getSystemData Pages.egmurPage)) = None
  /\ destinations (value (getSystemData Pages.collapsedPage)) = ""
  /\ value (extractSystemName Pages.blankPage) = None.
Proof.
  destruct (getSystemData_outcomes Pages.egmurPage) as (_ & S & _).
  destruct (getSystemData_outcomes Pages.collapsedPage) as (_ & _ & F & _).
  destruct (getSystemData_outcomes Pages.blankPage) as (_ & _ & _ & N & _).
  split; [apply S; vm_compute; reflexivity|].
  split; [apply F; vm_compute; reflexivity|].
  apply (proj1 N). vm_compute. reflexivity.
Defined.

(** The queries of a run, helper by helper. *)
Lemma getSystemData_queries (doc : node) :
  queries (trace (getSystemData doc))
  = queries (trace (extractSystemName doc))
    ++ match value (extractSystemName doc) with
       | Some sysName =>
           queries (trace (extractSecurityAndConnection doc sysName))
           ++ queries (trace (detectActiveTab doc))
           ++ queries (trace (extractDestinations doc (value (detectActiveTab doc))))
       | None => []
       end.
Proof.
  unfold getSystemData. rewrite !queries_bind. cbn [log trace snd queries app].
  f_equal.
  destruct (value (extractSystemName doc)) as [sysName|] eqn:N; [|reflexivity].
  rewrite (extractSystemName_truthy _ _ N).
  rewrite !queries_bind. cbn [log trace snd queries app].
  f_equal. f_equal.
  destruct (List.length (value (extractDestinations doc (value (detectActiveTab doc)))) =? 0);
    cbn; now rewrite app_nil_r.
Qed.

Lemma classifier_query_count (doc : node) (systemName : string) :
  List.length (queries (trace (extractSecurityAndConnection doc systemName))) <= 3.
Proof.
  rewrite extractSecurityAndConnection_queries.
  destruct (negb _ && negb _); destruct (negb _ || negb _); cbn; lia.
Qed.

Lemma detectActiveTab_queries (doc : node) :
  queries (trace (detectActiveTab doc)) = [tabButtonSelector].
Proof.
  unfold detectActiveTab. rewrite !queries_bind. cbn [log trace snd queries app].
  unfold querySelectorAll. cbn [value trace fst snd queries app].
  destruct (firstActiveTab (select doc tabButtonSelector)); reflexivity.
Qed.

Lemma destination_query_count (doc : node) (activeTab : string) :
  List.length (queries (trace (extractDestinations doc activeTab))) <= 3.
Proof.
  rewrite (proj1 (extractDestinations_marks doc activeTab)).
  destruct (value (hubSummaryStrategy doc));
    destruct (value (accordionStrategy doc [])); cbn; lia.
Qed.

(** X12. One run of [getSystemData] calls [document.querySelectorAll] and
    [document.querySelector] at most twelve times together, whatever the
    page holds, and exactly five times, with the selectors of the Name
    Locator, when no name is found.  Only the queries on [document] are
    events of the trace and are counted here; the queries that the two
    destination helpers make inside an element (lines 581 and 627) are made
    once for every element they are given and are not bounded. *)
Theorem getSystemData_query_count (doc : node) :
  List.length (queries (trace (getSystemData doc))) <= 12
  /\ (value (extractSystemName doc) = None ->
      queries (trace (getSystemData doc)) = nameSelectors).
Proof.
  rewrite getSystemData_queries.
  assert (Ln : List.length (queries (trace (extractSystemName doc))) <= 5
               /\ (value (extractSystemName doc) = None ->
                   queries (trace (extractSystemName doc)) = nameSelectors)).
  { destruct (extractSystemName_cases doc)
      as [(tried & sel & rest & text & E & _ & _ & V & Q) | (_ & V & Q)].
    - rewrite V, Q. split; [|discriminate].
      assert (L4 : List.length headerSelectors = 4) by reflexivity.
      rewrite E in L4. rewrite !length_app in *. cbn [List.length] in *. lia.
    - rewrite Q. split; [cbn; lia | reflexivity]. }
  destruct Ln as [Ln Qn].
  destruct (value (extractSystemName doc)) as [sysName|].
  - split; [|discriminate].
    assert (Lc := classifier_query_count doc sysName).
    assert (Ld := destination_query_count doc (value (detectActiveTab doc))).
    rewrite !length_app, detectActiveTab_queries. cbn [List.length]. lia.
  - split; [rewrite app_nil_r; lia|].
    intros _. rewrite app_nil_r. now apply Qn.
Qed.

Lemma getSystemData_query_count_witness :
  queries (trace (getSystemData Pages.blankPage)) = nameSelectors.
Proof.
  apply (proj2 (getSystemData_query_count Pages.blankPage)).
  vm_compute. reflexivity.
Defined.

End Outcomes.

(* ------------------------------------------------------------------------- *)
(** ** The popup: showing the result, delivery, copying, storage *)
(* ------------------------------------------------------------------------- *)

Section ShowingTheResult.

Import Scraper Spec.

(** X13. For the object that [getSystemData] returns, the callback enables
    the copy and the send button exactly when the extraction succeeded, and
    always sets both buttons alike.  On success the texts it assigns to the
    two display elements are the header and the body; on failure it assigns
    the error text in place of the header, and the empty text as body.
    (What the page then shows is the rendering of these texts.) *)
Theorem buttons_follow_the_result (doc : node) (v : Activation.view) :
  let r := value (getSystemData doc) in
  let v' := Activation.onResults None (Some r) v in
  (Activation.enabled v' = true <-> success r = true)
  /\ Activation.copyButton v' = Activation.discordButton v'
  /\ (success r = true ->
      Activation.headerData v' = header r /\ Activation.number v' = destinations r)
  /\ (success r = false ->
      Some (Activation.headerData v') = error r /\ Activation.number v' = "").
Proof.
  intros r v'. unfold v', Activation.onResults, r.
  rewrite getSystemData_value.
  assert (V := extractDestinations_visible doc (value (detectActiveTab doc))).
  destruct (value (extractSystemName doc)) as [sysName|].
  - cbn zeta.
    destruct (value (extractDestinations doc (value (detectActiveTab doc)))) as [|d ds].
    + cbn. split; [split; discriminate|]. split; [reflexivity|].
      split; [discriminate|]. intros _; now split.
    + cbn [success header destinations error].
      assert (B : JS.truthyString (JS.join ", " (map pairText (d :: ds))) = true
                  /\ String.eqb (JS.trim (JS.join ", " (map pairText (d :: ds)))) "" = false).
      { inversion V; subst. apply startsVisible_not_blank. now apply join_startsVisible. }
      destruct B as [T B]. rewrite T, B. cbn.
      split; [split; reflexivity|]. split; [reflexivity|].
      split; [intros _; now split | discriminate].
  - cbn. split; [split; discriminate|]. split; [reflexivity|].
    split; [discriminate|]. intros _; now split.
Qed.

Lemma buttons_follow_the_result_witness :
  Activation.enabled (Activation.onResults None
                        (Some (value (getSystemData Pages.egmurPage)))
                        Activation.blankView) = true
  /\ Activation.headerData (Activation.onResults None
                              (Some (value (getSystemData Pages.collapsedPage)))
                              Activation.blankView)
     = "Could not extract destination data. Please ensure the tab is expanded.".
Proof.
  destruct (buttons_follow_the_result Pages.egmurPage Activation.blankView)
    as (En & _).
  destruct (buttons_follow_the_result Pages.collapsedPage Activation.blankView)
    as (_ & _ & _ & F).
  split; [apply (proj2 En); vm_compute; reflexivity|].
  destruct F as [F _]; [vm_compute; reflexivity|].
  vm_compute in F. now inversion F.
Defined.

End ShowingTheResult.

Section MoreDelivery.

Import Popup More.

(** X14. When a pending delivery ends, the texts shown, the address and the
    list of calls made stay as they are and the guard is released.  The
    operator is alerted when fetch rejects, when the status is not in
    200..299, and when a response with another status than 204 and another
    content-length than "0" has a body that does not parse as JSON; there is
    no alert for status 204, for content-length "0" with a status in
    200..299, or for a body that parses. *)
Theorem delivery_end_alerts (s : popup) :
  pending s <> [] ->
  (forall o : fetchOutcome,
     headerData (settle o s) = headerData s
     /\ number (settle o s) = number s
     /\ webhookUrl (settle o s) = webhookUrl s
     /\ sent (settle o s) = sent s
     /\ isSendingToDiscord (settle o s) = false
     /\ (alerts (settle o s) = alerts s \/ alerts (settle o s) = alerts s ++ [failureAlert]))
  /\ alerts (settle Rejected s) = alerts s ++ [failureAlert]
  /\ (forall status contentLength bodyParses,
        ok status = false ->
        alerts (settle (Response status contentLength bodyParses) s)
        = alerts s ++ [failureAlert])
  /\ (forall status contentLength,
        ok status = true -> status <> 204%Z -> contentLength <> Some "0" ->
        alerts (settle (Response status contentLength false) s)
        = alerts s ++ [failureAlert])
  /\ (forall contentLength bodyParses,
        alerts (settle (Response 204 contentLength bodyParses) s) = alerts s)
  /\ (forall status bodyParses,
        ok status = true ->
        alerts (settle (Response status (Some "0") bodyParses) s) = alerts s)
  /\ (forall status contentLength,
        ok status = true ->
        alerts (settle (Response status contentLength true) s) = alerts s).
Proof.
  intros P. destruct (pending s) as [|call others] eqn:E; [now contradiction P|].
  assert (A : forall o, alerts (settle o s)
                        = if fst (sendToDiscordEnds o) then alerts s
                          else alerts s ++ [failureAlert]).
  { intros o. unfold settle. rewrite E.
    destruct (sendToDiscordEnds o) as [[] lines]; reflexivity. }
  split; [|split; [|split; [|split; [|split; [|split]]]]].
  - intros o. repeat split;
      try (unfold settle; rewrite E; destruct (sendToDiscordEnds o); reflexivity).
    rewrite A. destruct (fst (sendToDiscordEnds o)); [now left | now right].
  - now rewrite A.
  - intros status cl b O. rewrite A. cbn. now rewrite O.
  - intros status cl O N C. rewrite A. cbn. rewrite O. cbn.
    destruct (Z.eqb_spec status 204) as [->|_]; [now contradiction N|]. cbn.
    destruct cl as [l|]; [|reflexivity].
    destruct (String.eqb_spec l "0") as [->|_]; [now contradiction C | reflexivity].
  - intros cl b. now rewrite A.
  - intros status b O. rewrite A. cbn. rewrite O. cbn. now rewrite orb_true_r.
  - intros status cl O. rewrite A. cbn. rewrite O. cbn.
    destruct ((status =? 204)%Z || _); reflexivity.
Qed.

(** [busyPopup] has a call in flight: status 500 alerts, and the popup still
    shows the result of the extraction. *)
Lemma delivery_end_alerts_witness :
  alerts (settle (Response 500 None false) Pages.busyPopup) = [failureAlert]
  /\ headerData (settle (Response 500 None false) Pages.busyPopup) = "Egmur, 0.7, C4,"
  /\ alerts (settle (Response 204 None false) Pages.busyPopup) = [].
Proof.
  assert (P : pending Pages.busyPopup <> []) by (vm_compute; discriminate).
  destruct (delivery_end_alerts Pages.busyPopup P) as (K & _ & Bad & _ & NoContent & _).
  split; [rewrite Bad; vm_compute; reflexivity|].
  split; [|rewrite NoContent; vm_compute; reflexivity].
  destruct (K (Response 500 None false)) as (H & _). rewrite H. vm_compute. reflexivity.
Defined.







End MoreDelivery.

Section Calls.

Import Popup More.

Lemma step_callsOk (s : popup) (i : input) :
  guarded s -> callsOk s -> callsOk (step s i).
Proof.
  intros G [F P]. destruct i as [now | o | v | header numbers]; cbn [step].
  - unfold click. destruct (isSendingToDiscord s) eqn:Gs; [now split|].
    destruct (blank (webhookUrl s)) eqn:B; [now split|].
    destruct G as [[G _] | [_ G]]; [rewrite G in Gs; discriminate Gs|].
    split; cbn [sent pending url].
    + apply Forall_app. split; [exact F|]. constructor; [exact B | constructor].
    + right. exists (sent s), (Request (webhookUrl s) (fullText s) now).
      rewrite G. split; reflexivity.
  - unfold settle. destruct (pending s) as [|call others] eqn:E;
      [split; [exact F | now left]|].
    destruct (sendToDiscordEnds o) as [fulfilled lines].
    split; [exact F|]. cbn [pending].
    destruct G as [[_ (c & G)] | [_ G]]; [|rewrite G in E; discriminate E].
    rewrite G in E. inversion E; subst. now left.
  - now split.
  - now split.
Qed.

Lemma run_callsOk (inputs : list input) (s : popup) :
  guarded s -> callsOk s -> callsOk (run s inputs).
Proof.
  revert s. induction inputs as [|i rest IH]; intros s G C; cbn [run fold_left].
  - exact C.
  - apply IH; [now apply step_guarded | now apply step_callsOk].
Qed.

(** X16. Whatever the operator does, the popup never calls [fetch] with an
    empty or blank address, and a call that is pending is always the last
    call made. *)
Theorem no_call_to_a_blank_address (s : popup) :
  reachable s ->
  (forall call, In call (sent s) -> blank (url call) = false)
  /\ (pending s = []
      \/ exists earlier call, sent s = earlier ++ [call] /\ pending s = [call]).
Proof.
  intros (storedUrl & header & numbers & inputs & ->).
  destruct (run_callsOk inputs (initial storedUrl header numbers)) as [F P].
  - apply initial_guarded.
  - split; [constructor | now left].
  - split; [|exact P]. now apply Forall_forall.
Qed.

Lemma no_call_to_a_blank_address_witness :
  reachable Pages.busyBlankPopup
  /\ List.length (sent Pages.busyBlankPopup) = 1
  /\ forallb (fun call => negb (blank (url call))) (sent Pages.busyBlankPopup) = true.
Proof.
  assert (R : reachable Pages.busyBlankPopup).
  { exists "https://discord.com/api/webhooks/1/token", "", "".
    exists [showResult (value (Scraper.getSystemData Pages.egmurPage));
            Click 1000; EditUrl "   "].
    reflexivity. }
  split; [exact R|].
  split; [vm_compute; reflexivity|].
  destruct (no_call_to_a_blank_address Pages.busyBlankPopup R) as [F _].
  apply forallb_forall. intros call I. rewrite (F call I). reflexivity.
Defined.

End Calls.

Section Body.

Import Wire.

Lemma readUnits_quoteUnit (fuel : nat) (c : ascii) (t : string) :
  readUnits (S fuel) (quoteUnit c +++ t)
  = match readUnits fuel t with
    | Some (text, after) => Some (String c text, after)
    | None => None
    end.
Proof.
  destruct c as [[] [] [] [] [] [] [] []]; reflexivity.
Qed.

Lemma readUnits_quoteUnits (s rest : string) (fuel : nat) :
  String.length s < fuel ->
  readUnits fuel (quoteUnits s +++ String quote rest) = Some (s, rest).
Proof.
  revert fuel. induction s as [|c s IH]; intros fuel L.
  - destruct fuel; [cbn in L; lia|]. reflexivity.
  - destruct fuel as [|fuel]; [cbn in L; lia|].
    cbn [quoteUnits]. rewrite append_assoc, readUnits_quoteUnit, IH; [reflexivity|].
    cbn in L. lia.
Qed.

Lemma length_quoteUnit (c : ascii) : 1 <= String.length (quoteUnit c).
Proof.
  apply Nat.leb_le. destruct c as [[] [] [] [] [] [] [] []]; vm_compute; reflexivity.
Qed.

Lemma length_append (s t : string) :
  String.length (s +++ t) = String.length s + String.length t.
Proof. induction s as [|c s IH]; cbn; [reflexivity | now rewrite IH]. Qed.

Lemma length_quoteUnits (s : string) : String.length s <= String.length (quoteUnits s).
Proof.
  induction s as [|c s IH]; [reflexivity|].
  cbn [quoteUnits]. rewrite length_append.
  assert (L := length_quoteUnit c). cbn [String.length]. lia.
Qed.

Lemma dropPrefix_append (p s : string) : dropPrefix p (p +++ s) = Some s.
Proof.
  induction p as [|c p IH]; cbn; [reflexivity|]. now rewrite Ascii.eqb_refl.
Qed.

Lemma body_shape (data : string) :
  body data
  = ("{" +++ String quote ("content" +++ String quote (":" +++ String quote "")))
    +++ (quoteUnits data +++ String quote "}").
Proof.
  unfold body, quoteJSONString. cbn [String.append].
  now rewrite append_assoc.
Qed.

(** X17. The body that is posted is a JSON object with the one property
    [content]; reading it back gives the very text that was to be sent,
    whatever quotes, backslashes or control characters the text holds. *)
Theorem body_carries_the_text (call : Popup.request) :
  readContent (requestBody call) = Some (Popup.content call).
Proof.
  unfold requestBody. generalize (Popup.content call). intros data.
  unfold readContent. rewrite body_shape, dropPrefix_append.
  rewrite readUnits_quoteUnits; [reflexivity|].
  rewrite length_append. assert (L := length_quoteUnits data). cbn. lia.
Qed.

End Body.

Section AddressStorage.

Import Storage.

(** X18. The address saved by the change handler is the one the field holds
    when the popup is opened again, and saving it does not change the saved
    theme.  Without a saved address the field is empty; without a saved
    theme, or with an empty one, the theme is "default". *)
Theorem saved_address_comes_back (st : storage) (address : string) :
  loadWebhookUrl (saveWebhookUrl address st) = address
  /\ savedTheme (saveWebhookUrl address st) = savedTheme st
  /\ (getItem st "webhookUrl" = None -> loadWebhookUrl st = "")
  /\ (getItem st "theme" = None \/ getItem st "theme" = Some "" -> savedTheme st = "default").
Proof.
  split; [|split; [|split]].
  - unfold loadWebhookUrl, saveWebhookUrl, getItem, setItem. cbn.
    destruct address; reflexivity.
  - reflexivity.
  - unfold loadWebhookUrl. now intros ->.
  - unfold savedTheme. now intros [-> | ->].
Qed.

Lemma saved_address_comes_back_witness :
  loadWebhookUrl empty = "" /\ savedTheme empty = "default".
Proof.
  destruct (saved_address_comes_back empty "") as (_ & _ & A & T).
  split; [apply A; reflexivity | apply T; left; reflexivity].
Defined.

End AddressStorage.

Section Copying.

Import Clipboard More.

Lemma step_notificationOk (p : page) (i : input) :
  notificationOk p -> notificationOk (step p i).
Proof.
  intros [T N]. destruct i as [text|]; cbn [step].
  - split; cbn; [lia | intros _; lia].
  - unfold timerFires. destruct (timers p) eqn:E;
      [split; [exact T | intros H; specialize (N H); lia]|].
    split; [exact T | discriminate].
Qed.

Lemma run_copied (inputs : list input) (p : page) :
  copied (run p inputs) = copied p ++ copyTexts inputs.
Proof.
  revert p. induction inputs as [|i rest IH]; intros p; cbn [run fold_left copyTexts flat_map].
  - now rewrite app_nil_r.
  - change (fold_left step rest (step p i)) with (run (step p i) rest).
    rewrite IH. destruct i as [text|]; cbn [step].
    + cbn. now rewrite <- app_assoc.
    + unfold timerFires. destruct (timers p); reflexivity.
Qed.

(** X19. Whatever the sequence of copy clicks and timers: the texts handed
    to the copy command are those of the clicks, in order; no temporary text
    area stays on the page; and while the notification shows, a timer is
    pending that will hide it. *)
Theorem copy_notification_is_hidden_again (inputs : list input) :
  let p := run initial inputs in
  copied p = copyTexts inputs
  /\ textareas p = 0
  /\ (notificationShown p = true -> 0 < timers p)
  /\ notificationShown (timerFires p) = false.
Proof.
  intros p.
  assert (O : notificationOk p).
  { unfold p. generalize initial, (conj eq_refl (fun H => match Bool.diff_false_true H with end)
                                     : notificationOk initial).
    induction inputs as [|i rest IH]; intros q Q; cbn [run fold_left]; [exact Q|].
    apply IH, step_notificationOk, Q. }
  destruct O as [T N].
  split; [apply (run_copied inputs initial)|]. split; [exact T|]. split; [exact N|].
  unfold timerFires. destruct (timers p) eqn:E; [|reflexivity].
  destruct (notificationShown p); [|reflexivity].
  specialize (N eq_refl). lia.
Qed.

Lemma copy_notification_is_hidden_again_witness :
  notificationShown (run initial [Copy "Egmur, 0.7, C4, Jita 14"; Timer; Copy "Egmur, 0.7"]) = true
  /\ 0 < timers (run initial [Copy "Egmur, 0.7, C4, Jita 14"; Timer; Copy "Egmur, 0.7"]).
Proof.
  destruct (copy_notification_is_hidden_again
              [Copy "Egmur, 0.7, C4, Jita 14"; Timer; Copy "Egmur, 0.7"])
    as (_ & _ & N & _).
  split; [reflexivity | apply N; reflexivity].
Defined.

End Copying.
